(** * Telegram Desktop calls: the call-setup state machine of calls_call.cpp

    A shallow embedding of [Telegram/SourceFiles/calls/calls_call.cpp]:
    the [Call] object, its state machine ([setState], [finish], [hangup],
    [handleUpdate], ...), the key-exchange helpers ([ComputeFingerprint],
    the auth-key padding) and the facts the specification states about
    them.

    Conventions of the embedding.
    - A byte is [Byte.byte]; byte buffers ([std::vector<gsl::byte>],
      [std::array<gsl::byte, N>], [QByteArray]) are [list byte].
    - Fixed-width integers are [Z]; shifts and ors are [Z.shiftl], [Z.lor].
    - A member function [void Call::f(args)] is a function
      [f args : Call -> Outcome Call] (or [-> Call] when it has no fatal
      path); [t_assert], [Expects] and [Unexpected] end in [Fatal].
    - Calls to collaborators (the delegate, the observable, the RPC sender,
      the timer, the event queue) are appended to the [effects] log of
      the model state, in program order.
    - [LOG] and [DEBUG_LOG] lines are not modelled. *)

From Stdlib Require Import ZArith Zpow_facts List Bool Lia.
From Stdlib.Strings Require Import String Byte.
Import ListNotations.
Local Open Scope Z_scope.

Abbreviation byte := Byte.byte.

(** [gsl::to_integer<uint64>(b)] *)
Definition to_integer (b : byte) : Z := Z.of_N (Byte.to_N b).

Definition byte_of_Z (z : Z) : byte :=
  match Byte.of_N (Z.to_N (z mod 256)) with
  | Some b => b
  | None => x00
  end.

(** [a ^ b] on [gsl::byte] *)
Definition byte_xor (a b : byte) : byte :=
  byte_of_Z (Z.lxor (to_integer a) (to_integer b)).

Definition bytes_eqb (a b : list byte) : bool :=
  if list_eq_dec Byte.byte_eq_dec a b then true else false.

(** ** OpenSSL primitives

    [openssl::Sha1] and [openssl::Sha256] (base/openssl_help.h) wrap
    OpenSSL's SHA1 and SHA256.  They are given here by the FIPS 180-4
    definitions, so that digests of concrete inputs can be evaluated. *)
Module openssl.

Definition kSha1Size : nat := 20.
Definition kSha256Size : nat := 32.

Definition w32 (z : Z) : Z := z mod 2 ^ 32.
Definition add32 (a b : Z) : Z := w32 (a + b).
Definition rotl32 (n x : Z) : Z :=
  Z.lor (w32 (Z.shiftl x n)) (Z.shiftr x (32 - n)).
Definition rotr32 (n x : Z) : Z := rotl32 (32 - n) x.
Definition not32 (x : Z) : Z := Z.lxor x 0xFFFFFFFF.

Definition be32 (b0 b1 b2 b3 : byte) : Z :=
  Z.lor (Z.shiftl (to_integer b0) 24)
    (Z.lor (Z.shiftl (to_integer b1) 16)
       (Z.lor (Z.shiftl (to_integer b2) 8) (to_integer b3))).

Definition bytes_of_w32 (w : Z) : list byte :=
  [byte_of_Z (Z.shiftr w 24); byte_of_Z (Z.shiftr w 16);
   byte_of_Z (Z.shiftr w 8); byte_of_Z w].

Fixpoint words_of_bytes (l : list byte) : list Z :=
  match l with
  | b0 :: b1 :: b2 :: b3 :: rest => be32 b0 b1 b2 b3 :: words_of_bytes rest
  | _ => []
  end.

(** Message padding: 0x80, zeros up to 56 mod 64, the bit length on 8
    bytes, most significant first. *)
Definition pad (msg : list byte) : list byte :=
  let len := Z.of_nat (List.length msg) in
  let zeros := Z.to_nat ((55 - len) mod 64) in
  let bits := 8 * len in
  msg ++ x80 :: repeat x00 zeros
      ++ bytes_of_w32 (Z.shiftr bits 32) ++ bytes_of_w32 bits.

Fixpoint blocks (fuel : nat) (ws : list Z) : list (list Z) :=
  match fuel, ws with
  | S k, _ :: _ => firstn 16 ws :: blocks k (skipn 16 ws)
  | _, _ => []
  end.

Definition wd (ws : list Z) (i : nat) : Z := nth i ws 0.

(** *** SHA-1 *)

(** The schedule is kept newest first: [rev_ws] holds w[t-1], w[t-2], ... *)
Fixpoint sha1_extend (n : nat) (rev_ws : list Z) : list Z :=
  match n with
  | O => rev_ws
  | S k =>
      let w := rotl32 1 (Z.lxor (Z.lxor (wd rev_ws 2) (wd rev_ws 7))
                                (Z.lxor (wd rev_ws 13) (wd rev_ws 15))) in
      sha1_extend k (w :: rev_ws)
  end.

Definition sha1_f (t : nat) (b c d : Z) : Z * Z :=
  if Nat.ltb t 20 then (Z.lor (Z.land b c) (Z.land (not32 b) d), 0x5A827999)
  else if Nat.ltb t 40 then (Z.lxor (Z.lxor b c) d, 0x6ED9EBA1)
  else if Nat.ltb t 60 then
    (Z.lor (Z.lor (Z.land b c) (Z.land b d)) (Z.land c d), 0x8F1BBCDC)
  else (Z.lxor (Z.lxor b c) d, 0xCA62C1D6).

Definition st5 : Type := Z * Z * Z * Z * Z.

Fixpoint sha1_rounds (t : nat) (ws : list Z) (s : st5) : st5 :=
  match ws with
  | [] => s
  | w :: rest =>
      let '(a, b, c, d, e) := s in
      let '(f, k) := sha1_f t b c d in
      let tmp := add32 (add32 (add32 (add32 (rotl32 5 a) f) e) k) w in
      sha1_rounds (S t) rest (tmp, a, rotl32 30 b, c, d)
  end.

Definition sha1_block (s : st5) (blk : list Z) : st5 :=
  let ws := rev (sha1_extend 64 (rev blk)) in
  let '(a, b, c, d, e) := sha1_rounds 0 ws s in
  let '(h0, h1, h2, h3, h4) := s in
  (add32 h0 a, add32 h1 b, add32 h2 c, add32 h3 d, add32 h4 e).

Definition Sha1 (data : list byte) : list byte :=
  let ws := words_of_bytes (pad data) in
  let '(h0, h1, h2, h3, h4) :=
    fold_left sha1_block (blocks (List.length ws) ws)
      (0x67452301, 0xEFCDAB89, 0x98BADCFE, 0x10325476, 0xC3D2E1F0) in
  bytes_of_w32 h0 ++ bytes_of_w32 h1 ++ bytes_of_w32 h2
    ++ bytes_of_w32 h3 ++ bytes_of_w32 h4.

(** *** SHA-256 *)

(** The round constants are the first 32 bits of the fractional parts of
    the cube roots of the first 64 primes; the initial hash value takes
    the square roots of the first 8.  They are computed from that
    definition. *)
Definition is_prime (n : nat) : bool :=
  forallb (fun d => negb (Nat.eqb (Nat.modulo n d) 0)) (seq 2 (n - 2)).

Definition first_primes (count : nat) : list Z :=
  map Z.of_nat (firstn count (filter is_prime (seq 2 310))).

(** The integer cube root, by bisection between [lo] and [hi]. *)
Fixpoint icbrt (fuel : nat) (lo hi n : Z) : Z :=
  match fuel with
  | O => lo
  | S k =>
      let mid := (lo + hi) / 2 in
      if mid * mid * mid <=? n then icbrt k mid hi n else icbrt k lo mid n
  end.

Definition K256 : list Z :=
  map (fun q => w32 (icbrt 36 0 (2 ^ 35) (q * 2 ^ 96))) (first_primes 64).

Definition H256 : list Z :=
  map (fun q => w32 (Z.sqrt (q * 2 ^ 64))) (first_primes 8).

Definition ssig0 (x : Z) : Z :=
  Z.lxor (Z.lxor (rotr32 7 x) (rotr32 18 x)) (Z.shiftr x 3).
Definition ssig1 (x : Z) : Z :=
  Z.lxor (Z.lxor (rotr32 17 x) (rotr32 19 x)) (Z.shiftr x 10).
Definition bsig0 (x : Z) : Z :=
  Z.lxor (Z.lxor (rotr32 2 x) (rotr32 13 x)) (rotr32 22 x).
Definition bsig1 (x : Z) : Z :=
  Z.lxor (Z.lxor (rotr32 6 x) (rotr32 11 x)) (rotr32 25 x).

Fixpoint sha256_extend (n : nat) (rev_ws : list Z) : list Z :=
  match n with
  | O => rev_ws
  | S k =>
      let w := add32 (add32 (ssig1 (wd rev_ws 1)) (wd rev_ws 6))
                     (add32 (ssig0 (wd rev_ws 14)) (wd rev_ws 15)) in
      sha256_extend k (w :: rev_ws)
  end.

Definition st8 : Type := Z * Z * Z * Z * Z * Z * Z * Z.

Fixpoint sha256_rounds (wks : list (Z * Z)) (s : st8) : st8 :=
  match wks with
  | [] => s
  | (w, k) :: rest =>
      let '(a, b, c, d, e, f, g, h) := s in
      let ch := Z.lxor (Z.land e f) (Z.land (not32 e) g) in
      let maj := Z.lxor (Z.lxor (Z.land a b) (Z.land a c)) (Z.land b c) in
      let t1 := add32 (add32 (add32 (add32 h (bsig1 e)) ch) k) w in
      let t2 := add32 (bsig0 a) maj in
      sha256_rounds rest (add32 t1 t2, a, b, c, add32 d t1, e, f, g)
  end.

Definition sha256_block (s : st8) (blk : list Z) : st8 :=
  let ws := rev (sha256_extend 48 (rev blk)) in
  let '(a, b, c, d, e, f, g, h) := sha256_rounds (combine ws K256) s in
  let '(h0, h1, h2, h3, h4, h5, h6, h7) := s in
  (add32 h0 a, add32 h1 b, add32 h2 c, add32 h3 d,
   add32 h4 e, add32 h5 f, add32 h6 g, add32 h7 h).

Definition Sha256 (data : list byte) : list byte :=
  let ws := words_of_bytes (pad data) in
  let '(h0, h1, h2, h3, h4, h5, h6, h7) :=
    fold_left sha256_block (blocks (List.length ws) ws)
      (wd H256 0, wd H256 1, wd H256 2, wd H256 3,
       wd H256 4, wd H256 5, wd H256 6, wd H256 7) in
  bytes_of_w32 h0 ++ bytes_of_w32 h1 ++ bytes_of_w32 h2 ++ bytes_of_w32 h3
    ++ bytes_of_w32 h4 ++ bytes_of_w32 h5 ++ bytes_of_w32 h6
    ++ bytes_of_w32 h7.

End openssl.

(** ** Signaling types (the MTP schema of the calls layer)

    Only the fields calls_call.cpp reads or writes are kept. *)

Inductive MTPPhoneCallDiscardReason :=
| phoneCallDiscardReasonMissed
| phoneCallDiscardReasonDisconnect
| phoneCallDiscardReasonHangup
| phoneCallDiscardReasonBusy.

Record MTPPhoneCallProtocol := MTP_phoneCallProtocol {
  f_udp_p2p : bool;
  f_udp_reflector : bool;
  vmin_layer : Z;
  vmax_layer : Z
}.

Module phoneConnection.
Record t := make {
  vid : Z; vip : string; vipv6 : string; vport : Z; vpeer_tag : list byte
}.
End phoneConnection.

Module phoneCallEmpty.
Record t := make { vid : Z }.
End phoneCallEmpty.

Module phoneCallWaiting.
Record t := make { vid : Z; vaccess_hash : Z }.
End phoneCallWaiting.

Module phoneCallRequested.
Record t := make {
  vid : Z; vaccess_hash : Z; vadmin_id : Z; vparticipant_id : Z;
  vg_a_hash : list byte; vprotocol : MTPPhoneCallProtocol
}.
End phoneCallRequested.

Module phoneCallAccepted.
Record t := make {
  vid : Z; vaccess_hash : Z; vadmin_id : Z; vparticipant_id : Z;
  vg_b : list byte
}.
End phoneCallAccepted.

Module phoneCall.
Record t := make {
  vid : Z; vaccess_hash : Z; vadmin_id : Z; vparticipant_id : Z;
  vg_a_or_b : list byte; vkey_fingerprint : Z;
  vconnection : phoneConnection.t;
  valternative_connections : list phoneConnection.t
}.
End phoneCall.

Module phoneCallDiscarded.
Record t := make {
  is_need_debug : bool; vid : Z;
  (** [has_reason()] and [vreason] together *)
  vreason : option MTPPhoneCallDiscardReason
}.
End phoneCallDiscarded.

(** [MTPPhoneCall], with [call.type()] as the constructor. *)
Inductive MTPPhoneCall :=
| mtpc_phoneCallEmpty (data : phoneCallEmpty.t)
| mtpc_phoneCallWaiting (data : phoneCallWaiting.t)
| mtpc_phoneCallRequested (data : phoneCallRequested.t)
| mtpc_phoneCallAccepted (data : phoneCallAccepted.t)
| mtpc_phoneCall (data : phoneCall.t)
| mtpc_phoneCallDiscarded (data : phoneCallDiscarded.t).

(** [MTPphone_PhoneCall]: its only constructor is [phone.phoneCall], so
    [Expects(result.type() == mtpc_phone_phoneCall)] always holds. *)
Record MTPphone_PhoneCall := mtpc_phone_phoneCall {
  vphone_call : MTPPhoneCall;
  vusers : list Z
}.

(** Requests handed to the RPC sender. *)
Inductive MTPRequest :=
| MTPphone_RequestCall (user_id random_id : Z) (g_a_hash : list byte)
    (protocol : MTPPhoneCallProtocol)
| MTPphone_AcceptCall (id access_hash : Z) (g_b : list byte)
    (protocol : MTPPhoneCallProtocol)
| MTPphone_ConfirmCall (id access_hash : Z) (g_a : list byte)
    (key_fingerprint : Z) (protocol : MTPPhoneCallProtocol)
| MTPphone_DiscardCall (id access_hash duration : Z)
    (reason : MTPPhoneCallDiscardReason) (connection_id : Z)
| MTPphone_SaveCallDebug (id access_hash : Z) (debug : string).

(** ** The media transport (libtgvoip), as far as the call configures it *)
Module tgvoip.

Record Endpoint := make_Endpoint {
  ep_id : Z; ep_port : Z; ep_ipv4 : string; ep_ipv6 : string;
  ep_peer_tag : list byte
}.

Inductive data_saving_t := DATA_SAVING_NEVER.

Record voip_config_t := make_config {
  data_saving : data_saving_t;
  enableAEC : bool; enableNS : bool; enableAGC : bool;
  init_timeout : Z; recv_timeout : Z
}.

(** The state codes passed to the state callback. *)
Inductive state_t :=
| STATE_WAIT_INIT | STATE_WAIT_INIT_ACK | STATE_ESTABLISHED | STATE_FAILED
| STATE_other (code : Z).

(** What the call has told its controller so far. *)
Record VoIPController := make_controller {
  micMute : bool;
  remoteEndpoints : list Endpoint;
  allowP2p : bool;
  config : voip_config_t;
  encryptionKey : list byte;
  isOutgoing : bool;
  started : bool;
  connected : bool
}.

End tgvoip.

(** ** The call object *)
Module Calls.

Definition kMinLayer : Z := 65.
Definition kMaxLayer : Z := 65.
Definition kHangupTimeoutMs : Z := 5000.
Definition kMaxModExpSize : nat := 256.
Definition kFingerprintDataSize : nat := 256.

(** [_authKey] is passed to [ComputeFingerprint], which takes a
    [std::array<gsl::byte, kFingerprintDataSize>]; so the two sizes agree. *)
Definition kAuthKeySize : nat := kFingerprintDataSize.

Inductive CallType := Incoming | Outgoing.

(** [Call::State].  [OtherState] stands for any enumerator of the header
    that calls_call.cpp does not name. *)
Inductive State :=
| Requesting | Waiting | Ringing | ExchangingKeys
| WaitingInit | WaitingInitAck | Established
| HangingUp | Ended | Busy | Failed
| OtherState.

Definition State_eq_dec (a b : State) : {a = b} + {a <> b}.
Proof. decide equality. Defined.

Definition State_eqb (a b : State) : bool :=
  if State_eq_dec a b then true else false.

Definition CallType_eqb (a b : CallType) : bool :=
  match a, b with
  | Incoming, Incoming | Outgoing, Outgoing => true
  | _, _ => false
  end.

Record DhConfig := make_DhConfig { g : Z; p : list byte }.

Record UserData := make_UserData { id : Z; inputUser : Z }.

(** Arguments of [openssl::BigNum]'s constructors. *)
Inductive BigNum :=
| BigNum_word (w : Z)
| BigNum_bytes (b : list byte).

(** What the call reads from its surroundings during one entry into the
    object. *)
Record Env := make_Env {
  (** [AuthSession::CurrentUserId()] *)
  CurrentUserId : Z;
  (** [peerToUser(peerId)] *)
  peerToUser : Z -> Z;
  (** [_delegate->getDhConfig()] *)
  getDhConfig : DhConfig;
  (** [getms(true)] *)
  getms : Z;
  (** the byte [memset_rand] writes at each index *)
  memset_rand : nat -> byte;
  (** [rand_value<int32>()] *)
  rand_value : Z;
  (** [r.setModExp(base, power, mod); r.getBytes()] on [openssl::BigNum];
      empty when the exponentiation failed *)
  setModExp_getBytes : BigNum -> BigNum -> BigNum -> list byte;
  (** [_controller->GetDebugLog()] *)
  GetDebugLog : string;
  (** [_controller->GetPreferredRelayID()] *)
  GetPreferredRelayID : Z
}.

(** Calls made on collaborators, in program order. *)
Inductive Effect :=
| stateChanged_notify (s : State)
| delegate_callFinished
| delegate_callFailed
| hangupByTimeoutTimer_call (ms : Z)
| request_send (r : MTPRequest)
| MTP_send (r : MTPRequest)
| App_feedUsers (users : list Z)
| App_sentUpdatesReceived
| InvokeQueued_setState (s : State).

Record Call := make_Call {
  _user : UserData;
  _type : CallType;
  _state : State;
  _finishAfterRequestingCall : bool;
  _id : Z;
  _accessHash : Z;
  _protocol : MTPPhoneCallProtocol;
  _dhConfig : DhConfig;
  _randomPower : list byte;
  _ga : list byte;
  _gb : list byte;
  _gaHash : list byte;
  _authKey : list byte;
  _keyFingerprint : Z;
  _startTime : Z;
  _mute : bool;
  _controller : option tgvoip.VoIPController;
  (** [Some ms] while a firing of the timer is scheduled *)
  _hangupByTimeoutTimer : option Z;
  (** the log of calls made on collaborators, oldest first *)
  effects : list Effect
}.

Definition with_state (v : State) (c : Call) : Call :=
  make_Call (_user c) (_type c) v (_finishAfterRequestingCall c) (_id c)
    (_accessHash c) (_protocol c) (_dhConfig c) (_randomPower c) (_ga c)
    (_gb c) (_gaHash c) (_authKey c) (_keyFingerprint c) (_startTime c)
    (_mute c) (_controller c) (_hangupByTimeoutTimer c) (effects c).

Definition with_finishAfterRequestingCall (v : bool) (c : Call) : Call :=
  make_Call (_user c) (_type c) (_state c) v (_id c)
    (_accessHash c) (_protocol c) (_dhConfig c) (_randomPower c) (_ga c)
    (_gb c) (_gaHash c) (_authKey c) (_keyFingerprint c) (_startTime c)
    (_mute c) (_controller c) (_hangupByTimeoutTimer c) (effects c).

Definition with_id (v : Z) (c : Call) : Call :=
  make_Call (_user c) (_type c) (_state c) (_finishAfterRequestingCall c) v
    (_accessHash c) (_protocol c) (_dhConfig c) (_randomPower c) (_ga c)
    (_gb c) (_gaHash c) (_authKey c) (_keyFingerprint c) (_startTime c)
    (_mute c) (_controller c) (_hangupByTimeoutTimer c) (effects c).

Definition with_accessHash (v : Z) (c : Call) : Call :=
  make_Call (_user c) (_type c) (_state c) (_finishAfterRequestingCall c)
    (_id c) v (_protocol c) (_dhConfig c) (_randomPower c) (_ga c)
    (_gb c) (_gaHash c) (_authKey c) (_keyFingerprint c) (_startTime c)
    (_mute c) (_controller c) (_hangupByTimeoutTimer c) (effects c).

Definition with_protocol (v : MTPPhoneCallProtocol) (c : Call) : Call :=
  make_Call (_user c) (_type c) (_state c) (_finishAfterRequestingCall c)
    (_id c) (_accessHash c) v (_dhConfig c) (_randomPower c) (_ga c)
    (_gb c) (_gaHash c) (_authKey c) (_keyFingerprint c) (_startTime c)
    (_mute c) (_controller c) (_hangupByTimeoutTimer c) (effects c).

Definition with_dhConfig (v : DhConfig) (c : Call) : Call :=
  make_Call (_user c) (_type c) (_state c) (_finishAfterRequestingCall c)
    (_id c) (_accessHash c) (_protocol c) v (_randomPower c) (_ga c)
    (_gb c) (_gaHash c) (_authKey c) (_keyFingerprint c) (_startTime c)
    (_mute c) (_controller c) (_hangupByTimeoutTimer c) (effects c).

Definition with_randomPower (v : list byte) (c : Call) : Call :=
  make_Call (_user c) (_type c) (_state c) (_finishAfterRequestingCall c)
    (_id c) (_accessHash c) (_protocol c) (_dhConfig c) v (_ga c)
    (_gb c) (_gaHash c) (_authKey c) (_keyFingerprint c) (_startTime c)
    (_mute c) (_controller c) (_hangupByTimeoutTimer c) (effects c).

Definition with_ga (v : list byte) (c : Call) : Call :=
  make_Call (_user c) (_type c) (_state c) (_finishAfterRequestingCall c)
    (_id c) (_accessHash c) (_protocol c) (_dhConfig c) (_randomPower c) v
    (_gb c) (_gaHash c) (_authKey c) (_keyFingerprint c) (_startTime c)
    (_mute c) (_controller c) (_hangupByTimeoutTimer c) (effects c).

Definition with_gb (v : list byte) (c : Call) : Call :=
  make_Call (_user c) (_type c) (_state c) (_finishAfterRequestingCall c)
    (_id c) (_accessHash c) (_protocol c) (_dhConfig c) (_randomPower c)
    (_ga c) v (_gaHash c) (_authKey c) (_keyFingerprint c) (_startTime c)
    (_mute c) (_controller c) (_hangupByTimeoutTimer c) (effects c).

Definition with_gaHash (v : list byte) (c : Call) : Call :=
  make_Call (_user c) (_type c) (_state c) (_finishAfterRequestingCall c)
    (_id c) (_accessHash c) (_protocol c) (_dhConfig c) (_randomPower c)
    (_ga c) (_gb c) v (_authKey c) (_keyFingerprint c) (_startTime c)
    (_mute c) (_controller c) (_hangupByTimeoutTimer c) (effects c).

Definition with_authKey (v : list byte) (c : Call) : Call :=
  make_Call (_user c) (_type c) (_state c) (_finishAfterRequestingCall c)
    (_id c) (_accessHash c) (_protocol c) (_dhConfig c) (_randomPower c)
    (_ga c) (_gb c) (_gaHash c) v (_keyFingerprint c) (_startTime c)
    (_mute c) (_controller c) (_hangupByTimeoutTimer c) (effects c).

Definition with_keyFingerprint (v : Z) (c : Call) : Call :=
  make_Call (_user c) (_type c) (_state c) (_finishAfterRequestingCall c)
    (_id c) (_accessHash c) (_protocol c) (_dhConfig c) (_randomPower c)
    (_ga c) (_gb c) (_gaHash c) (_authKey c) v (_startTime c)
    (_mute c) (_controller c) (_hangupByTimeoutTimer c) (effects c).

Definition with_startTime (v : Z) (c : Call) : Call :=
  make_Call (_user c) (_type c) (_state c) (_finishAfterRequestingCall c)
    (_id c) (_accessHash c) (_protocol c) (_dhConfig c) (_randomPower c)
    (_ga c) (_gb c) (_gaHash c) (_authKey c) (_keyFingerprint c) v
    (_mute c) (_controller c) (_hangupByTimeoutTimer c) (effects c).

Definition with_mute (v : bool) (c : Call) : Call :=
  make_Call (_user c) (_type c) (_state c) (_finishAfterRequestingCall c)
    (_id c) (_accessHash c) (_protocol c) (_dhConfig c) (_randomPower c)
    (_ga c) (_gb c) (_gaHash c) (_authKey c) (_keyFingerprint c)
    (_startTime c) v (_controller c) (_hangupByTimeoutTimer c) (effects c).

Definition with_controller (v : option tgvoip.VoIPController) (c : Call)
  : Call :=
  make_Call (_user c) (_type c) (_state c) (_finishAfterRequestingCall c)
    (_id c) (_accessHash c) (_protocol c) (_dhConfig c) (_randomPower c)
    (_ga c) (_gb c) (_gaHash c) (_authKey c) (_keyFingerprint c)
    (_startTime c) (_mute c) v (_hangupByTimeoutTimer c) (effects c).

Definition with_hangupByTimeoutTimer (v : option Z) (c : Call) : Call :=
  make_Call (_user c) (_type c) (_state c) (_finishAfterRequestingCall c)
    (_id c) (_accessHash c) (_protocol c) (_dhConfig c) (_randomPower c)
    (_ga c) (_gb c) (_gaHash c) (_authKey c) (_keyFingerprint c)
    (_startTime c) (_mute c) (_controller c) v (effects c).

(** Append one collaborator call to the log. *)
Definition emit (e : Effect) (c : Call) : Call :=
  make_Call (_user c) (_type c) (_state c) (_finishAfterRequestingCall c)
    (_id c) (_accessHash c) (_protocol c) (_dhConfig c) (_randomPower c)
    (_ga c) (_gb c) (_gaHash c) (_authKey c) (_keyFingerprint c)
    (_startTime c) (_mute c) (_controller c) (_hangupByTimeoutTimer c)
    (effects c ++ [e]).

(** ** Fatal paths *)

Inductive Outcome (A : Type) :=
| Ok (a : A)
| Fatal (message : string).
Arguments Ok {A} a.
Arguments Fatal {A} message.

Definition bind {A B} (m : Outcome A) (k : A -> Outcome B) : Outcome B :=
  match m with
  | Ok a => k a
  | Fatal msg => Fatal msg
  end.

Notation "x <- m ;; k" := (bind m (fun x => k))
  (at level 61, m at next level, right associativity).
Notation "m ;;; k" := (bind m (fun _ => k))
  (at level 61, right associativity).

(** Modelled from the spec: [t_assert] is declared outside
    calls_call.cpp; a failed assertion is a fatal invariant violation,
    not a recoverable error (sections 4.1 and 4.2), so the process stops
    and no call state results. *)
Definition t_assert (cond : bool) (text : string) : Outcome unit :=
  if cond then Ok tt else Fatal text.

(** Modelled from the spec: [Expects], the precondition macro of the
    Guidelines Support Library, is also declared outside calls_call.cpp;
    it states a programming contract, whose violation is fatal (section
    7(d)).  The file uses it for invariants and writes recoverable
    failures as [setState(State::Failed); return;] (compare line 141 with
    lines 144-148), and it keeps one [Expects] commented out (line 409)
    because it could be violated in a legitimate run.  A violated
    [Expects] stops the process like a failed [t_assert]; it has no path
    into [setState]. *)
Definition Expects (cond : bool) (text : string) : Outcome unit :=
  if cond then Ok tt else Fatal text.

(** Modelled from the spec: [Unexpected(message)], declared outside
    calls_call.cpp, is the fatal programming-contract violation of
    section 7(d). *)
Definition Unexpected {A} (message : string) : Outcome A := Fatal message.

(** ** Buffers and integer casts *)

(** [base::set_bytes(dst.subspan(off, len), value)] *)
Definition set_bytes (dst : list byte) (off len : nat) (value : byte)
  : list byte :=
  firstn off dst ++ repeat value len ++ skipn (off + len) dst.

(** [base::copy_bytes(dst.subspan(off), src)] *)
Definition copy_bytes (dst : list byte) (off : nat) (src : list byte)
  : list byte :=
  firstn off dst ++ src ++ skipn (off + List.length src) dst.

Definition to_int32 (z : Z) : Z := (z + 2 ^ 31) mod 2 ^ 32 - 2 ^ 31.
Definition to_int64 (z : Z) : Z := (z + 2 ^ 63) mod 2 ^ 64 - 2 ^ 63.
Definition to_uint16 (z : Z) : Z := z mod 2 ^ 16.

(** [hash[i]] on a [std::array] of bytes *)
Definition at_ (hash : list byte) (i : nat) : byte := nth i hash x00.

(** ** The free functions of the anonymous namespace *)

Definition ConvertEndpoint (ep : list tgvoip.Endpoint)
    (mtc : phoneConnection.t) : list tgvoip.Endpoint :=
  if negb (List.length (phoneConnection.vpeer_tag mtc) =? 16)%nat then ep
  else ep ++ [tgvoip.make_Endpoint
                (to_int64 (phoneConnection.vid mtc))
                (to_uint16 (phoneConnection.vport mtc))
                (phoneConnection.vip mtc) (phoneConnection.vipv6 mtc)
                (phoneConnection.vpeer_tag mtc)].

Definition ComputeFingerprint (authKey : list byte) : Z :=
  let hash := openssl.Sha1 authKey in
  Z.lor (Z.lor (Z.lor (Z.lor (Z.lor (Z.lor (Z.lor
    (Z.shiftl (to_integer (at_ hash 19)) 56)
    (Z.shiftl (to_integer (at_ hash 18)) 48))
    (Z.shiftl (to_integer (at_ hash 17)) 40))
    (Z.shiftl (to_integer (at_ hash 16)) 32))
    (Z.shiftl (to_integer (at_ hash 15)) 24))
    (Z.shiftl (to_integer (at_ hash 14)) 16))
    (Z.shiftl (to_integer (at_ hash 13)) 8))
    (to_integer (at_ hash 12)).

(** The block that fills [_authKey] from the computed shared secret
    (lines 311-319 of [confirmAcceptedCall], repeated at lines 357-365 of
    [startConfirmedCall]); the specification calls it [deriveAuthKey]. *)
Definition deriveAuthKey (computedAuthKey authKey : list byte)
  : Outcome (list byte) :=
  let computedAuthKeySize := List.length computedAuthKey in
  t_assert (computedAuthKeySize <=? kAuthKeySize)%nat
    "computedAuthKeySize <= kAuthKeySize" ;;;
  if (computedAuthKeySize <? kAuthKeySize)%nat then
    let zeroed :=
      set_bytes authKey 0 (kAuthKeySize - computedAuthKeySize) x00 in
    Ok (copy_bytes zeroed (kAuthKeySize - computedAuthKeySize)
          computedAuthKey)
  else
    Ok (copy_bytes authKey 0 computedAuthKey).

Definition protocol_offered : MTPPhoneCallProtocol :=
  MTP_phoneCallProtocol true true kMinLayer kMaxLayer.

Section Members.

(** [Call::kRandomPowerSize] and the default member initializer of
    [_state], both declared in calls_call.h. *)
Variable kRandomPowerSize : nat.
Variable initialState : State.

Variable env : Env.

Definition ComputeModExp (config : DhConfig) (base : BigNum)
    (randomPower : list byte) : Outcome (list byte) :=
  let result :=
    setModExp_getBytes env base (BigNum_bytes randomPower)
      (BigNum_bytes (p config)) in
  t_assert (List.length result <=? kMaxModExpSize)%nat
    "result.size() <= kMaxModExpSize" ;;;
  Ok result.

Definition ComputeModExpFirst (config : DhConfig) (randomPower : list byte)
  : Outcome (list byte) :=
  ComputeModExp config (BigNum_word (g config)) randomPower.

Definition ComputeModExpFinal (config : DhConfig) (first : list byte)
    (randomPower : list byte) : Outcome (list byte) :=
  ComputeModExp config (BigNum_bytes first) randomPower.

(** [_hangupByTimeoutTimer.call(kHangupTimeoutMs, [this] { setState(State::Ended); })] *)
Definition arm_hangupByTimeoutTimer (c : Call) : Call :=
  with_hangupByTimeoutTimer (Some kHangupTimeoutMs)
    (emit (hangupByTimeoutTimer_call kHangupTimeoutMs) c).

Definition setState (state : State) (c : Call) : Call :=
  if negb (State_eqb (_state c) state) then
    let c := with_state state c in
    let c := emit (stateChanged_notify state) c in
    match _state c with
    | WaitingInit | WaitingInitAck | Established =>
        with_startTime (getms env) c
    | Ended => emit delegate_callFinished c
    | Failed => emit delegate_callFailed c
    | Busy => arm_hangupByTimeoutTimer c
    | _ => c
    end
  else c.

(** The constructor.  Members without an initializer in calls_call.cpp
    start from zero; [_state] starts from [initialState]. *)
Definition Call_ctor (user : UserData) (type : CallType) : Call :=
  let c :=
    make_Call user type initialState false 0 0
      (MTP_phoneCallProtocol false false 0 0) (make_DhConfig 0 [])
      (repeat x00 kRandomPowerSize) [] []
      (repeat x00 openssl.kSha256Size) (repeat x00 kAuthKeySize)
      0 0 false None None [] in
  if CallType_eqb (_type c) Outgoing then setState Requesting c else c.

Definition generateRandomPower (random : list byte) (c : Call)
  : Outcome Call :=
  Expects (List.length random =? kRandomPowerSize)%nat
    "random.size() == _randomPower.size()" ;;;
  let filled := map (memset_rand env) (seq 0 kRandomPowerSize) in
  Ok (with_randomPower
        (map (fun ab => byte_xor (fst ab) (snd ab)) (combine filled random))
        c).

Definition startOutgoing (c : Call) : Outcome Call :=
  ga <- ComputeModExpFirst (_dhConfig c) (_randomPower c) ;;
  let c := with_ga ga c in
  match _ga c with
  | [] => Ok (setState Failed c)
  | _ :: _ =>
      let c := with_gaHash (openssl.Sha256 (_ga c)) c in
      let randomID := rand_value env in
      let c := setState Requesting c in
      Ok (emit (request_send
                  (MTPphone_RequestCall (inputUser (_user c)) randomID
                     (_gaHash c) protocol_offered)) c)
  end.

Definition startIncoming (c : Call) : Call := setState Ringing c.

Definition start (random : list byte) (c : Call) : Outcome Call :=
  let c := with_dhConfig (getDhConfig env) c in
  t_assert (negb (g (_dhConfig c) =? 0)) "_dhConfig.g != 0" ;;;
  t_assert (negb (Nat.eqb (List.length (p (_dhConfig c))) 0))
    "!_dhConfig.p.empty()" ;;;
  c <- generateRandomPower random c ;;
  if CallType_eqb (_type c) Outgoing then startOutgoing c
  else Ok (startIncoming c).

Definition setMute (mute : bool) (c : Call) : Call :=
  let c := with_mute mute c in
  match _controller c with
  | Some ctl =>
      with_controller
        (Some (tgvoip.make_controller (_mute c)
                 (tgvoip.remoteEndpoints ctl) (tgvoip.allowP2p ctl)
                 (tgvoip.config ctl) (tgvoip.encryptionKey ctl)
                 (tgvoip.isOutgoing ctl) (tgvoip.started ctl)
                 (tgvoip.connected ctl))) c
  | None => c
  end.

Definition finish (reason : MTPPhoneCallDiscardReason) (c : Call) : Call :=
  if State_eqb (_state c) Requesting then
    let c := arm_hangupByTimeoutTimer c in
    with_finishAfterRequestingCall true c
  else if State_eqb (_state c) HangingUp || State_eqb (_state c) Ended then
    c
  else if _id c =? 0 then
    setState Ended c
  else
    let c := setState HangingUp c in
    let duration :=
      if _startTime c =? 0 then 0
      else to_int32 (Z.quot (getms env - _startTime c) 1000) in
    let connectionId :=
      match _controller c with
      | Some _ => GetPreferredRelayID env
      | None => 0
      end in
    let c := arm_hangupByTimeoutTimer c in
    emit (request_send
            (MTPphone_DiscardCall (_id c) (_accessHash c) duration reason
               connectionId)) c.

Definition hangup (c : Call) : Call :=
  let missed :=
    State_eqb (_state c) Ringing
    || (State_eqb (_state c) Waiting && CallType_eqb (_type c) Outgoing) in
  let reason :=
    if missed then phoneCallDiscardReasonMissed
    else phoneCallDiscardReasonHangup in
  finish reason c.

Definition decline (c : Call) : Call := finish phoneCallDiscardReasonBusy c.

(** [checkCallCommonFields], on the three fields it reads. *)
Definition checkCallCommonFields (vaccess_hash vadmin_id vparticipant_id : Z)
    (c : Call) : bool * Call :=
  let checkFailed := (false, setState Failed c) in
  if negb (vaccess_hash =? _accessHash c) then checkFailed
  else
    let adminId :=
      if CallType_eqb (_type c) Outgoing then CurrentUserId env
      else peerToUser env (id (_user c)) in
    let participantId :=
      if CallType_eqb (_type c) Outgoing then peerToUser env (id (_user c))
      else CurrentUserId env in
    if negb (vadmin_id =? adminId) then checkFailed
    else if negb (vparticipant_id =? participantId) then checkFailed
    else (true, c).

(** [checkCallFields(const MTPDphoneCall &)] *)
Definition checkCallFields (call : phoneCall.t) (c : Call) : bool * Call :=
  let (ok, c) :=
    checkCallCommonFields (phoneCall.vaccess_hash call)
      (phoneCall.vadmin_id call) (phoneCall.vparticipant_id call) c in
  if negb ok then (false, c)
  else if negb (phoneCall.vkey_fingerprint call =? _keyFingerprint c) then
    (false, setState Failed c)
  else (true, c).

(** [checkCallFields(const MTPDphoneCallAccepted &)] *)
Definition checkCallFields_accepted (call : phoneCallAccepted.t) (c : Call)
  : bool * Call :=
  checkCallCommonFields (phoneCallAccepted.vaccess_hash call)
    (phoneCallAccepted.vadmin_id call)
    (phoneCallAccepted.vparticipant_id call) c.

Definition createAndStartController (call : phoneCall.t) (c : Call) : Call :=
  let (ok, c) := checkCallFields call c in
  if negb ok then c
  else
    let c := setState Established c in
    let config :=
      tgvoip.make_config tgvoip.DATA_SAVING_NEVER true true true 30 10 in
    let endpoints := ConvertEndpoint [] (phoneCall.vconnection call) in
    let endpoints :=
      fold_left ConvertEndpoint (phoneCall.valternative_connections call)
        endpoints in
    with_controller
      (Some (tgvoip.make_controller (_mute c) endpoints true config
               (_authKey c) (CallType_eqb (_type c) Outgoing) true true)) c.

(** [confirmAcceptedCall], up to the sending of [phone.confirmCall]. *)
Definition confirmAcceptedCall (call : phoneCallAccepted.t) (c : Call)
  : Outcome Call :=
  Expects (CallType_eqb (_type c) Outgoing) "_type == Type::Outgoing" ;;;
  computedAuthKey <-
    ComputeModExpFinal (_dhConfig c) (phoneCallAccepted.vg_b call)
      (_randomPower c) ;;
  match computedAuthKey with
  | [] => Ok (setState Failed c)
  | _ :: _ =>
      authKey <- deriveAuthKey computedAuthKey (_authKey c) ;;
      let c := with_authKey authKey c in
      let c := with_keyFingerprint (ComputeFingerprint (_authKey c)) c in
      let c := setState ExchangingKeys c in
      Ok (emit (request_send
                  (MTPphone_ConfirmCall (_id c) (_accessHash c) (_ga c)
                     (_keyFingerprint c) protocol_offered)) c)
  end.

(** The [done] handler of [phone.confirmCall]. *)
Definition confirmCall_done (result : MTPphone_PhoneCall) (c : Call) : Call :=
  let c := emit (App_feedUsers (vusers result)) c in
  match vphone_call result with
  | mtpc_phoneCall data => createAndStartController data c
  | _ => setState Failed c
  end.

(** The [fail] handler of [phone.requestCall], [phone.acceptCall] and
    [phone.confirmCall]. *)
Definition request_fail (c : Call) : Call := setState Failed c.

Definition startConfirmedCall (call : phoneCall.t) (c : Call)
  : Outcome Call :=
  Expects (CallType_eqb (_type c) Incoming) "_type == Type::Incoming" ;;;
  let firstBytes := phoneCall.vg_a_or_b call in
  if negb (bytes_eqb (_gaHash c) (openssl.Sha256 firstBytes)) then
    Ok (setState Failed c)
  else
    computedAuthKey <-
      ComputeModExpFinal (_dhConfig c) firstBytes (_randomPower c) ;;
    match computedAuthKey with
    | [] => Ok (setState Failed c)
    | _ :: _ =>
        authKey <- deriveAuthKey computedAuthKey (_authKey c) ;;
        let c := with_authKey authKey c in
        let c := with_keyFingerprint (ComputeFingerprint (_authKey c)) c in
        Ok (createAndStartController call c)
    end.

Definition handleUpdate (call : MTPPhoneCall) (c : Call)
  : Outcome (bool * Call) :=
  match call with
  | mtpc_phoneCallRequested data =>
      if negb (CallType_eqb (_type c) Incoming)
         || negb (_id c =? 0)
         || negb (peerToUser env (id (_user c))
                  =? phoneCallRequested.vadmin_id data)
      then
        Unexpected
          "phoneCallRequested call inside an existing call handleUpdate()"
      else if negb (CurrentUserId env
                    =? phoneCallRequested.vparticipant_id data) then
        Ok (true, setState Failed c)
      else
        let c := with_id (phoneCallRequested.vid data) c in
        let c := with_accessHash (phoneCallRequested.vaccess_hash data) c in
        let c := with_protocol (phoneCallRequested.vprotocol data) c in
        let gaHashBytes := phoneCallRequested.vg_a_hash data in
        if negb (List.length gaHashBytes =? openssl.kSha256Size)%nat then
          Ok (true, setState Failed c)
        else
          Ok (true, with_gaHash (copy_bytes (_gaHash c) 0 gaHashBytes) c)
  | mtpc_phoneCallEmpty data =>
      if negb (phoneCallEmpty.vid data =? _id c) then Ok (false, c)
      else Ok (true, setState Failed c)
  | mtpc_phoneCallWaiting data =>
      if negb (phoneCallWaiting.vid data =? _id c) then Ok (false, c)
      else Ok (true, c)
  | mtpc_phoneCall data =>
      if negb (phoneCall.vid data =? _id c) then Ok (false, c)
      else if CallType_eqb (_type c) Incoming
              && State_eqb (_state c) ExchangingKeys then
        c <- startConfirmedCall data c ;;
        Ok (true, c)
      else Ok (true, c)
  | mtpc_phoneCallDiscarded data =>
      if negb (phoneCallDiscarded.vid data =? _id c) then Ok (false, c)
      else
        let c :=
          if phoneCallDiscarded.is_need_debug data then
            let debugLog :=
              match _controller c with
              | Some _ => GetDebugLog env
              | None => EmptyString
              end in
            if negb (String.eqb debugLog EmptyString) then
              emit (MTP_send
                      (MTPphone_SaveCallDebug (_id c) (_accessHash c)
                         debugLog)) c
            else c
          else c in
        match phoneCallDiscarded.vreason data with
        | Some phoneCallDiscardReasonBusy => Ok (true, setState Busy c)
        | _ => Ok (true, setState Ended c)
        end
  | mtpc_phoneCallAccepted data =>
      if negb (phoneCallAccepted.vid data =? _id c) then Ok (false, c)
      else if negb (CallType_eqb (_type c) Outgoing) then
        Ok (true, setState Failed c)
      else
        let (ok, c) := checkCallFields_accepted data c in
        if ok then
          c <- confirmAcceptedCall data c ;;
          Ok (true, c)
        else Ok (true, c)
  end.

(** The [done] handler of [phone.requestCall]. *)
Definition requestCall_done (result : MTPphone_PhoneCall) (c : Call)
  : Outcome Call :=
  let c := emit (App_feedUsers (vusers result)) c in
  match vphone_call result with
  | mtpc_phoneCallWaiting phoneCall =>
      let c := setState Waiting c in
      if _finishAfterRequestingCall c then Ok (hangup c)
      else
        let c := with_id (phoneCallWaiting.vid phoneCall) c in
        let c := with_accessHash (phoneCallWaiting.vaccess_hash phoneCall) c in
        rc <- handleUpdate (vphone_call result) c ;;
        Ok (snd rc)
  | _ => Ok (setState Failed c)
  end.

(** [answer], up to the sending of [phone.acceptCall]. *)
Definition answer (c : Call) : Outcome Call :=
  Expects (CallType_eqb (_type c) Incoming) "_type == Type::Incoming" ;;;
  gb <- ComputeModExpFirst (_dhConfig c) (_randomPower c) ;;
  let c := with_gb gb c in
  match _gb c with
  | [] => Ok (setState Failed c)
  | _ :: _ =>
      let c := setState ExchangingKeys c in
      Ok (emit (request_send
                  (MTPphone_AcceptCall (_id c) (_accessHash c) (_gb c)
                     (_protocol c))) c)
  end.

(** The [done] handler of [phone.acceptCall]. *)
Definition acceptCall_done (result : MTPphone_PhoneCall) (c : Call)
  : Outcome Call :=
  let c := emit (App_feedUsers (vusers result)) c in
  match vphone_call result with
  | mtpc_phoneCallWaiting _ =>
      rc <- handleUpdate (vphone_call result) c ;;
      Ok (snd rc)
  | _ => Ok (setState Failed c)
  end.

(** The [done] handler of [phone.discardCall]: the transition is queued,
    then the updates are handed to the main widget. *)
Definition discardCall_done (c : Call) : Call :=
  emit App_sentUpdatesReceived (emit (InvokeQueued_setState Ended) c).

(** The [fail] handler of [phone.discardCall]. *)
Definition discardCall_fail (c : Call) : Call := setState Ended c.

Definition setStateQueued (state : State) (c : Call) : Call :=
  emit (InvokeQueued_setState state) c.

(** A queued [setState] when the event loop runs it. *)
Definition queued_setState (state : State) (c : Call) : Call :=
  setState state c.

(** The timer firing: its callback is always [setState(State::Ended)]. *)
Definition hangupByTimeout (c : Call) : Call :=
  match _hangupByTimeoutTimer c with
  | Some _ => setState Ended (with_hangupByTimeoutTimer None c)
  | None => c
  end.

Definition handleControllerStateChange (state : tgvoip.state_t) (c : Call)
  : Call :=
  match state with
  | tgvoip.STATE_WAIT_INIT => setStateQueued WaitingInit c
  | tgvoip.STATE_WAIT_INIT_ACK => setStateQueued WaitingInitAck c
  | tgvoip.STATE_ESTABLISHED => setStateQueued Established c
  | tgvoip.STATE_FAILED => setStateQueued Failed c
  | tgvoip.STATE_other _ => c
  end.

(** ** Events

    Everything that can enter the call object: the public member
    functions, [finish], and the handlers the object registered. *)
Inductive Event :=
| ev_start (random : list byte)
| ev_answer
| ev_setMute (mute : bool)
| ev_hangup
| ev_decline
| ev_finish (reason : MTPPhoneCallDiscardReason)
| ev_handleUpdate (call : MTPPhoneCall)
| ev_requestCall_done (result : MTPphone_PhoneCall)
| ev_acceptCall_done (result : MTPphone_PhoneCall)
| ev_confirmCall_done (result : MTPphone_PhoneCall)
| ev_request_fail
| ev_discardCall_done
| ev_discardCall_fail
| ev_hangupByTimeout
| ev_queued_setState (state : State)
| ev_controllerState (state : tgvoip.state_t).

Definition step (ev : Event) (c : Call) : Outcome Call :=
  match ev with
  | ev_start random => start random c
  | ev_answer => answer c
  | ev_setMute mute => Ok (setMute mute c)
  | ev_hangup => Ok (hangup c)
  | ev_decline => Ok (decline c)
  | ev_finish reason => Ok (finish reason c)
  | ev_handleUpdate call =>
      rc <- handleUpdate call c ;; Ok (snd rc)
  | ev_requestCall_done result => requestCall_done result c
  | ev_acceptCall_done result => acceptCall_done result c
  | ev_confirmCall_done result => Ok (confirmCall_done result c)
  | ev_request_fail => Ok (request_fail c)
  | ev_discardCall_done => Ok (discardCall_done c)
  | ev_discardCall_fail => Ok (discardCall_fail c)
  | ev_hangupByTimeout => Ok (hangupByTimeout c)
  | ev_queued_setState state => Ok (queued_setState state c)
  | ev_controllerState state => Ok (handleControllerStateChange state c)
  end.

End Members.

End Calls.

Import Calls.

(** ** Vocabulary of the statements *)

(** A byte sequence read as a number, most significant byte first. *)
Definition be_decode (bs : list byte) : Z :=
  fold_left (fun acc b => acc * 256 + to_integer b) bs 0.

(** A byte sequence read as a number, least significant byte first. *)
Fixpoint little_endian (bs : list byte) : Z :=
  match bs with
  | [] => 0
  | b :: rest => to_integer b + 256 * little_endian rest
  end.

(** The id embedded in an update of the five variants that are matched
    against [_id]; a "call requested" update is not matched by id. *)
Definition update_id (call : MTPPhoneCall) : option Z :=
  match call with
  | mtpc_phoneCallEmpty data => Some (phoneCallEmpty.vid data)
  | mtpc_phoneCallWaiting data => Some (phoneCallWaiting.vid data)
  | mtpc_phoneCall data => Some (phoneCall.vid data)
  | mtpc_phoneCallDiscarded data => Some (phoneCallDiscarded.vid data)
  | mtpc_phoneCallAccepted data => Some (phoneCallAccepted.vid data)
  | mtpc_phoneCallRequested _ => None
  end.

Definition terminal (s : State) : Prop := s = Failed \/ s = Ended.

(** The events that leave a call in a terminal state as it is: [hangup],
    [decline] and [finish] when the state is [Ended]; a "call waiting"
    update; a confirmed "call" update; any update that carries the id of
    another call. *)
Definition leaves_terminal_call_alone (c : Call) (ev : Event) : bool :=
  match ev with
  | ev_hangup | ev_decline | ev_finish _ => State_eqb (_state c) Ended
  | ev_handleUpdate (mtpc_phoneCallWaiting _) => true
  | ev_handleUpdate (mtpc_phoneCall _) => true
  | ev_handleUpdate call =>
      match update_id call with
      | Some i => negb (i =? _id c)
      | None => false
      end
  | _ => false
  end.

(** The state a step ends in, when it returns. *)
Definition state_after (o : Outcome Call) : option State :=
  match o with
  | Ok c => Some (_state c)
  | Fatal _ => None
  end.

(** The effects [setState] appends when the state changes. *)
Definition entry_effects (s : State) : list Effect :=
  stateChanged_notify s ::
  match s with
  | Ended => [delegate_callFinished]
  | Failed => [delegate_callFailed]
  | Busy => [hangupByTimeoutTimer_call kHangupTimeoutMs]
  | _ => []
  end.

Definition is_discard_request (e : Effect) : bool :=
  match e with
  | request_send (MTPphone_DiscardCall _ _ _ _ _) => true
  | _ => false
  end.

Definition is_notification_of (s : State) (e : Effect) : bool :=
  match e with
  | stateChanged_notify s' => State_eqb s' s
  | _ => false
  end.

(** How many times [_stateChanged.notify(s, true)] was called. *)
Definition notifications_of (s : State) (es : list Effect) : nat :=
  List.length (filter (is_notification_of s) es).

(** ** A concrete environment and a run function, for evaluating the
    model on explicit inputs *)

Fixpoint be_encode (fuel : nat) (z : Z) (acc : list byte) : list byte :=
  match fuel with
  | O => acc
  | S k => if z <=? 0 then acc else be_encode k (z / 256) (byte_of_Z z :: acc)
  end.

(** The number a [BigNum] holds.  The word constructor takes an unsigned
    int: the generator, an [int32], is converted to unsigned. *)
Definition BigNum_value (b : BigNum) : Z :=
  match b with
  | BigNum_word w => w mod 2 ^ 32
  | BigNum_bytes bs => be_decode bs
  end.

(** Modular exponentiation on big-endian numbers; the result is empty
    when the modulus is zero or the power is zero modulo it. *)
Definition sample_modExp (base power modulus : BigNum) : list byte :=
  let m := BigNum_value modulus in
  if m =? 0 then []
  else be_encode 512 (Zpow_mod (BigNum_value base) (BigNum_value power) m) [].

(** The local user is 1001; the prime is 0xC71D, the generator 3. *)
Definition sample_env : Env :=
  make_Env 1001 (fun peer => peer)
    (make_DhConfig 3 [byte_of_Z 0xC7; byte_of_Z 0x1D])
    86400000 (fun i => byte_of_Z (Z.of_nat i)) 42 sample_modExp
    "log"%string 5.

(** The remote user is 2002. *)
Definition sample_user : UserData := make_UserData 2002 2002.

Fixpoint run (kRandomPowerSize : nat) (evs : list (Env * Event)) (c : Call)
  : Outcome Call :=
  match evs with
  | [] => Ok c
  | (env, ev) :: rest =>
      c <- step kRandomPowerSize env ev c ;; run kRandomPowerSize rest c
  end.

(** What [run] returns, or the call it started from after a fatal stop. *)
Definition run_from (c : Call) (evs : list Event) : Call :=
  match run 256 (map (fun ev => (sample_env, ev)) evs) c with
  | Ok c' => c'
  | Fatal _ => c
  end.

Definition sample_incoming : Call :=
  Call_ctor 256 OtherState sample_env sample_user Incoming.

Definition sample_outgoing : Call :=
  Call_ctor 256 OtherState sample_env sample_user Outgoing.

(** An outgoing call that was started: state [Requesting], no id yet. *)
Definition sample_outgoing_requesting : Call :=
  run_from sample_outgoing [ev_start (repeat x01 256)].

(** The same call once [phone.requestCall] was answered with a waiting
    record of id 7: state [Waiting], [_id] 7, [_gaHash] the SHA-256 of
    its own [_ga]. *)
Definition sample_outgoing_waiting : Call :=
  run_from sample_outgoing
    [ev_start (repeat x01 256);
     ev_requestCall_done
       (mtpc_phone_phoneCall
          (mtpc_phoneCallWaiting (phoneCallWaiting.make 7 9)) [])].

Definition sample_connection : phoneConnection.t :=
  phoneConnection.make 1 "10.0.0.1"%string ""%string 443 (repeat x07 16).

(** A confirmed call for id 7 whose revealed value is the single byte 5. *)
Definition sample_confirmed_wrong_ga : phoneCall.t :=
  phoneCall.make 7 9 1001 2002 [x05] 0 sample_connection [].

Definition sample_requested : MTPPhoneCall :=
  mtpc_phoneCallRequested
    (phoneCallRequested.make 77 88 2002 1001 (openssl.Sha256 [x09])
       (MTP_phoneCallProtocol true true 65 65)).

Definition sample_requested_short_hash : phoneCallRequested.t :=
  phoneCallRequested.make 77 88 2002 1001 [x01; x02; x03]
    (MTP_phoneCallProtocol true false 65 65).

(** An incoming call that received "call requested" with a commitment,
    and was answered: state [ExchangingKeys], [_id] 77. *)
Definition sample_incoming_exchanging : Call :=
  run_from sample_incoming
    [ev_start (repeat x01 256); ev_handleUpdate sample_requested; ev_answer].

(** A confirmed call for id 77 whose revealed value is the single byte 5,
    while the commitment was to the single byte 9. *)
Definition sample_confirmed_wrong_ga_incoming : phoneCall.t :=
  phoneCall.make 77 88 2002 1001 [x05] 0 sample_connection [].

(** An incoming call that received "call requested" (id 77) and then
    "call empty" for the same id: state [Failed]. *)
Definition sample_incoming_failed : Call :=
  run_from sample_incoming
    [ev_start (repeat x01 256); ev_handleUpdate sample_requested;
     ev_handleUpdate (mtpc_phoneCallEmpty (phoneCallEmpty.make 77))].

(** The same call after "call requested" and a "call discarded" update
    without a busy reason: state [Ended]. *)
Definition sample_incoming_ended : Call :=
  run_from sample_incoming
    [ev_start (repeat x01 256); ev_handleUpdate sample_requested;
     ev_handleUpdate
       (mtpc_phoneCallDiscarded
          (phoneCallDiscarded.make false 77
             (Some phoneCallDiscardReasonHangup)))].

(** ** Vocabulary of the further properties *)

(** A connection descriptor [ConvertEndpoint] accepts: its peer tag has 16
    bytes. *)
Definition valid_connection (mtc : phoneConnection.t) : bool :=
  (List.length (phoneConnection.vpeer_tag mtc) =? 16)%nat.

(** The endpoint [ConvertEndpoint] builds from an accepted descriptor. *)
Definition endpoint_of (mtc : phoneConnection.t) : tgvoip.Endpoint :=
  tgvoip.make_Endpoint (to_int64 (phoneConnection.vid mtc))
    (to_uint16 (phoneConnection.vport mtc)) (phoneConnection.vip mtc)
    (phoneConnection.vipv6 mtc) (phoneConnection.vpeer_tag mtc).

(** The ids [checkCallCommonFields] expects, by direction. *)
Definition expected_adminId (env : Env) (c : Call) : Z :=
  match _type c with
  | Outgoing => CurrentUserId env
  | Incoming => peerToUser env (id (_user c))
  end.

Definition expected_participantId (env : Env) (c : Call) : Z :=
  match _type c with
  | Outgoing => peerToUser env (id (_user c))
  | Incoming => CurrentUserId env
  end.

(** The four comparisons of [checkCallFields(const MTPDphoneCall &)]. *)
Definition call_fields_match (env : Env) (call : phoneCall.t) (c : Call)
  : bool :=
  (phoneCall.vaccess_hash call =? _accessHash c)
  && (phoneCall.vadmin_id call =? expected_adminId env c)
  && (phoneCall.vparticipant_id call =? expected_participantId env c)
  && (phoneCall.vkey_fingerprint call =? _keyFingerprint c).

(** The controller as [createAndStartController] leaves it. *)
Definition controller_for (env : Env) (call : phoneCall.t) (c : Call)
  : tgvoip.VoIPController :=
  tgvoip.make_controller (_mute c)
    (map endpoint_of
       (filter valid_connection
          (phoneCall.vconnection call
           :: phoneCall.valternative_connections call)))
    true
    (tgvoip.make_config tgvoip.DATA_SAVING_NEVER true true true 30 10)
    (_authKey c)
    (match _type c with Outgoing => true | Incoming => false end)
    true true.

(** A shared secret of at most 256 bytes, zero-padded on the left. *)
Definition padded_key (raw : list byte) : list byte :=
  repeat x00 (kAuthKeySize - List.length raw) ++ raw.

(** The state a "call discarded" update leads to. *)
Definition discard_target (data : phoneCallDiscarded.t) : State :=
  match phoneCallDiscarded.vreason data with
  | Some phoneCallDiscardReasonBusy => Busy
  | _ => Ended
  end.

Definition is_debug_upload (e : Effect) : bool :=
  match e with
  | MTP_send (MTPphone_SaveCallDebug _ _ _) => true
  | _ => false
  end.

(** The duration [finish] reports. *)
Definition discard_duration (env : Env) (c : Call) : Z :=
  if _startTime c =? 0 then 0
  else to_int32 (Z.quot (getms env - _startTime c) 1000).

(** The connection id [finish] reports. *)
Definition discard_connectionId (env : Env) (c : Call) : Z :=
  match _controller c with
  | Some _ => GetPreferredRelayID env
  | None => 0
  end.

(** The reason [hangup] gives. *)
Definition hangup_reason (c : Call) : MTPPhoneCallDiscardReason :=
  match _state c, _type c with
  | Ringing, _ => phoneCallDiscardReasonMissed
  | Waiting, Outgoing => phoneCallDiscardReasonMissed
  | _, _ => phoneCallDiscardReasonHangup
  end.

(** The state [handleControllerStateChange] queues for a controller
    state code. *)
Definition queued_state_of (state : tgvoip.state_t) : option State :=
  match state with
  | tgvoip.STATE_WAIT_INIT => Some WaitingInit
  | tgvoip.STATE_WAIT_INIT_ACK => Some WaitingInitAck
  | tgvoip.STATE_ESTABLISHED => Some Established
  | tgvoip.STATE_FAILED => Some Failed
  | tgvoip.STATE_other _ => None
  end.

(** The public value an update reveals, for the two variants that carry
    one. *)
Definition revealed_value (call : MTPPhoneCall) : list byte :=
  match call with
  | mtpc_phoneCallAccepted data => phoneCallAccepted.vg_b data
  | mtpc_phoneCall data => phoneCall.vg_a_or_b data
  | _ => []
  end.

(** The three fixed-size buffers of the call. *)
Definition buffers (c : Call) : list byte * list byte * list byte :=
  (_randomPower c, _gaHash c, _authKey c).

Definition well_sized (kRandomPowerSize : nat) (c : Call) : Prop :=
  List.length (_randomPower c) = kRandomPowerSize
  /\ List.length (_gaHash c) = openssl.kSha256Size
  /\ List.length (_authKey c) = kAuthKeySize.

(** The state an observer of [stateChanged] holds after the notifications
    of a log, starting from [s]. *)
Definition observed_state (s : State) (es : list Effect) : State :=
  fold_left (fun s e =>
               match e with
               | stateChanged_notify s' => s'
               | _ => s
               end) es s.

Definition is_state_notification (e : Effect) : bool :=
  match e with
  | stateChanged_notify _ => true
  | _ => false
  end.

(** [c'] continues [c]: its log extends that of [c], and replaying the
    added notifications from the state of [c] gives the state of [c']. *)
Definition announces (c c' : Call) : Prop :=
  exists added,
    effects c' = effects c ++ added
    /\ observed_state (_state c) added = _state c'.

(** ** Further sample inputs

    The calls below are the values the runs named in their definitions
    evaluate to. *)

(** The SHA-256 digest of the single byte 9. *)
Definition commitment_to_9 : list byte :=
  Eval vm_compute in openssl.Sha256 [x09].

Definition sample_requested_data : phoneCallRequested.t :=
  phoneCallRequested.make 77 88 2002 1001 commitment_to_9
    (MTP_phoneCallProtocol true true 65 65).

Definition sample_requested_wrong_participant : phoneCallRequested.t :=
  phoneCallRequested.make 77 88 2002 9999 commitment_to_9
    (MTP_phoneCallProtocol true true 65 65).

(** An outgoing call that was started: state [Requesting], no id. *)
Definition requesting_call : Call :=
  Eval vm_compute in
    run_from sample_outgoing [ev_start (repeat x01 256)].

(** The same call once its request was answered with a waiting record of
    id 7 and access hash 9: state [Waiting]. *)
Definition waiting_call : Call :=
  Eval vm_compute in
    run_from sample_outgoing
      [ev_start (repeat x01 256);
       ev_requestCall_done
         (mtpc_phone_phoneCall
            (mtpc_phoneCallWaiting (phoneCallWaiting.make 7 9)) [])].

(** An incoming call that was started and received "call requested":
    state [Ringing], [_id] 77, access hash 88. *)
Definition ringing_call : Call :=
  Eval vm_compute in
    run_from sample_incoming
      [ev_start (repeat x01 256);
       ev_handleUpdate (mtpc_phoneCallRequested sample_requested_data)].

(** The same call once answered: state [ExchangingKeys]. *)
Definition exchanging_call : Call :=
  Eval vm_compute in
    run_from sample_incoming
      [ev_start (repeat x01 256);
       ev_handleUpdate (mtpc_phoneCallRequested sample_requested_data);
       ev_answer].

(** A descriptor with a peer tag of 3 bytes. *)
Definition sample_connection_short_tag : phoneConnection.t :=
  phoneConnection.make 2 "10.0.0.2"%string ""%string 444 [x01; x02; x03].

(** What the sample exponentiation gives for the revealed value 9 and the
    secret of [exchanging_call]. *)
Definition shared_secret : list byte :=
  Eval vm_compute in
    sample_modExp (BigNum_bytes [x09])
      (BigNum_bytes (_randomPower exchanging_call))
      (BigNum_bytes (p (_dhConfig exchanging_call))).

(** The fingerprint of the padded [shared_secret]. *)
Definition shared_fingerprint : Z :=
  Eval vm_compute in ComputeFingerprint (padded_key shared_secret).

(** The confirmed call the peer of [exchanging_call] sends: the committed
    value 9 and the fingerprint of the padded secret. *)
Definition confirmed_record : phoneCall.t :=
  phoneCall.make 77 88 2002 1001 [x09] shared_fingerprint
    sample_connection [sample_connection_short_tag; sample_connection].

(** A call record for [exchanging_call] before any key was derived (the
    fingerprint field of the call is still 0). *)
Definition unkeyed_record : phoneCall.t :=
  phoneCall.make 77 88 2002 1001 [x05] 0 sample_connection [].

(** The same record with a foreign access hash. *)
Definition foreign_record : phoneCall.t :=
  phoneCall.make 77 1234 2002 1001 [x05] 0 sample_connection [].

(** [exchanging_call] once [confirmed_record] arrived: [Established]. *)
Definition established_call : Call :=
  Eval vm_compute in
    run_from sample_incoming
      [ev_start (repeat x01 256);
       ev_handleUpdate (mtpc_phoneCallRequested sample_requested_data);
       ev_answer; ev_handleUpdate (mtpc_phoneCall confirmed_record)].

Definition sample_accepted : phoneCallAccepted.t :=
  phoneCallAccepted.make 7 9 1001 2002 [x09].

Definition sample_accepted_empty_gb : phoneCallAccepted.t :=
  phoneCallAccepted.make 7 9 1001 2002 [].

Definition sample_accepted_foreign : phoneCallAccepted.t :=
  phoneCallAccepted.make 7 1234 1001 2002 [x09].

Definition sample_discarded_busy : phoneCallDiscarded.t :=
  phoneCallDiscarded.make true 77 (Some phoneCallDiscardReasonBusy).

Definition sample_waiting_result : MTPphone_PhoneCall :=
  mtpc_phone_phoneCall (mtpc_phoneCallWaiting (phoneCallWaiting.make 7 9)) [].

(** An incoming call from construction to its end: started, requested,
    muted, told a controller state, hung up, the discard failing. *)
Definition sample_incoming_events : list (Env * Event) :=
  map (fun ev => (sample_env, ev))
    [ev_start (repeat x01 256);
     ev_handleUpdate (mtpc_phoneCallRequested sample_requested_data);
     ev_setMute true; ev_controllerState tgvoip.STATE_WAIT_INIT;
     ev_queued_setState WaitingInit; ev_hangup; ev_discardCall_fail].

Definition finished_call : Call :=
  Eval vm_compute in
    match run 256 sample_incoming_events sample_incoming with
    | Ok c => c
    | Fatal _ => sample_incoming
    end.

(** * Properties *)

(** ** The hash primitives

    The two digests agree with the published test vectors. *)
Example Sha1_abc :
  map to_integer (openssl.Sha1 ["a"%byte; "b"%byte; "c"%byte])
  = [0xa9; 0x99; 0x3e; 0x36; 0x47; 0x06; 0x81; 0x6a; 0xba; 0x3e;
     0x25; 0x71; 0x78; 0x50; 0xc2; 0x6c; 0x9c; 0xd0; 0xd8; 0x9d].
Proof. vm_compute. reflexivity. Qed.

Example Sha1_two_blocks :
  map to_integer (openssl.Sha1 (repeat "a"%byte 70))
  = [0xed; 0x6c; 0x69; 0xd9; 0xe8; 0xb4; 0x37; 0x3a; 0xf8; 0x63;
     0x03; 0xdf; 0xaa; 0x35; 0x28; 0xdf; 0xbc; 0x12; 0x99; 0x02].
Proof. vm_compute. reflexivity. Qed.

Example Sha256_constants :
  firstn 2 openssl.K256 = [0x428a2f98; 0x71374491]
  /\ nth 63 openssl.K256 0 = 0xc67178f2
  /\ List.length openssl.K256 = 64%nat
  /\ firstn 2 openssl.H256 = [0x6a09e667; 0xbb67ae85]
  /\ nth 7 openssl.H256 0 = 0x5be0cd19.
Proof. vm_compute. repeat split. Qed.

Example Sha256_abc :
  map to_integer (openssl.Sha256 ["a"%byte; "b"%byte; "c"%byte])
  = [0xba; 0x78; 0x16; 0xbf; 0x8f; 0x01; 0xcf; 0xea; 0x41; 0x41; 0x40;
     0xde; 0x5d; 0xae; 0x22; 0x23; 0xb0; 0x03; 0x61; 0xa3; 0x96; 0x17;
     0x7a; 0x9c; 0xb4; 0x10; 0xff; 0x61; 0xf2; 0x00; 0x15; 0xad].
Proof. vm_compute. reflexivity. Qed.

Example Sha256_two_blocks :
  map to_integer (openssl.Sha256 (repeat "a"%byte 70))
  = [0x6b; 0xd5; 0xe5; 0x03; 0x48; 0x55; 0xa1; 0x12; 0x41; 0xf0; 0xde;
     0xe8; 0xfc; 0x72; 0x85; 0x0f; 0xfd; 0x99; 0x55; 0xb2; 0x83; 0x47;
     0xa8; 0x64; 0x28; 0xb5; 0xfa; 0x19; 0x11; 0x9f; 0x6a; 0xd0].
Proof. vm_compute. reflexivity. Qed.

(** ** Basic facts *)

Lemma State_eqb_refl s : State_eqb s s = true.
Proof. unfold State_eqb. destruct (State_eq_dec s s); congruence. Qed.

Lemma State_eqb_eq a b : State_eqb a b = true <-> a = b.
Proof.
  unfold State_eqb. destruct (State_eq_dec a b); split; congruence.
Qed.

Lemma State_eqb_neq a b : State_eqb a b = false <-> a <> b.
Proof.
  unfold State_eqb. destruct (State_eq_dec a b); split; congruence.
Qed.

Lemma CallType_eqb_eq a b : CallType_eqb a b = true <-> a = b.
Proof. destruct a, b; simpl; split; congruence. Qed.

Lemma bytes_eqb_neq a b : a <> b -> bytes_eqb a b = false.
Proof.
  intros H. unfold bytes_eqb.
  destruct (list_eq_dec Byte.byte_eq_dec a b); congruence.
Qed.

Lemma bytes_eqb_eq a b : bytes_eqb a b = true <-> a = b.
Proof.
  unfold bytes_eqb.
  destruct (list_eq_dec Byte.byte_eq_dec a b); split; congruence.
Qed.

Lemma Z_eqb_neq_negb a b : a <> b -> negb (a =? b) = true.
Proof. intros H. apply Z.eqb_neq in H. now rewrite H. Qed.

Lemma to_integer_range b : 0 <= to_integer b < 256.
Proof.
  unfold to_integer. pose proof (Byte.to_N_bounded b) as H. lia.
Qed.

Lemma Sha1_length data : List.length (openssl.Sha1 data) = openssl.kSha1Size.
Proof.
  unfold openssl.Sha1.
  destruct (fold_left _ _ _) as [[[[h0 h1] h2] h3] h4]. reflexivity.
Qed.

Lemma Sha256_length data :
  List.length (openssl.Sha256 data) = openssl.kSha256Size.
Proof.
  unfold openssl.Sha256.
  destruct (fold_left _ _ _) as [[[[[[[h0 h1] h2] h3] h4] h5] h6] h7].
  reflexivity.
Qed.

(** Each projection of the call other than [_state], [_startTime], the
    timer and the log is untouched by [setState]. *)
Ltac setState_frame :=
  intros; unfold setState;
  match goal with
  | |- context [State_eqb ?a ?b] => destruct (State_eqb a b)
  end; simpl; [reflexivity|];
  match goal with
  | |- context [match ?s with Requesting => _ | _ => _ end] => destruct s
  end; reflexivity.

Lemma setState_state env s c : _state (setState env s c) = s.
Proof.
  unfold setState. destruct (State_eqb (_state c) s) eqn:E; simpl.
  - now apply State_eqb_eq.
  - destruct s; reflexivity.
Qed.

Lemma setState_controller env s c :
  _controller (setState env s c) = _controller c.
Proof. setState_frame. Qed.

Lemma setState_id env s c : _id (setState env s c) = _id c.
Proof. setState_frame. Qed.

Lemma setState_accessHash env s c :
  _accessHash (setState env s c) = _accessHash c.
Proof. setState_frame. Qed.

Lemma setState_protocol env s c : _protocol (setState env s c) = _protocol c.
Proof. setState_frame. Qed.

Lemma setState_type env s c : _type (setState env s c) = _type c.
Proof. setState_frame. Qed.

Lemma setState_authKey env s c : _authKey (setState env s c) = _authKey c.
Proof. setState_frame. Qed.

Lemma setState_effects env s c :
  _state c <> s ->
  effects (setState env s c) = effects c ++ entry_effects s.
Proof.
  intros H. unfold setState. apply State_eqb_neq in H. rewrite H. simpl.
  destruct s; simpl; rewrite <- ?app_assoc; reflexivity.
Qed.

Lemma finish_Ended env reason c : _state c = Ended -> finish env reason c = c.
Proof. intros H. unfold finish. rewrite H. reflexivity. Qed.

Example sample_incoming_exchanging_shape :
  _type sample_incoming_exchanging = Incoming
  /\ _state sample_incoming_exchanging = ExchangingKeys
  /\ _id sample_incoming_exchanging = 77
  /\ _gaHash sample_incoming_exchanging = openssl.Sha256 [x09].
Proof. vm_compute. repeat split. Qed.

Example sample_outgoing_requesting_shape :
  _type sample_outgoing_requesting = Outgoing
  /\ _state sample_outgoing_requesting = Requesting
  /\ _id sample_outgoing_requesting = 0
  /\ notifications_of Requesting (effects sample_outgoing_requesting) = 1%nat.
Proof. vm_compute. repeat split. Qed.

(** ** The commitment check *)

(** With a commitment that does not match, [startConfirmedCall] on an
    incoming call stops at the hash comparison. *)
Lemma startConfirmedCall_mismatch env data c :
  _type c = Incoming ->
  _gaHash c <> openssl.Sha256 (phoneCall.vg_a_or_b data) ->
  startConfirmedCall env data c = Ok (setState env Failed c).
Proof.
  intros Hty Hne. unfold startConfirmedCall. rewrite Hty. simpl.
  rewrite (bytes_eqb_neq _ _ Hne). reflexivity.
Qed.

(** C1, as stated, fails for an outgoing call: the "call" update with the
    call's own id and a revealed value that does not hash to the stored
    commitment is consumed and leaves the call in [Waiting], not in
    [Failed]. *)
Lemma confirmed_mismatch_on_outgoing_call_not_failed :
  _type sample_outgoing_waiting = Outgoing
  /\ phoneCall.vid sample_confirmed_wrong_ga = _id sample_outgoing_waiting
  /\ _gaHash sample_outgoing_waiting
     = openssl.Sha256 (_ga sample_outgoing_waiting)
  /\ _gaHash sample_outgoing_waiting
     <> openssl.Sha256 (phoneCall.vg_a_or_b sample_confirmed_wrong_ga)
  /\ handleUpdate sample_env (mtpc_phoneCall sample_confirmed_wrong_ga)
       sample_outgoing_waiting
     = Ok (true, sample_outgoing_waiting)
  /\ _state sample_outgoing_waiting = Waiting
  /\ _state sample_outgoing_waiting <> Failed.
Proof.
  vm_compute. repeat split; try discriminate.
Qed.

(** C1, amended. When a "call" update whose revealed value does not hash
    to the stored commitment is dispatched, the controller is never
    created.  The update is consumed exactly when it carries the call's
    id.  When it does, the call is incoming and its state is
    [ExchangingKeys], only [setState(Failed)] is applied and the call is
    in [Failed]; in every other case, in particular for an outgoing call,
    the call is left exactly as it was. *)
Theorem handleUpdate_confirmed_commitment_mismatch
    (env : Env) (data : phoneCall.t) (c : Call) :
  _gaHash c <> openssl.Sha256 (phoneCall.vg_a_or_b data) ->
  exists consumed c',
    handleUpdate env (mtpc_phoneCall data) c = Ok (consumed, c')
    /\ (consumed = true <-> phoneCall.vid data = _id c)
    /\ (c' = c \/ c' = setState env Failed c)
    /\ _controller c' = _controller c
    /\ (phoneCall.vid data = _id c -> _type c = Incoming ->
        _state c = ExchangingKeys ->
        consumed = true /\ c' = setState env Failed c /\ _state c' = Failed)
    /\ (~ (phoneCall.vid data = _id c /\ _type c = Incoming
           /\ _state c = ExchangingKeys) ->
        c' = c)
    /\ (_type c = Outgoing -> c' = c).
Proof.
  intros Hne. unfold handleUpdate.
  destruct (phoneCall.vid data =? _id c) eqn:Eid; simpl.
  - apply Z.eqb_eq in Eid.
    destruct (CallType_eqb (_type c) Incoming) eqn:Ety; simpl.
    + apply CallType_eqb_eq in Ety.
      destruct (State_eqb (_state c) ExchangingKeys) eqn:Est.
      * apply State_eqb_eq in Est.
        rewrite (startConfirmedCall_mismatch env data c Ety Hne). simpl.
        exists true, (setState env Failed c).
        split; [reflexivity|]. split; [tauto|]. split; [now right|].
        split; [apply setState_controller|]. split; [|split].
        -- intros _ _ _. split; [reflexivity|].
           split; [reflexivity|apply setState_state].
        -- intros Hn. exfalso. apply Hn. auto.
        -- intros Hout. congruence.
      * exists true, c.
        split; [reflexivity|]. split; [tauto|]. split; [now left|].
        split; [reflexivity|]. split; [|split; reflexivity].
        intros _ _ Hst. apply State_eqb_eq in Hst. congruence.
    + exists true, c.
      split; [reflexivity|]. split; [tauto|]. split; [now left|].
      split; [reflexivity|]. split; [|split; reflexivity].
      intros _ Hin. apply CallType_eqb_eq in Hin. congruence.
  - apply Z.eqb_neq in Eid. exists false, c.
    split; [reflexivity|].
    split; [split; [discriminate|intros H; contradiction]|].
    split; [now left|].
    split; [reflexivity|]. split; [|split; reflexivity].
    intros Hid. contradiction.
Qed.

Lemma handleUpdate_confirmed_commitment_mismatch_witness :
  exists consumed c',
    handleUpdate sample_env
      (mtpc_phoneCall sample_confirmed_wrong_ga_incoming)
      sample_incoming_exchanging
    = Ok (consumed, c')
    /\ (consumed = true
        <-> phoneCall.vid sample_confirmed_wrong_ga_incoming
            = _id sample_incoming_exchanging)
    /\ (c' = sample_incoming_exchanging
        \/ c' = setState sample_env Failed sample_incoming_exchanging)
    /\ _controller c' = _controller sample_incoming_exchanging
    /\ (phoneCall.vid sample_confirmed_wrong_ga_incoming
        = _id sample_incoming_exchanging ->
        _type sample_incoming_exchanging = Incoming ->
        _state sample_incoming_exchanging = ExchangingKeys ->
        consumed = true
        /\ c' = setState sample_env Failed sample_incoming_exchanging
        /\ _state c' = Failed)
    /\ (~ (phoneCall.vid sample_confirmed_wrong_ga_incoming
           = _id sample_incoming_exchanging
           /\ _type sample_incoming_exchanging = Incoming
           /\ _state sample_incoming_exchanging = ExchangingKeys) ->
        c' = sample_incoming_exchanging)
    /\ (_type sample_incoming_exchanging = Outgoing ->
        c' = sample_incoming_exchanging).
Proof.
  apply (handleUpdate_confirmed_commitment_mismatch sample_env
           sample_confirmed_wrong_ga_incoming sample_incoming_exchanging).
  vm_compute. discriminate.
Defined.

(** ** Terminal states *)

(** C2, as stated, fails: [hangup] takes a [Failed] call to [HangingUp]
    (and sends [phone.discardCall]), and a "call empty" update takes an
    [Ended] call to [Failed]. *)
Lemma terminal_states_are_left :
  (_state sample_incoming_failed = Failed
   /\ state_after (step 256 sample_env ev_hangup sample_incoming_failed)
      = Some HangingUp)
  /\ (_state sample_incoming_ended = Ended
      /\ state_after
           (step 256 sample_env
              (ev_handleUpdate (mtpc_phoneCallEmpty (phoneCallEmpty.make 77)))
              sample_incoming_ended)
         = Some Failed).
Proof. vm_compute. repeat split. Qed.

(** C2, amended. A call in [Ended] is left exactly as it is by [hangup],
    [decline] and [finish]; a call in [Failed] or [Ended] is left exactly
    as it is by a "call waiting" update, by a confirmed "call" update and
    by any update that carries another call's id. *)
Theorem terminal_state_kept
    (kRandomPowerSize : nat) (env : Env) (ev : Event) (c : Call) :
  terminal (_state c) ->
  leaves_terminal_call_alone c ev = true ->
  step kRandomPowerSize env ev c = Ok c.
Proof.
  intros Hterm Hev.
  destruct ev as [| | | | | reason | call | | | | | | | | |];
    simpl in Hev; try discriminate.
  - apply State_eqb_eq in Hev. simpl. unfold hangup.
    now rewrite finish_Ended.
  - apply State_eqb_eq in Hev. simpl. unfold decline.
    now rewrite finish_Ended.
  - apply State_eqb_eq in Hev. simpl. now rewrite finish_Ended.
  - assert (Hnot : State_eqb (_state c) ExchangingKeys = false).
    { apply State_eqb_neq. destruct Hterm as [H|H]; rewrite H; discriminate. }
    destruct call as [d|d|d|d|d|d]; simpl in Hev; try discriminate;
      simpl; try (rewrite Hev; reflexivity).
    + destruct (negb (phoneCallWaiting.vid d =? _id c)); reflexivity.
    + destruct (negb (phoneCall.vid d =? _id c)); [reflexivity|].
      rewrite Hnot, andb_false_r. reflexivity.
Qed.

Lemma terminal_state_kept_witness :
  step 256 sample_env ev_hangup sample_incoming_ended
  = Ok sample_incoming_ended.
Proof.
  apply (terminal_state_kept 256 sample_env ev_hangup sample_incoming_ended).
  - right. vm_compute. reflexivity.
  - vm_compute. reflexivity.
Defined.

(** ** The key fingerprint *)

Lemma lor_disjoint_add hi lo n m :
  0 <= n -> 0 <= lo < 2 ^ n -> hi = m * 2 ^ n -> Z.lor hi lo = hi + lo.
Proof.
  intros Hn Hlo Hhi.
  assert (Hland : Z.land hi lo = 0).
  { apply Z.bits_inj'. intros k Hk.
    rewrite Z.land_spec, Z.bits_0.
    destruct (Z.lt_ge_cases k n) as [Hlt|Hge].
    - subst hi. rewrite Z.mul_pow2_bits_low by lia. reflexivity.
    - replace lo with (lo mod 2 ^ n) by (apply Z.mod_small; lia).
      rewrite Z.mod_pow2_bits_high by lia. apply andb_false_r. }
  rewrite <- Z.lxor_lor by exact Hland.
  symmetry. apply Z.add_nocarry_lxor. exact Hland.
Qed.

Lemma shiftl_bytes x k : 0 <= k -> Z.shiftl x k = x * 2 ^ k.
Proof. intros. apply Z.shiftl_mul_pow2. lia. Qed.

Ltac norm_pows :=
  change (2 ^ 56) with 72057594037927936;
  change (2 ^ 48) with 281474976710656;
  change (2 ^ 40) with 1099511627776;
  change (2 ^ 32) with 4294967296;
  change (2 ^ 24) with 16777216;
  change (2 ^ 16) with 65536;
  change (2 ^ 8) with 256.

(** The shift-and-or expression of [ComputeFingerprint] on eight bytes. *)
Lemma fingerprint_of_bytes (b12 b13 b14 b15 b16 b17 b18 b19 : byte) :
  Z.lor (Z.lor (Z.lor (Z.lor (Z.lor (Z.lor (Z.lor
    (Z.shiftl (to_integer b19) 56)
    (Z.shiftl (to_integer b18) 48))
    (Z.shiftl (to_integer b17) 40))
    (Z.shiftl (to_integer b16) 32))
    (Z.shiftl (to_integer b15) 24))
    (Z.shiftl (to_integer b14) 16))
    (Z.shiftl (to_integer b13) 8))
    (to_integer b12)
  = little_endian [b12; b13; b14; b15; b16; b17; b18; b19].
Proof.
  pose proof (to_integer_range b12). pose proof (to_integer_range b13).
  pose proof (to_integer_range b14). pose proof (to_integer_range b15).
  pose proof (to_integer_range b16). pose proof (to_integer_range b17).
  pose proof (to_integer_range b18). pose proof (to_integer_range b19).
  rewrite !shiftl_bytes by lia.
  cbn [little_endian].
  generalize dependent (to_integer b12). generalize dependent (to_integer b13).
  generalize dependent (to_integer b14). generalize dependent (to_integer b15).
  generalize dependent (to_integer b16). generalize dependent (to_integer b17).
  generalize dependent (to_integer b18). generalize dependent (to_integer b19).
  intros v19 ? v18 ? v17 ? v16 ? v15 ? v14 ? v13 ? v12 ?.
  set (s7 := v19 * 2 ^ 56).
  set (s6 := v18 * 2 ^ 48). set (s5 := v17 * 2 ^ 40).
  set (s4 := v16 * 2 ^ 32). set (s3 := v15 * 2 ^ 24).
  set (s2 := v14 * 2 ^ 16). set (s1 := v13 * 2 ^ 8).
  rewrite (lor_disjoint_add s7 s6 56 v19)
    by (subst s7 s6; norm_pows; lia).
  rewrite (lor_disjoint_add (s7 + s6) s5 48 (v19 * 256 + v18))
    by (subst s7 s6 s5; norm_pows; lia).
  rewrite (lor_disjoint_add (s7 + s6 + s5) s4 40
             ((v19 * 256 + v18) * 256 + v17))
    by (subst s7 s6 s5 s4; norm_pows; lia).
  rewrite (lor_disjoint_add (s7 + s6 + s5 + s4) s3 32
             (((v19 * 256 + v18) * 256 + v17) * 256 + v16))
    by (subst s7 s6 s5 s4 s3; norm_pows; lia).
  rewrite (lor_disjoint_add (s7 + s6 + s5 + s4 + s3) s2 24
             ((((v19 * 256 + v18) * 256 + v17) * 256 + v16) * 256 + v15))
    by (subst s7 s6 s5 s4 s3 s2; norm_pows; lia).
  rewrite (lor_disjoint_add (s7 + s6 + s5 + s4 + s3 + s2) s1 16
             (((((v19 * 256 + v18) * 256 + v17) * 256 + v16) * 256 + v15)
              * 256 + v14))
    by (subst s7 s6 s5 s4 s3 s2 s1; norm_pows; lia).
  rewrite (lor_disjoint_add (s7 + s6 + s5 + s4 + s3 + s2 + s1) v12 8
             ((((((v19 * 256 + v18) * 256 + v17) * 256 + v16) * 256 + v15)
               * 256 + v14) * 256 + v13))
    by (subst s7 s6 s5 s4 s3 s2 s1; norm_pows; lia).
  subst s7 s6 s5 s4 s3 s2 s1.
  norm_pows.
  lia.
Qed.

(** C3, as stated, fails: on the all-zero 256-byte key the digest bytes
    12 to 19 are b1 08 0b fd 57 0d 9b 91; read most significant byte
    first they give 0xb1080bfd570d9b91, while [ComputeFingerprint]
    returns 0x919b0d57fd0b08b1. *)
Lemma ComputeFingerprint_not_big_endian :
  let authKey := repeat x00 256 in
  let low8 := firstn 8 (skipn 12 (openssl.Sha1 authKey)) in
  List.length authKey = 256%nat
  /\ map to_integer low8 = [0xb1; 0x08; 0x0b; 0xfd; 0x57; 0x0d; 0x9b; 0x91]
  /\ be_decode low8 = 0xb1080bfd570d9b91
  /\ ComputeFingerprint authKey = 0x919b0d57fd0b08b1
  /\ ComputeFingerprint authKey <> be_decode low8.
Proof. vm_compute. repeat split; discriminate. Qed.

(** C3, amended. For every key, [ComputeFingerprint] is the last 8 bytes
    of the SHA-1 digest of the whole key (offsets 12 to 19 of the 20-byte
    digest) read as an unsigned 64-bit integer least significant byte
    first: byte 12 is the lowest byte and byte 19 the highest. *)
Theorem ComputeFingerprint_little_endian (authKey : list byte) :
  ComputeFingerprint authKey
  = little_endian (firstn 8 (skipn 12 (openssl.Sha1 authKey)))
  /\ 0 <= ComputeFingerprint authKey < 2 ^ 64.
Proof.
  assert (E : ComputeFingerprint authKey
              = little_endian (firstn 8 (skipn 12 (openssl.Sha1 authKey)))).
  { unfold ComputeFingerprint, openssl.Sha1.
    destruct (fold_left _ _ _) as [[[[h0 h1] h2] h3] h4].
    unfold openssl.bytes_of_w32, at_.
    cbn [app nth skipn firstn].
    apply fingerprint_of_bytes. }
  split; [exact E|].
  rewrite E.
  pose proof (Sha1_length authKey) as L.
  destruct (openssl.Sha1 authKey) as [|a0 [|a1 [|a2 [|a3 [|a4 [|a5 [|a6 [|a7
    [|a8 [|a9 [|a10 [|a11 [|a12 [|a13 [|a14 [|a15 [|a16 [|a17 [|a18 [|a19
    rest]]]]]]]]]]]]]]]]]]]]; try discriminate L.
  cbn [skipn firstn little_endian].
  pose proof (to_integer_range a12). pose proof (to_integer_range a13).
  pose proof (to_integer_range a14). pose proof (to_integer_range a15).
  pose proof (to_integer_range a16). pose proof (to_integer_range a17).
  pose proof (to_integer_range a18). pose proof (to_integer_range a19).
  change (2 ^ 64) with 18446744073709551616. lia.
Qed.

(** ** The auth key *)

Lemma firstn_repeat_app {A} (x : A) n l :
  firstn n (repeat x n ++ l) = repeat x n.
Proof.
  rewrite firstn_app, repeat_length, Nat.sub_diag, firstn_O, app_nil_r.
  rewrite firstn_all2; [reflexivity|]. rewrite repeat_length. lia.
Qed.

Lemma deriveAuthKey_short (raw authKey : list byte) :
  List.length authKey = kAuthKeySize ->
  (List.length raw < kAuthKeySize)%nat ->
  deriveAuthKey raw authKey
  = Ok (repeat x00 (kAuthKeySize - List.length raw) ++ raw).
Proof.
  intros Hlen Hlt. unfold deriveAuthKey, t_assert, bind. cbv zeta.
  assert (Hle : (List.length raw <=? kAuthKeySize)%nat = true)
    by (apply Nat.leb_le; lia).
  apply Nat.ltb_lt in Hlt as Hlt'. rewrite Hle, Hlt'. f_equal.
  unfold copy_bytes, set_bytes. cbn [firstn app Nat.add].
  rewrite firstn_repeat_app. f_equal.
  rewrite skipn_all2; [apply app_nil_r|].
  rewrite length_app, repeat_length, length_skipn. lia.
Qed.

Lemma deriveAuthKey_full (raw authKey : list byte) :
  List.length authKey = kAuthKeySize ->
  List.length raw = kAuthKeySize ->
  deriveAuthKey raw authKey = Ok raw.
Proof.
  intros Hlen Heq. unfold deriveAuthKey, t_assert, bind. cbv zeta.
  rewrite Heq, Nat.leb_refl, Nat.ltb_irrefl. f_equal.
  unfold copy_bytes. cbn [firstn app Nat.add].
  rewrite skipn_all2 by lia. apply app_nil_r.
Qed.

(** C4. On the 256-byte [_authKey] buffer, a computed secret of at most
    256 bytes yields a key of exactly 256 bytes: the secret preceded by
    as many zero bytes as it is short of 256, hence the secret itself
    when it has 256 bytes; a longer secret fails the assertion, which
    stops the process instead of failing the call. *)
Theorem deriveAuthKey_pads_left (raw authKey : list byte) :
  List.length authKey = kAuthKeySize ->
  ((List.length raw <= kAuthKeySize)%nat ->
   exists key,
     deriveAuthKey raw authKey = Ok key
     /\ List.length key = kAuthKeySize
     /\ key = repeat x00 (kAuthKeySize - List.length raw) ++ raw
     /\ (List.length raw = kAuthKeySize -> key = raw))
  /\ ((kAuthKeySize < List.length raw)%nat ->
      deriveAuthKey raw authKey
      = Fatal "computedAuthKeySize <= kAuthKeySize").
Proof.
  intros Hlen. split.
  - intros Hle.
    destruct (Nat.eq_dec (List.length raw) kAuthKeySize) as [Heq|Hne].
    + exists raw. rewrite (deriveAuthKey_full raw authKey Hlen Heq).
      rewrite Heq, Nat.sub_diag. repeat split.
    + exists (repeat x00 (kAuthKeySize - List.length raw) ++ raw).
      rewrite (deriveAuthKey_short raw authKey Hlen) by lia.
      split; [reflexivity|]. split; [|split; [reflexivity|lia]].
      rewrite length_app, repeat_length. lia.
  - intros Hgt. unfold deriveAuthKey, t_assert, bind. cbv zeta.
    apply Nat.leb_gt in Hgt. rewrite Hgt. reflexivity.
Qed.

Lemma deriveAuthKey_pads_left_witness :
  deriveAuthKey [x01; x02] (repeat xff 256)
  = Ok (repeat x00 254 ++ [x01; x02]).
Proof.
  destruct (deriveAuthKey_pads_left [x01; x02] (repeat xff 256))
    as [Hshort _].
  - vm_compute. reflexivity.
  - destruct Hshort as (key & Hkey & _ & Hpad & _).
    + vm_compute. lia.
    + rewrite Hkey, Hpad. reflexivity.
Defined.

(** The same block inside [startConfirmedCall]: the key the call ends
    up holding is the padded secret. *)
Lemma createAndStartController_authKey env data c :
  _authKey (createAndStartController env data c) = _authKey c.
Proof.
  unfold createAndStartController, checkCallFields, checkCallCommonFields.
  repeat match goal with
         | |- context [if ?b then _ else _] => destruct b
         end; cbn [negb fst snd _authKey with_controller];
    rewrite ?setState_authKey; reflexivity.
Qed.

Lemma ComputeModExp_size env config base randomPower raw :
  ComputeModExp env config base randomPower = Ok raw ->
  (List.length raw <= kMaxModExpSize)%nat.
Proof.
  unfold ComputeModExp, t_assert, bind. cbv zeta.
  destruct (_ <=? _)%nat eqn:E; [|discriminate].
  intros H. inversion H; subst. now apply Nat.leb_le.
Qed.

Lemma startConfirmedCall_stores_padded_key env data c raw :
  _type c = Incoming ->
  _gaHash c = openssl.Sha256 (phoneCall.vg_a_or_b data) ->
  List.length (_authKey c) = kAuthKeySize ->
  ComputeModExpFinal env (_dhConfig c) (phoneCall.vg_a_or_b data)
    (_randomPower c) = Ok raw ->
  raw <> [] ->
  exists c',
    startConfirmedCall env data c = Ok c'
    /\ _authKey c' = repeat x00 (kAuthKeySize - List.length raw) ++ raw.
Proof.
  intros Hty Hhash Hlen Hexp Hne.
  pose proof (ComputeModExp_size _ _ _ _ _ Hexp) as Hsize.
  assert (Hkey : deriveAuthKey raw (_authKey c)
                 = Ok (repeat x00 (kAuthKeySize - List.length raw) ++ raw)).
  { destruct (Nat.eq_dec (List.length raw) kAuthKeySize) as [Heq|Hneq].
    - rewrite (deriveAuthKey_full raw (_authKey c) Hlen Heq).
      rewrite Heq, Nat.sub_diag. reflexivity.
    - apply deriveAuthKey_short; [exact Hlen|].
      unfold kAuthKeySize, kFingerprintDataSize, kMaxModExpSize in *. lia. }
  unfold startConfirmedCall. rewrite Hty. cbn [CallType_eqb Expects bind].
  apply bytes_eqb_eq in Hhash. rewrite Hhash. cbn [negb].
  rewrite Hexp. cbn [bind].
  destruct raw as [|b raw]; [congruence|].
  rewrite Hkey. cbn [bind].
  eexists. split; [reflexivity|].
  rewrite createAndStartController_authKey. reflexivity.
Qed.

(** ** Entropy of the wrong size *)

(** C5, as stated, fails: with two bytes of entropy where 256 are
    expected, [generateRandomPower] and [start] stop at the precondition;
    no call state results, so the call is not in [Failed]. *)
Lemma short_entropy_stops_the_process :
  List.length [x01; x02] <> 256%nat
  /\ generateRandomPower 256 sample_env [x01; x02] sample_outgoing
     = Fatal "random.size() == _randomPower.size()"
  /\ start 256 sample_env [x01; x02] sample_outgoing
     = Fatal "random.size() == _randomPower.size()"
  /\ state_after (start 256 sample_env [x01; x02] sample_outgoing)
     <> Some Failed.
Proof. vm_compute. repeat split; discriminate. Qed.

(** C5, amended. When the entropy passed to the secret-generation step
    does not have the size of the secret exponent, the precondition of
    [generateRandomPower] fails: the step, and [start] around it, stop
    the process and leave no call state behind; the call is not moved to
    [Failed]. *)
Theorem generateRandomPower_wrong_entropy_size_is_fatal
    (kRandomPowerSize : nat) (env : Env) (random : list byte) (c : Call) :
  List.length random <> kRandomPowerSize ->
  generateRandomPower kRandomPowerSize env random c
  = Fatal "random.size() == _randomPower.size()"
  /\ exists message, start kRandomPowerSize env random c = Fatal message.
Proof.
  intros Hne. apply Nat.eqb_neq in Hne.
  assert (G : forall c0, generateRandomPower kRandomPowerSize env random c0
              = Fatal "random.size() == _randomPower.size()").
  { intros c0. unfold generateRandomPower. rewrite Hne. reflexivity. }
  split; [apply G|].
  unfold start.
  destruct (t_assert _ "_dhConfig.g != 0") as [[]|m1]; simpl bind; [|eauto].
  destruct (t_assert _ "!_dhConfig.p.empty()") as [[]|m2]; simpl bind;
    [|eauto].
  rewrite G. simpl. eauto.
Qed.

Lemma generateRandomPower_wrong_entropy_size_witness :
  generateRandomPower 256 sample_env (repeat x01 255) sample_incoming
  = Fatal "random.size() == _randomPower.size()"
  /\ exists message,
       start 256 sample_env (repeat x01 255) sample_incoming = Fatal message.
Proof.
  apply (generateRandomPower_wrong_entropy_size_is_fatal 256 sample_env
           (repeat x01 255) sample_incoming).
  vm_compute. discriminate.
Defined.

(** ** Hanging up while the request is in flight *)

Lemma Call_ctor_fresh k init env user type :
  _type (Call_ctor k init env user type) = type
  /\ _id (Call_ctor k init env user type) = 0.
Proof.
  unfold Call_ctor. cbv zeta. cbn [_type].
  destruct (CallType_eqb type Outgoing);
    rewrite ?setState_type, ?setState_id; split; reflexivity.
Qed.

(** [start] assigns neither [_type] nor [_id]. *)
Lemma start_keeps_type_and_id k env random c c1 :
  start k env random c = Ok c1 ->
  _type c1 = _type c /\ _id c1 = _id c.
Proof.
  unfold start. cbv zeta.
  destruct (t_assert _ "_dhConfig.g != 0") as [[]|m1]; cbn [bind];
    [|discriminate].
  destruct (t_assert _ "!_dhConfig.p.empty()") as [[]|m2]; cbn [bind];
    [|discriminate].
  unfold generateRandomPower.
  destruct (Expects _ _) as [[]|m3]; cbn [bind]; [|discriminate].
  cbn [_type with_randomPower with_dhConfig].
  destruct (CallType_eqb (_type c) Outgoing).
  - unfold startOutgoing.
    destruct (ComputeModExpFirst _ _ _) as [ga|m4]; cbn [bind];
      [|discriminate].
    destruct ga as [|b ga]; cbn [_ga with_ga]; intros H; inversion H; subst;
      clear H.
    + rewrite setState_type, setState_id. split; reflexivity.
    + cbn [emit _type _id]. rewrite setState_type, setState_id.
      split; reflexivity.
  - unfold startIncoming. intros H. inversion H; subst; clear H.
    rewrite setState_type, setState_id. split; reflexivity.
Qed.

(** A started outgoing call has no id yet: the hypothesis on [_id] of the
    theorem below holds for every call that [start] left in
    [Requesting]. *)
Lemma start_outgoing_has_no_id k init env0 env user random c1 :
  start k env random (Call_ctor k init env0 user Outgoing) = Ok c1 ->
  _type c1 = Outgoing /\ _id c1 = 0.
Proof.
  intros H. destruct (start_keeps_type_and_id _ _ _ _ _ H) as [Ht Hi].
  destruct (Call_ctor_fresh k init env0 user Outgoing) as [Ht0 Hi0].
  split; congruence.
Qed.

(** C6, as stated, fails: after [hangup] on the started outgoing call the
    state is still [Requesting], but the call does not always wait for
    the response, and the response does not always give [Ended].  The
    timer armed by [hangup] takes the call to [Ended] before any
    response; the [fail] handler of the request, and a response whose
    record is not a waiting one, take it to [Failed]. *)
Lemma hangup_while_requesting_may_time_out_or_fail :
  let c1 := hangup sample_env sample_outgoing_requesting in
  _state sample_outgoing_requesting = Requesting
  /\ _state c1 = Requesting
  /\ state_after (step 256 sample_env ev_hangupByTimeout c1) = Some Ended
  /\ state_after (step 256 sample_env ev_request_fail c1) = Some Failed
  /\ state_after
       (step 256 sample_env
          (ev_requestCall_done
             (mtpc_phone_phoneCall
                (mtpc_phoneCallEmpty (phoneCallEmpty.make 7)) []))
          c1)
     = Some Failed.
Proof. vm_compute. repeat split. Qed.

(** C6, amended. [hangup] on a call in [Requesting] (no id assigned yet)
    leaves it in [Requesting]: it only arms the timer and sets
    [_finishAfterRequestingCall].  What happens next depends on the event
    that follows.  The [phone.requestCall] response with a waiting record
    notifies [Waiting], then [Ended], then [callFinished]; a response
    with any other record, and the failure of the request, end in
    [Failed]; the timer firing ends in [Ended].  None of them sends
    [phone.discardCall]. *)
Theorem hangup_while_requesting_ends_without_discard
    (env1 env2 : Env) (call : MTPPhoneCall) (users : list Z) (c : Call) :
  _state c = Requesting ->
  _id c = 0 ->
  let c1 := hangup env1 c in
  (_state c1 = Requesting
   /\ _finishAfterRequestingCall c1 = true
   /\ effects c1 = effects c ++ [hangupByTimeoutTimer_call kHangupTimeoutMs])
  /\ (exists c2,
        requestCall_done env2 (mtpc_phone_phoneCall call users) c1 = Ok c2
        /\ _state c2
           = match call with
             | mtpc_phoneCallWaiting _ => Ended
             | _ => Failed
             end
        /\ effects c2
           = effects c1
               ++ App_feedUsers users
                  :: match call with
                     | mtpc_phoneCallWaiting _ =>
                         [stateChanged_notify Waiting;
                          stateChanged_notify Ended; delegate_callFinished]
                     | _ => [stateChanged_notify Failed; delegate_callFailed]
                     end
        /\ filter is_discard_request (effects c2)
           = filter is_discard_request (effects c))
  /\ (_state (request_fail env2 c1) = Failed
      /\ effects (request_fail env2 c1)
         = effects c1 ++ [stateChanged_notify Failed; delegate_callFailed]
      /\ filter is_discard_request (effects (request_fail env2 c1))
         = filter is_discard_request (effects c))
  /\ (_state (hangupByTimeout env2 c1) = Ended
      /\ effects (hangupByTimeout env2 c1)
         = effects c1 ++ [stateChanged_notify Ended; delegate_callFinished]
      /\ filter is_discard_request (effects (hangupByTimeout env2 c1))
         = filter is_discard_request (effects c)).
Proof.
  intros Hst Hid.
  destruct c as [user ty st fin i ah pr dh rp ga gb gh ak kf
                   stt mu ctl tm eff].
  simpl in Hst, Hid. subst st i.
  cbv zeta. unfold hangup, finish. simpl.
  split; [repeat split|]. split; [|split].
  - unfold requestCall_done. simpl.
    destruct call as [d|d|d|d|d|d]; simpl;
      (eexists; split; [reflexivity|]; simpl; repeat split;
       rewrite <- !app_assoc; [reflexivity|];
       rewrite !filter_app; simpl; now rewrite app_nil_r).
  - unfold request_fail, setState. simpl. repeat split.
    + rewrite <- !app_assoc. reflexivity.
    + rewrite <- !app_assoc, !filter_app. simpl. now rewrite app_nil_r.
  - unfold hangupByTimeout, setState. simpl. repeat split.
    + rewrite <- !app_assoc. reflexivity.
    + rewrite <- !app_assoc, !filter_app. simpl. now rewrite app_nil_r.
Qed.

Lemma hangup_while_requesting_witness :
  let c1 := hangup sample_env sample_outgoing_requesting in
  (_state c1 = Requesting
   /\ _finishAfterRequestingCall c1 = true
   /\ effects c1
      = effects sample_outgoing_requesting
          ++ [hangupByTimeoutTimer_call kHangupTimeoutMs])
  /\ (exists c2,
        requestCall_done sample_env
          (mtpc_phone_phoneCall
             (mtpc_phoneCallWaiting (phoneCallWaiting.make 7 9)) [2002])
          c1
        = Ok c2
        /\ _state c2 = Ended
        /\ effects c2
           = effects c1
               ++ [App_feedUsers [2002]; stateChanged_notify Waiting;
                   stateChanged_notify Ended; delegate_callFinished]
        /\ filter is_discard_request (effects c2)
           = filter is_discard_request (effects sample_outgoing_requesting))
  /\ (_state (request_fail sample_env c1) = Failed
      /\ effects (request_fail sample_env c1)
         = effects c1 ++ [stateChanged_notify Failed; delegate_callFailed]
      /\ filter is_discard_request (effects (request_fail sample_env c1))
         = filter is_discard_request (effects sample_outgoing_requesting))
  /\ (_state (hangupByTimeout sample_env c1) = Ended
      /\ effects (hangupByTimeout sample_env c1)
         = effects c1 ++ [stateChanged_notify Ended; delegate_callFinished]
      /\ filter is_discard_request (effects (hangupByTimeout sample_env c1))
         = filter is_discard_request (effects sample_outgoing_requesting)).
Proof.
  apply (hangup_while_requesting_ends_without_discard sample_env sample_env
           (mtpc_phoneCallWaiting (phoneCallWaiting.make 7 9)) [2002]
           sample_outgoing_requesting).
  - vm_compute. reflexivity.
  - vm_compute. reflexivity.
Defined.

(** ** Updates addressed to another call *)

(** C7. An update of variant "call empty", "call waiting", "call",
    "call discarded" or "call accepted" whose id differs from the stored
    [_id] is not consumed: [handleUpdate] returns [false] and the call,
    effect log included, is exactly what it was. *)
Theorem handleUpdate_id_mismatch_ignored
    (env : Env) (call : MTPPhoneCall) (c : Call) (i : Z) :
  update_id call = Some i ->
  i <> _id c ->
  handleUpdate env call c = Ok (false, c).
Proof.
  intros Hid Hne.
  destruct call as [d|d|d|d|d|d]; simpl in Hid; inversion Hid; subst i;
    unfold handleUpdate; rewrite (Z_eqb_neq_negb _ _ Hne); reflexivity.
Qed.

Lemma handleUpdate_id_mismatch_ignored_witness :
  handleUpdate sample_env
    (mtpc_phoneCallDiscarded
       (phoneCallDiscarded.make true 7 (Some phoneCallDiscardReasonBusy)))
    sample_incoming
  = Ok (false, sample_incoming).
Proof.
  apply (handleUpdate_id_mismatch_ignored sample_env _ sample_incoming 7).
  - reflexivity.
  - vm_compute. discriminate.
Defined.

(** ** Idempotence of [setState] *)

(** C8. [setState] called with the state the call already holds returns
    the call as it was: no field changes (so no start-time refresh and no
    timer arming) and nothing is appended to the effect log (no
    [stateChanged] notification, no [callFinished] or [callFailed]). *)
Theorem setState_current_state_noop (env : Env) (c : Call) :
  setState env (_state c) c = c.
Proof. unfold setState. rewrite State_eqb_refl. reflexivity. Qed.

(** ** A "call requested" update with a commitment of the wrong size *)

(** C9. When a "call requested" update passes the call-type, id and admin
    checks and the participant check, but its [g_a_hash] does not have
    the size of a SHA-256 digest, the update is consumed, the call ends
    in [Failed], and [_id], [_accessHash] and [_protocol] hold the
    payload's values: they were stored before the size check and are not
    restored. *)
Theorem handleUpdate_requested_bad_hash_size_keeps_fields
    (env : Env) (data : phoneCallRequested.t) (c : Call) :
  _type c = Incoming ->
  _id c = 0 ->
  peerToUser env (id (_user c)) = phoneCallRequested.vadmin_id data ->
  CurrentUserId env = phoneCallRequested.vparticipant_id data ->
  List.length (phoneCallRequested.vg_a_hash data) <> openssl.kSha256Size ->
  exists c',
    handleUpdate env (mtpc_phoneCallRequested data) c = Ok (true, c')
    /\ _state c' = Failed
    /\ _id c' = phoneCallRequested.vid data
    /\ _accessHash c' = phoneCallRequested.vaccess_hash data
    /\ _protocol c' = phoneCallRequested.vprotocol data.
Proof.
  intros Hty Hid Hadm Hpart Hsize.
  unfold handleUpdate.
  rewrite Hty, Hid, Hadm, Hpart, !Z.eqb_refl. simpl.
  apply Nat.eqb_neq in Hsize. rewrite Hsize. simpl.
  eexists. split; [reflexivity|].
  rewrite setState_state, setState_id, setState_accessHash,
    setState_protocol.
  repeat split.
Qed.

Lemma handleUpdate_requested_bad_hash_size_witness :
  exists c',
    handleUpdate sample_env
      (mtpc_phoneCallRequested sample_requested_short_hash) sample_incoming
    = Ok (true, c')
    /\ _state c' = Failed
    /\ _id c' = 77
    /\ _accessHash c' = 88
    /\ _protocol c' = MTP_phoneCallProtocol true false 65 65.
Proof.
  apply (handleUpdate_requested_bad_hash_size_keeps_fields sample_env
           sample_requested_short_hash sample_incoming).
  - reflexivity.
  - reflexivity.
  - reflexivity.
  - reflexivity.
  - simpl. discriminate.
Defined.

(** ** The notification of [Requesting] *)

Lemma Call_ctor_Outgoing k init env user :
  init <> Requesting ->
  Call_ctor k init env user Outgoing
  = make_Call user Outgoing Requesting false 0 0
      (MTP_phoneCallProtocol false false 0 0) (make_DhConfig 0 [])
      (repeat x00 k) [] [] (repeat x00 openssl.kSha256Size)
      (repeat x00 kAuthKeySize) 0 0 false None None
      [stateChanged_notify Requesting].
Proof.
  intros Hne. unfold Call_ctor. cbv zeta. cbn [_type CallType_eqb].
  unfold setState. cbn [_state].
  apply State_eqb_neq in Hne. rewrite Hne. reflexivity.
Qed.

(** [start] on a freshly constructed outgoing call returns, under the
    conditions its assertions check. *)
Lemma start_outgoing_returns k init env0 env user random :
  g (getDhConfig env) <> 0 ->
  p (getDhConfig env) <> [] ->
  List.length random = k ->
  (List.length
     (setModExp_getBytes env (BigNum_word (g (getDhConfig env)))
        (BigNum_bytes
           (map (fun ab => byte_xor (fst ab) (snd ab))
              (combine (map (memset_rand env) (seq 0 k)) random)))
        (BigNum_bytes (p (getDhConfig env)))) <= kMaxModExpSize)%nat ->
  exists c1, start k env random (Call_ctor k init env0 user Outgoing) = Ok c1.
Proof.
  intros Hg Hp Hlen Hsize. unfold start. cbv zeta.
  assert (Ty : _type (Call_ctor k init env0 user Outgoing) = Outgoing).
  { unfold Call_ctor. cbv zeta. cbn [_type CallType_eqb].
    unfold setState. cbn [_state]. destruct (negb _); reflexivity. }
  cbn [_dhConfig with_dhConfig].
  unfold t_assert. apply Z.eqb_neq in Hg. rewrite Hg. cbn [negb bind].
  destruct (p (getDhConfig env)) as [|p0 pr] eqn:Ep; [congruence|].
  cbn [List.length Nat.eqb negb bind].
  unfold generateRandomPower, Expects. apply Nat.eqb_eq in Hlen as Hlen'.
  rewrite Hlen'. cbn [bind].
  cbn [_type with_randomPower with_dhConfig]. rewrite Ty. cbn [CallType_eqb].
  unfold startOutgoing, ComputeModExpFirst, ComputeModExp, t_assert.
  cbn [_dhConfig _randomPower with_randomPower with_dhConfig g p].
  rewrite ?Ep.
  apply Nat.leb_le in Hsize. rewrite Hsize. cbn [bind].
  destruct (_ga _); eauto.
Qed.

(** C10. Provided the header does not already initialise [_state] to
    [Requesting], constructing an outgoing call sets the state to
    [Requesting] and notifies it once.  [start] on that call then adds no
    second [Requesting] notification: [setState(Requesting)] inside
    [startOutgoing] finds the state already held, so the log after
    [start] holds that single notification followed by the request (or,
    when the first exponentiation is empty, by the [Failed] notification
    and [callFailed]). *)
Theorem outgoing_call_notifies_Requesting_once
    (kRandomPowerSize : nat) (initialState : State) (env0 : Env)
    (user : UserData) :
  initialState <> Requesting ->
  let c0 := Call_ctor kRandomPowerSize initialState env0 user Outgoing in
  _state c0 = Requesting
  /\ effects c0 = [stateChanged_notify Requesting]
  /\ forall (env : Env) (random : list byte),
       match start kRandomPowerSize env random c0 with
       | Ok c1 =>
           notifications_of Requesting (effects c1) = 1%nat
           /\ ((_state c1 = Requesting
                /\ exists r,
                     effects c1
                     = [stateChanged_notify Requesting; request_send r])
               \/ (_state c1 = Failed
                   /\ effects c1
                      = [stateChanged_notify Requesting;
                         stateChanged_notify Failed; delegate_callFailed]))
       | Fatal _ => True
       end.
Proof.
  intros Hne. cbv zeta. rewrite (Call_ctor_Outgoing _ _ _ _ Hne).
  split; [reflexivity|]. split; [reflexivity|].
  intros env random. unfold start. cbv zeta. cbn [_dhConfig with_dhConfig].
  destruct (t_assert _ "_dhConfig.g != 0") as [[]|m1]; cbn [bind]; [|exact I].
  destruct (t_assert _ "!_dhConfig.p.empty()") as [[]|m2]; cbn [bind];
    [|exact I].
  unfold generateRandomPower.
  destruct (Expects _ _) as [[]|m3]; cbn [bind]; [|exact I].
  cbn [_type with_randomPower with_dhConfig CallType_eqb].
  unfold startOutgoing.
  destruct (ComputeModExpFirst _ _ _) as [ga|m4]; cbn [bind]; [|exact I].
  destruct ga as [|b ga]; cbn.
  - split; [reflexivity|]. right. split; reflexivity.
  - split; [reflexivity|]. left. split; [reflexivity|]. eexists. reflexivity.
Qed.

Lemma outgoing_call_notifies_Requesting_once_witness :
  let c0 := Call_ctor 256 OtherState sample_env sample_user Outgoing in
  _state c0 = Requesting
  /\ effects c0 = [stateChanged_notify Requesting]
  /\ forall (env : Env) (random : list byte),
       match start 256 env random c0 with
       | Ok c1 =>
           notifications_of Requesting (effects c1) = 1%nat
           /\ ((_state c1 = Requesting
                /\ exists r,
                     effects c1
                     = [stateChanged_notify Requesting; request_send r])
               \/ (_state c1 = Failed
                   /\ effects c1
                      = [stateChanged_notify Requesting;
                         stateChanged_notify Failed; delegate_callFailed]))
       | Fatal _ => True
       end.
Proof.
  apply (outgoing_call_notifies_Requesting_once 256 OtherState sample_env
           sample_user).
  discriminate.
Defined.

(** * Further properties of the call object *)

(** ** Helper facts *)

Lemma Ok_inj {A} (a b : A) : Ok a = Ok b -> a = b.
Proof. intros H. now injection H. Qed.

Lemma setState_keyFingerprint env s c :
  _keyFingerprint (setState env s c) = _keyFingerprint c.
Proof. setState_frame. Qed.

Lemma setState_mute env s c : _mute (setState env s c) = _mute c.
Proof. setState_frame. Qed.

Lemma setState_ga env s c : _ga (setState env s c) = _ga c.
Proof. setState_frame. Qed.

Lemma setState_gb env s c : _gb (setState env s c) = _gb c.
Proof. setState_frame. Qed.

Lemma setState_effects_any env s c :
  exists added,
    effects (setState env s c) = effects c ++ added
    /\ filter is_debug_upload added = []
    /\ filter is_discard_request added = [].
Proof.
  destruct (State_eq_dec (_state c) s) as [E|E].
  - exists []. subst s. unfold setState. rewrite State_eqb_refl. simpl.
    rewrite app_nil_r. repeat split.
  - exists (entry_effects s). rewrite (setState_effects env s c E).
    split; [reflexivity|]. destruct s; split; reflexivity.
Qed.

Lemma fold_ConvertEndpoint
    (conns : list phoneConnection.t) (ep : list tgvoip.Endpoint) :
  fold_left ConvertEndpoint conns ep
  = ep ++ map endpoint_of (filter valid_connection conns).
Proof.
  revert ep. induction conns as [|mtc conns IH]; intros ep; simpl.
  - now rewrite app_nil_r.
  - rewrite IH. unfold ConvertEndpoint at 1, valid_connection.
    destruct (List.length (phoneConnection.vpeer_tag mtc) =? 16)%nat; simpl.
    + rewrite <- app_assoc. reflexivity.
    + reflexivity.
Qed.

Lemma checkCallCommonFields_spec env ah adm part c :
  checkCallCommonFields env ah adm part c
  = if (ah =? _accessHash c) && (adm =? expected_adminId env c)
       && (part =? expected_participantId env c)
    then (true, c) else (false, setState env Failed c).
Proof.
  unfold checkCallCommonFields, expected_adminId, expected_participantId.
  cbv zeta.
  destruct (ah =? _accessHash c); simpl; [|reflexivity].
  destruct (_type c); simpl.
  - destruct (adm =? _); simpl; [|reflexivity].
    destruct (part =? _); reflexivity.
  - destruct (adm =? _); simpl; [|reflexivity].
    destruct (part =? _); reflexivity.
Qed.

Lemma checkCallFields_spec env call c :
  checkCallFields env call c
  = if call_fields_match env call c then (true, c)
    else (false, setState env Failed c).
Proof.
  unfold checkCallFields, call_fields_match.
  rewrite checkCallCommonFields_spec.
  destruct ((phoneCall.vaccess_hash call =? _accessHash c)
            && (phoneCall.vadmin_id call =? expected_adminId env c)
            && (phoneCall.vparticipant_id call
                =? expected_participantId env c)); simpl.
  - destruct (phoneCall.vkey_fingerprint call =? _keyFingerprint c);
      reflexivity.
  - reflexivity.
Qed.

Lemma createAndStartController_spec env call c :
  createAndStartController env call c
  = if call_fields_match env call c then
      with_controller
        (Some (controller_for env call (setState env Established c)))
        (setState env Established c)
    else setState env Failed c.
Proof.
  unfold createAndStartController. rewrite checkCallFields_spec.
  destruct (call_fields_match env call c); simpl; [|reflexivity].
  unfold controller_for. cbn [filter].
  rewrite fold_ConvertEndpoint.
  assert (E : ConvertEndpoint [] (phoneCall.vconnection call)
              ++ map endpoint_of
                   (filter valid_connection
                      (phoneCall.valternative_connections call))
              = map endpoint_of
                  (if valid_connection (phoneCall.vconnection call)
                   then phoneCall.vconnection call
                        :: filter valid_connection
                             (phoneCall.valternative_connections call)
                   else filter valid_connection
                          (phoneCall.valternative_connections call))).
  { unfold ConvertEndpoint, valid_connection.
    destruct (List.length _ =? 16)%nat; reflexivity. }
  rewrite E.
  assert (T : CallType_eqb (_type (setState env Established c)) Outgoing
              = match _type (setState env Established c) with
                | Outgoing => true
                | Incoming => false
                end).
  { destruct (_type _); reflexivity. }
  rewrite T. reflexivity.
Qed.

Lemma deriveAuthKey_ok raw authKey :
  List.length authKey = kAuthKeySize ->
  (List.length raw <= kMaxModExpSize)%nat ->
  deriveAuthKey raw authKey = Ok (padded_key raw).
Proof.
  intros Hlen Hsize. unfold padded_key.
  destruct (Nat.eq_dec (List.length raw) kAuthKeySize) as [Heq|Hneq].
  - rewrite (deriveAuthKey_full raw authKey Hlen Heq).
    rewrite Heq, Nat.sub_diag. reflexivity.
  - apply deriveAuthKey_short; [exact Hlen|].
    unfold kAuthKeySize, kFingerprintDataSize, kMaxModExpSize in *. lia.
Qed.

Lemma finish_with_id env reason c :
  _id c <> 0 ->
  _state c <> Requesting -> _state c <> HangingUp -> _state c <> Ended ->
  finish env reason c
  = emit (request_send
            (MTPphone_DiscardCall (_id c) (_accessHash c)
               (discard_duration env c) reason (discard_connectionId env c)))
      (arm_hangupByTimeoutTimer (setState env HangingUp c)).
Proof.
  intros Hid H1 H2 H3. unfold finish.
  apply State_eqb_neq in H1, H2, H3. rewrite H1, H2, H3. simpl.
  apply Z.eqb_neq in Hid. rewrite Hid.
  unfold setState. rewrite H2. simpl.
  unfold discard_duration, discard_connectionId. reflexivity.
Qed.

Lemma finish_with_id_effects env reason c :
  _id c <> 0 ->
  _state c <> Requesting -> _state c <> HangingUp -> _state c <> Ended ->
  _state (finish env reason c) = HangingUp
  /\ _hangupByTimeoutTimer (finish env reason c) = Some kHangupTimeoutMs
  /\ effects (finish env reason c)
     = effects c
         ++ [stateChanged_notify HangingUp;
             hangupByTimeoutTimer_call kHangupTimeoutMs;
             request_send
               (MTPphone_DiscardCall (_id c) (_accessHash c)
                  (discard_duration env c) reason
                  (discard_connectionId env c))].
Proof.
  intros Hid H1 H2 H3.
  rewrite (finish_with_id env reason c Hid H1 H2 H3).
  assert (E : State_eqb (_state c) HangingUp = false)
    by now apply State_eqb_neq.
  unfold arm_hangupByTimeoutTimer, setState. rewrite E. simpl.
  repeat split. rewrite <- !app_assoc. reflexivity.
Qed.

(** ** Endpoints and the controller *)

(** X1. The endpoint list built from connection descriptors holds exactly
    the descriptors whose peer tag has 16 bytes, converted, in their
    order; the others are skipped without any other effect. *)
Theorem ConvertEndpoint_keeps_valid_descriptors
    (conns : list phoneConnection.t) :
  fold_left ConvertEndpoint conns []
  = map endpoint_of (filter valid_connection conns)
  /\ Forall (fun e => List.length (tgvoip.ep_peer_tag e) = 16%nat)
       (fold_left ConvertEndpoint conns [])
  /\ (List.length (fold_left ConvertEndpoint conns []) <= List.length conns)%nat.
Proof.
  rewrite fold_ConvertEndpoint. cbn [app]. split; [reflexivity|]. split.
  - apply Forall_forall. intros e He.
    apply in_map_iff in He. destruct He as (mtc & <- & Hin).
    apply filter_In in Hin. destruct Hin as [_ Hv].
    unfold valid_connection in Hv. apply Nat.eqb_eq in Hv. exact Hv.
  - rewrite length_map. apply filter_length_le.
Qed.

(** X2. When the access hash, the admin and participant ids and the key
    fingerprint of the call record all match, [createAndStartController]
    takes the call to [Established] and creates the controller with the
    call's key, its direction, the pending mute flag and the valid
    endpoints, started and connected. *)
Theorem createAndStartController_starts_transport
    (env : Env) (call : phoneCall.t) (c : Call) :
  call_fields_match env call c = true ->
  let c' := createAndStartController env call c in
  _state c' = Established
  /\ _controller c'
     = Some (tgvoip.make_controller (_mute c)
               (map endpoint_of
                  (filter valid_connection
                     (phoneCall.vconnection call
                      :: phoneCall.valternative_connections call)))
               true
               (tgvoip.make_config tgvoip.DATA_SAVING_NEVER true true true
                  30 10)
               (_authKey c)
               (match _type c with Outgoing => true | Incoming => false end)
               true true)
  /\ _authKey c' = _authKey c.
Proof.
  intros M. cbv zeta. rewrite createAndStartController_spec, M.
  cbn [_state _controller _authKey with_controller].
  rewrite setState_state, setState_authKey. unfold controller_for.
  rewrite setState_mute, setState_authKey, setState_type. repeat split.
Qed.

Lemma createAndStartController_starts_transport_witness :
  let c' :=
    createAndStartController sample_env unkeyed_record
      exchanging_call in
  _state c' = Established
  /\ _controller c'
     = Some (tgvoip.make_controller (_mute exchanging_call)
               (map endpoint_of
                  (filter valid_connection
                     (phoneCall.vconnection
                        unkeyed_record
                      :: phoneCall.valternative_connections
                           unkeyed_record)))
               true
               (tgvoip.make_config tgvoip.DATA_SAVING_NEVER true true true
                  30 10)
               (_authKey exchanging_call)
               (match _type exchanging_call with
                | Outgoing => true
                | Incoming => false
                end)
               true true)
  /\ _authKey c' = _authKey exchanging_call.
Proof.
  apply (createAndStartController_starts_transport sample_env
           unkeyed_record exchanging_call).
  vm_compute. reflexivity.
Defined.

(** X3. When any of the four fields of the call record does not match,
    [createAndStartController] does nothing but [setState(Failed)]: the
    call is [Failed] and its controller is what it was. *)
Theorem createAndStartController_rejects_mismatch
    (env : Env) (call : phoneCall.t) (c : Call) :
  call_fields_match env call c = false ->
  createAndStartController env call c = setState env Failed c
  /\ _state (createAndStartController env call c) = Failed
  /\ _controller (createAndStartController env call c) = _controller c.
Proof.
  intros M. rewrite createAndStartController_spec, M.
  rewrite setState_state, setState_controller. repeat split.
Qed.

Lemma createAndStartController_rejects_mismatch_witness :
  createAndStartController sample_env foreign_record
    exchanging_call
  = setState sample_env Failed exchanging_call
  /\ _state (createAndStartController sample_env foreign_record
               exchanging_call) = Failed
  /\ _controller (createAndStartController sample_env
                    foreign_record exchanging_call)
     = _controller exchanging_call.
Proof.
  apply (createAndStartController_rejects_mismatch sample_env
           foreign_record exchanging_call).
  vm_compute. reflexivity.
Defined.

(** ** Key agreement *)

(** X4. On an incoming call, a confirmed call whose revealed value hashes
    to the stored commitment, whose exponentiation gives a non-empty
    secret and whose record carries the call's access hash, the expected
    ids and the fingerprint of the padded secret establishes the call:
    the key is the padded secret, and the controller is created with that
    key on the responder side. *)
Theorem startConfirmedCall_establishes
    (env : Env) (data : phoneCall.t) (c : Call) (raw : list byte) :
  _type c = Incoming ->
  _gaHash c = openssl.Sha256 (phoneCall.vg_a_or_b data) ->
  List.length (_authKey c) = kAuthKeySize ->
  ComputeModExpFinal env (_dhConfig c) (phoneCall.vg_a_or_b data)
    (_randomPower c) = Ok raw ->
  raw <> [] ->
  phoneCall.vaccess_hash data = _accessHash c ->
  phoneCall.vadmin_id data = peerToUser env (id (_user c)) ->
  phoneCall.vparticipant_id data = CurrentUserId env ->
  phoneCall.vkey_fingerprint data = ComputeFingerprint (padded_key raw) ->
  exists c' ctl,
    startConfirmedCall env data c = Ok c'
    /\ _state c' = Established
    /\ _authKey c' = padded_key raw
    /\ _keyFingerprint c' = ComputeFingerprint (padded_key raw)
    /\ _controller c' = Some ctl
    /\ tgvoip.encryptionKey ctl = padded_key raw
    /\ tgvoip.isOutgoing ctl = false
    /\ tgvoip.micMute ctl = _mute c
    /\ tgvoip.started ctl = true /\ tgvoip.connected ctl = true.
Proof.
  intros Hty Hhash Hlen Hexp Hne Hah Hadm Hpart Hfp.
  pose proof (ComputeModExp_size _ _ _ _ _ Hexp) as Hsize.
  unfold startConfirmedCall. rewrite Hty. cbn [CallType_eqb Expects bind].
  apply bytes_eqb_eq in Hhash. rewrite Hhash. cbn [negb].
  rewrite Hexp. cbn [bind].
  destruct raw as [|b raw]; [congruence|].
  rewrite (deriveAuthKey_ok _ _ Hlen Hsize). cbn [bind].
  rewrite createAndStartController_spec.
  set (key := padded_key (b :: raw)) in *.
  assert (M : call_fields_match env data
                (with_keyFingerprint (ComputeFingerprint key)
                   (with_authKey key c)) = true).
  { unfold call_fields_match, expected_adminId, expected_participantId.
    cbn [_accessHash _type _user _keyFingerprint with_keyFingerprint
         with_authKey _authKey].
    rewrite Hty, Hah, Hadm, Hpart, Hfp, !Z.eqb_refl. reflexivity. }
  cbn [_authKey with_authKey with_keyFingerprint] in *.
  rewrite M.
  eexists. eexists. split; [reflexivity|].
  cbn [_state _authKey _keyFingerprint _controller with_controller].
  rewrite setState_state, setState_authKey, setState_keyFingerprint.
  unfold controller_for. cbn [tgvoip.encryptionKey tgvoip.isOutgoing
    tgvoip.micMute tgvoip.started tgvoip.connected].
  rewrite setState_authKey, setState_type, setState_mute.
  cbn [_authKey _type _mute with_keyFingerprint with_authKey].
  rewrite Hty. repeat split.
Qed.

Lemma startConfirmedCall_establishes_witness :
  exists c' ctl,
    startConfirmedCall sample_env confirmed_record
      exchanging_call = Ok c'
    /\ _state c' = Established
    /\ _authKey c' = padded_key shared_secret
    /\ _keyFingerprint c'
       = ComputeFingerprint (padded_key shared_secret)
    /\ _controller c' = Some ctl
    /\ tgvoip.encryptionKey ctl = padded_key shared_secret
    /\ tgvoip.isOutgoing ctl = false
    /\ tgvoip.micMute ctl = _mute exchanging_call
    /\ tgvoip.started ctl = true /\ tgvoip.connected ctl = true.
Proof.
  apply (startConfirmedCall_establishes sample_env confirmed_record
           exchanging_call shared_secret).
  - vm_compute. reflexivity.
  - vm_compute. reflexivity.
  - vm_compute. reflexivity.
  - vm_compute. reflexivity.
  - vm_compute. discriminate.
  - vm_compute. reflexivity.
  - vm_compute. reflexivity.
  - vm_compute. reflexivity.
  - vm_compute. reflexivity.
Defined.

(** X5. On an outgoing call, [confirmAcceptedCall] with a non-empty
    secret stores the padded secret as key and its fingerprint, moves to
    [ExchangingKeys], leaves the controller alone and sends
    [phone.confirmCall] last, carrying the call's id and access hash, its
    own [_ga] and that fingerprint. *)
Theorem confirmAcceptedCall_sends_confirmation
    (env : Env) (data : phoneCallAccepted.t) (c : Call) (raw : list byte) :
  _type c = Outgoing ->
  List.length (_authKey c) = kAuthKeySize ->
  ComputeModExpFinal env (_dhConfig c) (phoneCallAccepted.vg_b data)
    (_randomPower c) = Ok raw ->
  raw <> [] ->
  exists c' before,
    confirmAcceptedCall env data c = Ok c'
    /\ _state c' = ExchangingKeys
    /\ _authKey c' = padded_key raw
    /\ _keyFingerprint c' = ComputeFingerprint (padded_key raw)
    /\ _controller c' = _controller c
    /\ effects c'
       = before
           ++ [request_send
                 (MTPphone_ConfirmCall (_id c) (_accessHash c) (_ga c)
                    (ComputeFingerprint (padded_key raw)) protocol_offered)].
Proof.
  intros Hty Hlen Hexp Hne.
  pose proof (ComputeModExp_size _ _ _ _ _ Hexp) as Hsize.
  unfold confirmAcceptedCall. rewrite Hty. cbn [CallType_eqb Expects bind].
  rewrite Hexp. cbn [bind].
  destruct raw as [|b raw]; [congruence|].
  rewrite (deriveAuthKey_ok _ _ Hlen Hsize). cbn [bind].
  eexists. eexists. split; [reflexivity|].
  cbn [emit _state _authKey _keyFingerprint _controller effects _id
       _accessHash _ga].
  rewrite setState_state, setState_authKey, setState_keyFingerprint,
    setState_controller, setState_id, setState_accessHash, setState_ga.
  cbn [_authKey _keyFingerprint _controller _id _accessHash _ga
       with_keyFingerprint with_authKey].
  repeat split.
Qed.

Lemma confirmAcceptedCall_sends_confirmation_witness :
  exists c' before,
    confirmAcceptedCall sample_env sample_accepted waiting_call
    = Ok c'
    /\ _state c' = ExchangingKeys
    /\ _authKey c' = padded_key shared_secret
    /\ _keyFingerprint c'
       = ComputeFingerprint (padded_key shared_secret)
    /\ _controller c' = _controller waiting_call
    /\ effects c'
       = before
           ++ [request_send
                 (MTPphone_ConfirmCall (_id waiting_call)
                    (_accessHash waiting_call)
                    (_ga waiting_call)
                    (ComputeFingerprint (padded_key shared_secret))
                    protocol_offered)].
Proof.
  apply (confirmAcceptedCall_sends_confirmation sample_env sample_accepted
           waiting_call shared_secret).
  - vm_compute. reflexivity.
  - vm_compute. reflexivity.
  - vm_compute. reflexivity.
  - vm_compute. discriminate.
Defined.

(** X6. An empty result of the final exponentiation fails the call on
    both sides: [confirmAcceptedCall] on an outgoing call, and
    [startConfirmedCall] on an incoming call whose commitment matches,
    do nothing but [setState(Failed)]; no key is stored and nothing is
    sent. *)
Theorem empty_shared_secret_fails_the_call
    (env : Env) (c : Call) (first : list byte) :
  ComputeModExpFinal env (_dhConfig c) first (_randomPower c) = Ok [] ->
  (forall data,
     phoneCallAccepted.vg_b data = first ->
     _type c = Outgoing ->
     confirmAcceptedCall env data c = Ok (setState env Failed c))
  /\ (forall data,
        phoneCall.vg_a_or_b data = first ->
        _type c = Incoming ->
        _gaHash c = openssl.Sha256 first ->
        startConfirmedCall env data c = Ok (setState env Failed c)).
Proof.
  intros Hexp. split.
  - intros data Hg Hty. unfold confirmAcceptedCall.
    rewrite Hty, Hg. cbn [CallType_eqb Expects bind]. rewrite Hexp.
    reflexivity.
  - intros data Hg Hty Hhash. unfold startConfirmedCall.
    rewrite Hty, Hg. cbn [CallType_eqb Expects bind].
    apply bytes_eqb_eq in Hhash. rewrite Hhash. cbn [negb].
    rewrite Hexp. reflexivity.
Qed.

Lemma empty_shared_secret_fails_the_call_witness :
  confirmAcceptedCall sample_env sample_accepted_empty_gb
    waiting_call
  = Ok (setState sample_env Failed waiting_call).
Proof.
  destruct (empty_shared_secret_fails_the_call sample_env
              waiting_call []) as [Hout _].
  - vm_compute. reflexivity.
  - apply Hout; vm_compute; reflexivity.
Defined.

(** X7. A "call accepted" update with the call's id fails the call,
    without deriving a key or sending anything, when the call is incoming
    or when the access hash, the admin id or the participant id of the
    record is not the expected one. *)
Theorem handleUpdate_accepted_rejected
    (env : Env) (data : phoneCallAccepted.t) (c : Call) :
  phoneCallAccepted.vid data = _id c ->
  _type c = Incoming
  \/ phoneCallAccepted.vaccess_hash data <> _accessHash c
  \/ phoneCallAccepted.vadmin_id data <> expected_adminId env c
  \/ phoneCallAccepted.vparticipant_id data <> expected_participantId env c ->
  handleUpdate env (mtpc_phoneCallAccepted data) c
  = Ok (true, setState env Failed c).
Proof.
  intros Hid H. unfold handleUpdate. rewrite Hid, Z.eqb_refl. cbn [negb].
  destruct (_type c) eqn:Hty.
  - reflexivity.
  - cbn [CallType_eqb negb]. unfold checkCallFields_accepted.
    rewrite checkCallCommonFields_spec.
    destruct H as [H|[H|[H|H]]]; [discriminate| | |];
      apply Z.eqb_neq in H; rewrite H; rewrite ?andb_false_r; reflexivity.
Qed.

Lemma handleUpdate_accepted_rejected_witness :
  handleUpdate sample_env
    (mtpc_phoneCallAccepted sample_accepted_foreign)
    waiting_call
  = Ok (true, setState sample_env Failed waiting_call).
Proof.
  apply (handleUpdate_accepted_rejected sample_env
           sample_accepted_foreign
           waiting_call).
  - vm_compute. reflexivity.
  - right. left. vm_compute. discriminate.
Defined.

(** X8. The three members that belong to one direction stop the process
    when entered on a call of the other direction: [answer] and
    [startConfirmedCall] on an outgoing call, [confirmAcceptedCall] on an
    incoming one. *)
Theorem direction_preconditions (env : Env) (c : Call) :
  match _type c with
  | Outgoing =>
      answer env c = Fatal "_type == Type::Incoming"
      /\ forall data,
           startConfirmedCall env data c = Fatal "_type == Type::Incoming"
  | Incoming =>
      forall data,
        confirmAcceptedCall env data c = Fatal "_type == Type::Outgoing"
  end.
Proof.
  unfold answer, startConfirmedCall, confirmAcceptedCall.
  destruct (_type c); [intros data; reflexivity|].
  split; [reflexivity|intros data; reflexivity].
Qed.

(** ** The "call requested" update *)

(** X9. A "call requested" update stops the process when the call is
    outgoing, already has an id, or was created for another peer than the
    admin of the update. *)
Theorem handleUpdate_requested_precondition_is_fatal
    (env : Env) (data : phoneCallRequested.t) (c : Call) :
  _type c = Outgoing \/ _id c <> 0
  \/ peerToUser env (id (_user c)) <> phoneCallRequested.vadmin_id data ->
  handleUpdate env (mtpc_phoneCallRequested data) c
  = Fatal "phoneCallRequested call inside an existing call handleUpdate()".
Proof.
  intros H. unfold handleUpdate, Unexpected.
  destruct H as [H|[H|H]].
  - rewrite H. reflexivity.
  - apply Z.eqb_neq in H. rewrite H.
    destruct (negb (CallType_eqb _ _)); reflexivity.
  - apply Z.eqb_neq in H. rewrite H.
    destruct (negb (CallType_eqb _ _)); destruct (negb (_id c =? 0));
      reflexivity.
Qed.

Lemma handleUpdate_requested_precondition_witness :
  handleUpdate sample_env (mtpc_phoneCallRequested sample_requested_data)
    ringing_call
  = Fatal "phoneCallRequested call inside an existing call handleUpdate()".
Proof.
  apply (handleUpdate_requested_precondition_is_fatal sample_env
           sample_requested_data ringing_call).
  right. left. vm_compute. discriminate.
Defined.

(** X10. A "call requested" update naming another participant than the
    local user fails the call before anything is stored: the id stays
    unset and the access hash and the commitment are what they were. *)
Theorem handleUpdate_requested_wrong_participant
    (env : Env) (data : phoneCallRequested.t) (c : Call) :
  _type c = Incoming ->
  _id c = 0 ->
  peerToUser env (id (_user c)) = phoneCallRequested.vadmin_id data ->
  CurrentUserId env <> phoneCallRequested.vparticipant_id data ->
  handleUpdate env (mtpc_phoneCallRequested data) c
  = Ok (true, setState env Failed c)
  /\ _id (setState env Failed c) = 0
  /\ _accessHash (setState env Failed c) = _accessHash c
  /\ _gaHash (setState env Failed c) = _gaHash c.
Proof.
  intros Hty Hid Hadm Hpart. unfold handleUpdate.
  rewrite Hty, Hid, Hadm, !Z.eqb_refl. simpl.
  apply Z.eqb_neq in Hpart. rewrite Hpart. simpl.
  split; [reflexivity|].
  rewrite setState_id, setState_accessHash, Hid.
  repeat split. unfold setState.
  destruct (negb _); [|reflexivity]. simpl. reflexivity.
Qed.

Lemma handleUpdate_requested_wrong_participant_witness :
  handleUpdate sample_env
    (mtpc_phoneCallRequested sample_requested_wrong_participant)
    sample_incoming
  = Ok (true, setState sample_env Failed sample_incoming)
  /\ _id (setState sample_env Failed sample_incoming) = 0
  /\ _accessHash (setState sample_env Failed sample_incoming)
     = _accessHash sample_incoming
  /\ _gaHash (setState sample_env Failed sample_incoming)
     = _gaHash sample_incoming.
Proof.
  apply (handleUpdate_requested_wrong_participant sample_env
           sample_requested_wrong_participant sample_incoming).
  - reflexivity.
  - reflexivity.
  - reflexivity.
  - vm_compute. discriminate.
Defined.

(** X11. A well-formed "call requested" update on a fresh incoming call
    stores the id, the access hash, the protocol and the 32-byte
    commitment of the payload, and does nothing else: the state is kept
    and no collaborator is called. *)
Theorem handleUpdate_requested_stores_commitment
    (env : Env) (data : phoneCallRequested.t) (c : Call) :
  _type c = Incoming ->
  _id c = 0 ->
  peerToUser env (id (_user c)) = phoneCallRequested.vadmin_id data ->
  CurrentUserId env = phoneCallRequested.vparticipant_id data ->
  List.length (phoneCallRequested.vg_a_hash data) = openssl.kSha256Size ->
  List.length (_gaHash c) = openssl.kSha256Size ->
  exists c',
    handleUpdate env (mtpc_phoneCallRequested data) c = Ok (true, c')
    /\ _id c' = phoneCallRequested.vid data
    /\ _accessHash c' = phoneCallRequested.vaccess_hash data
    /\ _protocol c' = phoneCallRequested.vprotocol data
    /\ _gaHash c' = phoneCallRequested.vg_a_hash data
    /\ _state c' = _state c
    /\ effects c' = effects c.
Proof.
  intros Hty Hid Hadm Hpart Hsize Hbuf. unfold handleUpdate.
  rewrite Hty, Hid, Hadm, Hpart, !Z.eqb_refl. simpl.
  apply Nat.eqb_eq in Hsize as Hsize'. rewrite Hsize'. simpl.
  eexists. split; [reflexivity|]. simpl.
  repeat split.
  unfold copy_bytes. cbn [firstn app Nat.add].
  rewrite skipn_all2 by lia. apply app_nil_r.
Qed.

Lemma handleUpdate_requested_stores_commitment_witness :
  exists c',
    handleUpdate sample_env (mtpc_phoneCallRequested sample_requested_data)
      sample_incoming = Ok (true, c')
    /\ _id c' = phoneCallRequested.vid sample_requested_data
    /\ _accessHash c' = phoneCallRequested.vaccess_hash sample_requested_data
    /\ _protocol c' = phoneCallRequested.vprotocol sample_requested_data
    /\ _gaHash c' = phoneCallRequested.vg_a_hash sample_requested_data
    /\ _state c' = _state sample_incoming
    /\ effects c' = effects sample_incoming.
Proof.
  apply (handleUpdate_requested_stores_commitment sample_env
           sample_requested_data sample_incoming).
  - reflexivity.
  - reflexivity.
  - reflexivity.
  - reflexivity.
  - vm_compute. reflexivity.
  - vm_compute. reflexivity.
Defined.

(** ** The "call discarded" update *)

(** X12. A "call discarded" update with the call's id is consumed and
    leads to [Busy] when its reason is busy and to [Ended] otherwise.  The
    debug log is uploaded exactly when the update asks for it, a
    controller exists and its log is not empty. *)
Theorem handleUpdate_discarded
    (env : Env) (data : phoneCallDiscarded.t) (c : Call) :
  phoneCallDiscarded.vid data = _id c ->
  exists c',
    handleUpdate env (mtpc_phoneCallDiscarded data) c = Ok (true, c')
    /\ _state c' = discard_target data
    /\ filter is_debug_upload (effects c')
       = filter is_debug_upload (effects c)
           ++ (if phoneCallDiscarded.is_need_debug data
                  && (match _controller c with
                      | Some _ => true
                      | None => false
                      end)
                  && negb (String.eqb (GetDebugLog env) "")
               then [MTP_send (MTPphone_SaveCallDebug (_id c) (_accessHash c)
                                 (GetDebugLog env))]
               else []).
Proof.
  intros Hid. unfold handleUpdate. rewrite Hid, Z.eqb_refl. simpl.
  set (c1 := if phoneCallDiscarded.is_need_debug data then _ else c).
  assert (E1 : filter is_debug_upload (effects c1)
               = filter is_debug_upload (effects c)
                   ++ (if phoneCallDiscarded.is_need_debug data
                          && (match _controller c with
                              | Some _ => true | None => false end)
                          && negb (String.eqb (GetDebugLog env) "")
                       then [MTP_send (MTPphone_SaveCallDebug (_id c)
                                         (_accessHash c) (GetDebugLog env))]
                       else [])).
  { subst c1. destruct (phoneCallDiscarded.is_need_debug data); simpl;
      [|now rewrite app_nil_r].
    destruct (_controller c); simpl.
    - destruct (String.eqb (GetDebugLog env) ""); simpl.
      + now rewrite app_nil_r.
      + rewrite filter_app. reflexivity.
    - now rewrite app_nil_r. }
  exists (setState env (discard_target data) c1).
  split.
  - unfold discard_target.
    destruct (phoneCallDiscarded.vreason data) as [[]|]; reflexivity.
  - split; [apply setState_state|].
    destruct (setState_effects_any env (discard_target data) c1)
      as (added & Ha & Hd & _).
    rewrite Ha, filter_app, Hd, app_nil_r. exact E1.
Qed.

Lemma handleUpdate_discarded_witness :
  exists c',
    handleUpdate sample_env (mtpc_phoneCallDiscarded sample_discarded_busy)
      exchanging_call = Ok (true, c')
    /\ _state c' = discard_target sample_discarded_busy
    /\ filter is_debug_upload (effects c')
       = filter is_debug_upload (effects exchanging_call)
           ++ (if phoneCallDiscarded.is_need_debug sample_discarded_busy
                  && (match _controller exchanging_call with
                      | Some _ => true
                      | None => false
                      end)
                  && negb (String.eqb (GetDebugLog sample_env) "")
               then [MTP_send
                       (MTPphone_SaveCallDebug
                          (_id exchanging_call)
                          (_accessHash exchanging_call)
                          (GetDebugLog sample_env))]
               else []).
Proof.
  apply (handleUpdate_discarded sample_env sample_discarded_busy
           exchanging_call).
  vm_compute. reflexivity.
Defined.

(** X13. A busy discard arms the hang-up timer, and the timer firing then
    takes the call from [Busy] to [Ended], disarmed, notifying [Ended]
    and [callFinished]. *)
Theorem busy_call_ends_by_timeout
    (env env' : Env) (data : phoneCallDiscarded.t) (c : Call) :
  phoneCallDiscarded.vid data = _id c ->
  phoneCallDiscarded.vreason data = Some phoneCallDiscardReasonBusy ->
  _state c <> Busy ->
  exists c1,
    handleUpdate env (mtpc_phoneCallDiscarded data) c = Ok (true, c1)
    /\ _state c1 = Busy
    /\ _hangupByTimeoutTimer c1 = Some kHangupTimeoutMs
    /\ _state (hangupByTimeout env' c1) = Ended
    /\ _hangupByTimeoutTimer (hangupByTimeout env' c1) = None
    /\ effects (hangupByTimeout env' c1)
       = effects c1 ++ [stateChanged_notify Ended; delegate_callFinished].
Proof.
  intros Hid Hreason Hst. unfold handleUpdate.
  rewrite Hid, Z.eqb_refl, Hreason. simpl.
  set (c0 := if phoneCallDiscarded.is_need_debug data then _ else c).
  assert (S0 : _state c0 = _state c).
  { subst c0. destruct (phoneCallDiscarded.is_need_debug data);
      [|reflexivity].
    destruct (_controller c); [|reflexivity].
    destruct (negb _); reflexivity. }
  eexists. split; [reflexivity|].
  assert (Hne : State_eqb (_state c0) Busy = false)
    by (apply State_eqb_neq; congruence).
  unfold setState at 1 2 3 4 5 6. rewrite Hne. simpl.
  unfold hangupByTimeout. simpl. unfold setState. simpl.
  repeat split. rewrite <- !app_assoc. reflexivity.
Qed.

Lemma busy_call_ends_by_timeout_witness :
  exists c1,
    handleUpdate sample_env (mtpc_phoneCallDiscarded sample_discarded_busy)
      exchanging_call = Ok (true, c1)
    /\ _state c1 = Busy
    /\ _hangupByTimeoutTimer c1 = Some kHangupTimeoutMs
    /\ _state (hangupByTimeout sample_env c1) = Ended
    /\ _hangupByTimeoutTimer (hangupByTimeout sample_env c1) = None
    /\ effects (hangupByTimeout sample_env c1)
       = effects c1 ++ [stateChanged_notify Ended; delegate_callFinished].
Proof.
  apply (busy_call_ends_by_timeout sample_env sample_env
           sample_discarded_busy exchanging_call).
  - vm_compute. reflexivity.
  - reflexivity.
  - vm_compute. discriminate.
Defined.

(** ** Finishing a call *)

(** X14. [finish] on a call that has an id and is not in [Requesting],
    [HangingUp] or [Ended] moves to [HangingUp], arms the timer and sends
    one [phone.discardCall] with the call's id and access hash and the
    given reason.  The duration it reports is 0 when the call never got a
    start time, and always fits a 32-bit signed integer. *)
Theorem finish_discards_call_with_id
    (env : Env) (reason : MTPPhoneCallDiscardReason) (c : Call) :
  _id c <> 0 ->
  _state c <> Requesting -> _state c <> HangingUp -> _state c <> Ended ->
  let c' := finish env reason c in
  _state c' = HangingUp
  /\ _hangupByTimeoutTimer c' = Some kHangupTimeoutMs
  /\ effects c'
     = effects c
         ++ [stateChanged_notify HangingUp;
             hangupByTimeoutTimer_call kHangupTimeoutMs;
             request_send
               (MTPphone_DiscardCall (_id c) (_accessHash c)
                  (discard_duration env c) reason
                  (discard_connectionId env c))]
  /\ (_startTime c = 0 -> discard_duration env c = 0)
  /\ (- 2 ^ 31 <= discard_duration env c < 2 ^ 31).
Proof.
  intros Hid H1 H2 H3. cbv zeta.
  destruct (finish_with_id_effects env reason c Hid H1 H2 H3)
    as (E1 & E2 & E3).
  split; [exact E1|]. split; [exact E2|]. split; [exact E3|]. split.
  - intros Hs. unfold discard_duration. rewrite Hs. reflexivity.
  - unfold discard_duration. destruct (_startTime c =? 0); [lia|].
    unfold to_int32.
    pose proof (Z.mod_pos_bound (Z.quot (getms env - _startTime c) 1000
                                 + 2 ^ 31) (2 ^ 32) ltac:(lia)). lia.
Qed.

Lemma finish_discards_call_with_id_witness :
  let c' := finish sample_env phoneCallDiscardReasonDisconnect
              exchanging_call in
  _state c' = HangingUp
  /\ _hangupByTimeoutTimer c' = Some kHangupTimeoutMs
  /\ effects c'
     = effects exchanging_call
         ++ [stateChanged_notify HangingUp;
             hangupByTimeoutTimer_call kHangupTimeoutMs;
             request_send
               (MTPphone_DiscardCall (_id exchanging_call)
                  (_accessHash exchanging_call)
                  (discard_duration sample_env exchanging_call)
                  phoneCallDiscardReasonDisconnect
                  (discard_connectionId sample_env
                     exchanging_call))]
  /\ (_startTime exchanging_call = 0 ->
      discard_duration sample_env exchanging_call = 0)
  /\ (- 2 ^ 31 <= discard_duration sample_env exchanging_call
      < 2 ^ 31).
Proof.
  apply (finish_discards_call_with_id sample_env
           phoneCallDiscardReasonDisconnect exchanging_call).
  - vm_compute. discriminate.
  - vm_compute. discriminate.
  - vm_compute. discriminate.
  - vm_compute. discriminate.
Defined.

(** X15. The discard request of [hangup] says "missed" exactly when the
    call was [Ringing], or [Waiting] and outgoing, and "hangup" otherwise;
    the one of [decline] says "busy". *)
Theorem hangup_and_decline_reasons (env : Env) (c : Call) :
  _id c <> 0 ->
  _state c <> Requesting -> _state c <> HangingUp -> _state c <> Ended ->
  effects (hangup env c)
  = effects c
      ++ [stateChanged_notify HangingUp;
          hangupByTimeoutTimer_call kHangupTimeoutMs;
          request_send
            (MTPphone_DiscardCall (_id c) (_accessHash c)
               (discard_duration env c) (hangup_reason c)
               (discard_connectionId env c))]
  /\ effects (decline env c)
     = effects c
         ++ [stateChanged_notify HangingUp;
             hangupByTimeoutTimer_call kHangupTimeoutMs;
             request_send
               (MTPphone_DiscardCall (_id c) (_accessHash c)
                  (discard_duration env c) phoneCallDiscardReasonBusy
                  (discard_connectionId env c))]
  /\ (hangup_reason c = phoneCallDiscardReasonMissed
      <-> _state c = Ringing \/ (_state c = Waiting /\ _type c = Outgoing))
  /\ (hangup_reason c <> phoneCallDiscardReasonMissed ->
      hangup_reason c = phoneCallDiscardReasonHangup).
Proof.
  intros Hid H1 H2 H3.
  assert (Hh : hangup env c = finish env (hangup_reason c) c).
  { unfold hangup, hangup_reason.
    destruct (_state c), (_type c); reflexivity. }
  rewrite Hh. unfold decline.
  destruct (finish_with_id_effects env (hangup_reason c) c Hid H1 H2 H3)
    as (_ & _ & E).
  destruct (finish_with_id_effects env phoneCallDiscardReasonBusy c
              Hid H1 H2 H3) as (_ & _ & E').
  split; [exact E|]. split; [exact E'|]. split.
  - unfold hangup_reason. destruct (_state c), (_type c); split; intros H;
      try reflexivity; try discriminate; auto;
      destruct H as [H|[Ha Hb]]; discriminate.
  - unfold hangup_reason. destruct (_state c), (_type c); intros H;
      try reflexivity; congruence.
Qed.

Lemma hangup_and_decline_reasons_witness :
  effects (hangup sample_env ringing_call)
  = effects ringing_call
      ++ [stateChanged_notify HangingUp;
          hangupByTimeoutTimer_call kHangupTimeoutMs;
          request_send
            (MTPphone_DiscardCall (_id ringing_call)
               (_accessHash ringing_call)
               (discard_duration sample_env ringing_call)
               (hangup_reason ringing_call)
               (discard_connectionId sample_env ringing_call))]
  /\ effects (decline sample_env ringing_call)
     = effects ringing_call
         ++ [stateChanged_notify HangingUp;
             hangupByTimeoutTimer_call kHangupTimeoutMs;
             request_send
               (MTPphone_DiscardCall (_id ringing_call)
                  (_accessHash ringing_call)
                  (discard_duration sample_env ringing_call)
                  phoneCallDiscardReasonBusy
                  (discard_connectionId sample_env ringing_call))]
  /\ (hangup_reason ringing_call = phoneCallDiscardReasonMissed
      <-> _state ringing_call = Ringing
          \/ (_state ringing_call = Waiting
              /\ _type ringing_call = Outgoing))
  /\ (hangup_reason ringing_call <> phoneCallDiscardReasonMissed ->
      hangup_reason ringing_call = phoneCallDiscardReasonHangup).
Proof.
  apply (hangup_and_decline_reasons sample_env ringing_call).
  - vm_compute. discriminate.
  - vm_compute. discriminate.
  - vm_compute. discriminate.
  - vm_compute. discriminate.
Defined.

(** X16. [finish] on a call without an id never sends
    [phone.discardCall], whatever the state; unless the call is still
    [Requesting] or already [HangingUp], it ends in [Ended] at once. *)
Theorem finish_without_id_sends_nothing
    (env : Env) (reason : MTPPhoneCallDiscardReason) (c : Call) :
  _id c = 0 ->
  filter is_discard_request (effects (finish env reason c))
  = filter is_discard_request (effects c)
  /\ (_state c <> Requesting -> _state c <> HangingUp ->
      _state (finish env reason c) = Ended).
Proof.
  intros Hid. unfold finish. rewrite Hid. simpl.
  destruct (State_eqb (_state c) Requesting) eqn:E1.
  - split.
    + simpl. rewrite filter_app. simpl. now rewrite app_nil_r.
    + intros H. apply State_eqb_eq in E1. congruence.
  - destruct (State_eqb (_state c) HangingUp) eqn:E2; simpl.
    + split; [reflexivity|]. intros _ H. apply State_eqb_eq in E2. congruence.
    + destruct (State_eqb (_state c) Ended) eqn:E3; simpl.
      * split; [reflexivity|]. intros _ _. now apply State_eqb_eq.
      * split; [|intros _ _; apply setState_state].
        destruct (setState_effects_any env Ended c) as (added & Ha & _ & Hd).
        rewrite Ha, filter_app, Hd. now rewrite app_nil_r.
Qed.

Lemma finish_without_id_sends_nothing_witness :
  filter is_discard_request
    (effects (finish sample_env phoneCallDiscardReasonHangup sample_incoming))
  = filter is_discard_request (effects sample_incoming)
  /\ (_state sample_incoming <> Requesting ->
      _state sample_incoming <> HangingUp ->
      _state (finish sample_env phoneCallDiscardReasonHangup sample_incoming)
      = Ended).
Proof.
  apply (finish_without_id_sends_nothing sample_env
           phoneCallDiscardReasonHangup sample_incoming).
  reflexivity.
Defined.

(** X17. When [hangup] was called in [Requesting] and no response comes,
    the timer it armed ends the call: the state goes to [Ended], with the
    [Ended] notification and [callFinished], and no request is sent. *)
Theorem hangup_while_requesting_then_timeout
    (env1 env2 : Env) (c : Call) :
  _state c = Requesting ->
  let c1 := hangup env1 c in
  let c2 := hangupByTimeout env2 c1 in
  _state c2 = Ended
  /\ _hangupByTimeoutTimer c2 = None
  /\ effects c2
     = effects c
         ++ [hangupByTimeoutTimer_call kHangupTimeoutMs;
             stateChanged_notify Ended; delegate_callFinished].
Proof.
  intros Hst.
  destruct c as [user ty st fin i ah pr dh rp ga gb gh ak kf
                   stt mu ctl tm eff].
  simpl in Hst. subst st. cbv zeta.
  unfold hangup, finish. simpl. unfold hangupByTimeout. simpl.
  unfold setState. simpl. repeat split.
  rewrite <- !app_assoc. reflexivity.
Qed.

Lemma hangup_while_requesting_then_timeout_witness :
  let c1 := hangup sample_env requesting_call in
  let c2 := hangupByTimeout sample_env c1 in
  _state c2 = Ended
  /\ _hangupByTimeoutTimer c2 = None
  /\ effects c2
     = effects requesting_call
         ++ [hangupByTimeoutTimer_call kHangupTimeoutMs;
             stateChanged_notify Ended; delegate_callFinished].
Proof.
  apply (hangup_while_requesting_then_timeout sample_env sample_env
           requesting_call).
  vm_compute. reflexivity.
Defined.

(** ** Mute *)

(** X18. [setMute] stores the flag and changes neither the state nor the
    log; a controller that exists gets the flag at once and keeps its
    key, endpoints and direction. *)
Theorem setMute_stores_and_forwards (mute : bool) (c : Call) :
  _mute (setMute mute c) = mute
  /\ _state (setMute mute c) = _state c
  /\ effects (setMute mute c) = effects c
  /\ match _controller c with
     | None => _controller (setMute mute c) = None
     | Some ctl =>
         exists ctl',
           _controller (setMute mute c) = Some ctl'
           /\ tgvoip.micMute ctl' = mute
           /\ tgvoip.encryptionKey ctl' = tgvoip.encryptionKey ctl
           /\ tgvoip.remoteEndpoints ctl' = tgvoip.remoteEndpoints ctl
           /\ tgvoip.isOutgoing ctl' = tgvoip.isOutgoing ctl
           /\ tgvoip.started ctl' = tgvoip.started ctl
     end.
Proof.
  unfold setMute. cbv zeta.
  assert (E : _controller (with_mute mute c) = _controller c) by reflexivity.
  rewrite E. destruct (_controller c) as [ctl|].
  - split; [reflexivity|]. split; [reflexivity|]. split; [reflexivity|].
    eexists. split; [reflexivity|]. repeat split.
  - repeat split. exact E.
Qed.

(** X19. A mute flag set before the controller exists is not lost: the
    controller [createAndStartController] creates afterwards has it. *)
Theorem pending_mute_applied_at_creation
    (env : Env) (mute : bool) (call : phoneCall.t) (c : Call) :
  call_fields_match env call c = true ->
  exists ctl,
    _controller (createAndStartController env call (setMute mute c))
    = Some ctl
    /\ tgvoip.micMute ctl = mute.
Proof.
  intros Hmatch. rewrite createAndStartController_spec.
  assert (M : call_fields_match env call (setMute mute c) = true).
  { rewrite <- Hmatch. unfold setMute. cbv zeta.
    assert (E : _controller (with_mute mute c) = _controller c)
      by reflexivity.
    rewrite E. destruct (_controller c); reflexivity. }
  rewrite M. eexists. split; [reflexivity|].
  unfold controller_for. cbn [tgvoip.micMute]. rewrite setState_mute.
  unfold setMute. cbv zeta.
  assert (E : _controller (with_mute mute c) = _controller c) by reflexivity.
  rewrite E. destruct (_controller c); reflexivity.
Qed.

Lemma pending_mute_applied_at_creation_witness :
  exists ctl,
    _controller
      (createAndStartController sample_env
         unkeyed_record
         (setMute true exchanging_call))
    = Some ctl
    /\ tgvoip.micMute ctl = true.
Proof.
  apply (pending_mute_applied_at_creation sample_env true
           unkeyed_record exchanging_call).
  vm_compute. reflexivity.
Defined.

(** ** The controller's state callback *)

(** X20. [handleControllerStateChange] never changes the call's state,
    start time or controller itself: for the four state codes it knows it
    queues one [setState] (which, once run, gives that state), and for
    any other code it does nothing. *)
Theorem handleControllerStateChange_only_queues
    (env : Env) (state : tgvoip.state_t) (c : Call) :
  let c' := handleControllerStateChange state c in
  _state c' = _state c
  /\ _startTime c' = _startTime c
  /\ _controller c' = _controller c
  /\ match queued_state_of state with
     | Some s =>
         effects c' = effects c ++ [InvokeQueued_setState s]
         /\ _state (queued_setState env s c') = s
     | None => c' = c
     end.
Proof.
  cbv zeta. destruct state; simpl; repeat split;
    unfold queued_setState; apply setState_state.
Qed.

(** ** The secret exponent *)

Lemma to_integer_byte_of_Z z : 0 <= z < 256 -> to_integer (byte_of_Z z) = z.
Proof.
  intros H. unfold byte_of_Z, to_integer.
  rewrite Z.mod_small by lia.
  destruct (Byte.of_N (Z.to_N z)) as [b|] eqn:E.
  - apply Byte.to_of_N in E. rewrite E. lia.
  - pose proof (Byte.to_of_N_option_map (Z.to_N z)) as M.
    rewrite E in M. simpl in M.
    destruct (Z.to_N z <=? 255)%N eqn:L; [discriminate|].
    apply N.leb_gt in L. lia.
Qed.

Lemma lxor_byte_range a b :
  0 <= a < 256 -> 0 <= b < 256 -> 0 <= Z.lxor a b < 256.
Proof.
  intros Ha Hb. split.
  - apply Z.lxor_nonneg. lia.
  - destruct (Z.eq_dec (Z.lxor a b) 0) as [E|E]; [lia|].
    apply Z.log2_lt_pow2 with (b := 8); [|].
    + pose proof (Z.lxor_nonneg a b). lia.
    + pose proof (Z.log2_lxor a b ltac:(lia) ltac:(lia)) as L.
      assert (Z.log2 a < 8).
      { destruct (Z.eq_dec a 0); [subst; simpl; lia|].
        apply Z.log2_lt_pow2; lia. }
      assert (Z.log2 b < 8).
      { destruct (Z.eq_dec b 0); [subst; simpl; lia|].
        apply Z.log2_lt_pow2; lia. }
      lia.
Qed.

Lemma byte_xor_spec a b :
  to_integer (byte_xor a b) = Z.lxor (to_integer a) (to_integer b).
Proof.
  unfold byte_xor. apply to_integer_byte_of_Z.
  apply lxor_byte_range; apply to_integer_range.
Qed.

(** X21. With entropy of the right size, [generateRandomPower] fills
    [_randomPower] with exactly that many bytes, the byte at each index
    being the exclusive or of the random byte written there and the
    entropy byte at the same index; the state and the log are untouched. *)
Theorem generateRandomPower_mixes_entropy
    (kRandomPowerSize : nat) (env : Env) (random : list byte) (c : Call) :
  List.length random = kRandomPowerSize ->
  exists c',
    generateRandomPower kRandomPowerSize env random c = Ok c'
    /\ List.length (_randomPower c') = kRandomPowerSize
    /\ (forall i, (i < kRandomPowerSize)%nat ->
          to_integer (nth i (_randomPower c') x00)
          = Z.lxor (to_integer (memset_rand env i))
                   (to_integer (nth i random x00)))
    /\ _state c' = _state c
    /\ effects c' = effects c.
Proof.
  intros Hlen. unfold generateRandomPower, Expects.
  apply Nat.eqb_eq in Hlen as Hlen'. rewrite Hlen'. cbn [bind].
  eexists. split; [reflexivity|].
  cbn [_randomPower with_randomPower _state effects].
  split; [|split; [|split; reflexivity]].
  - rewrite length_map, length_combine, length_map, length_seq. lia.
  - intros i Hi.
    set (f := fun ab : byte * byte => byte_xor (fst ab) (snd ab)).
    assert (D : f (x00, x00) = x00) by reflexivity.
    rewrite <- D at 1. rewrite map_nth.
    rewrite combine_nth by (rewrite length_map, length_seq; lia).
    unfold f. cbn [fst snd]. rewrite byte_xor_spec.
    f_equal. f_equal.
    rewrite (nth_indep _ x00 (memset_rand env 0))
      by (rewrite length_map, length_seq; lia).
    rewrite map_nth, seq_nth by lia. reflexivity.
Qed.

Lemma generateRandomPower_mixes_entropy_witness :
  exists c',
    generateRandomPower 256 sample_env (repeat x01 256) sample_incoming
    = Ok c'
    /\ List.length (_randomPower c') = 256%nat
    /\ (forall i, (i < 256)%nat ->
          to_integer (nth i (_randomPower c') x00)
          = Z.lxor (to_integer (memset_rand sample_env i))
                   (to_integer (nth i (repeat x01 256) x00)))
    /\ _state c' = _state sample_incoming
    /\ effects c' = effects sample_incoming.
Proof.
  apply (generateRandomPower_mixes_entropy 256 sample_env (repeat x01 256)
           sample_incoming).
  apply repeat_length.
Defined.

(** ** Responses and [answer] *)

(** X22. When no hang-up is pending, the response to [phone.requestCall]
    with a waiting record puts the call in [Waiting] and stores the id
    and access hash of the record, sending no discard; a response of any
    other sub-type fails the call. *)
Theorem requestCall_done_outcomes
    (env : Env) (result : MTPphone_PhoneCall) (c : Call) :
  _finishAfterRequestingCall c = false ->
  match vphone_call result with
  | mtpc_phoneCallWaiting waiting =>
      exists c',
        requestCall_done env result c = Ok c'
        /\ _state c' = Waiting
        /\ _id c' = phoneCallWaiting.vid waiting
        /\ _accessHash c' = phoneCallWaiting.vaccess_hash waiting
        /\ filter is_discard_request (effects c')
           = filter is_discard_request (effects c)
  | _ =>
      requestCall_done env result c
      = Ok (setState env Failed (emit (App_feedUsers (vusers result)) c))
  end.
Proof.
  intros Hfin. unfold requestCall_done. cbv zeta.
  destruct (vphone_call result) as [d|d|d|d|d|d] eqn:Hv; try reflexivity.
  assert (F : _finishAfterRequestingCall
                (setState env Waiting (emit (App_feedUsers (vusers result)) c))
              = false).
  { rewrite <- Hfin. unfold setState. destruct (negb _); reflexivity. }
  rewrite F. unfold handleUpdate.
  cbn [_id with_accessHash with_id]. rewrite Z.eqb_refl. cbn [negb bind snd].
  eexists. split; [reflexivity|].
  cbn [_state _id _accessHash effects with_accessHash with_id].
  rewrite setState_state. repeat split.
  unfold setState. destruct (negb _); cbn; rewrite ?filter_app; cbn;
    rewrite ?app_nil_r; reflexivity.
Qed.

Lemma requestCall_done_outcomes_witness :
  match vphone_call sample_waiting_result with
  | mtpc_phoneCallWaiting waiting =>
      exists c',
        requestCall_done sample_env sample_waiting_result
          requesting_call = Ok c'
        /\ _state c' = Waiting
        /\ _id c' = phoneCallWaiting.vid waiting
        /\ _accessHash c' = phoneCallWaiting.vaccess_hash waiting
        /\ filter is_discard_request (effects c')
           = filter is_discard_request (effects requesting_call)
  | _ =>
      requestCall_done sample_env sample_waiting_result
        requesting_call
      = Ok (setState sample_env Failed
              (emit (App_feedUsers (vusers sample_waiting_result))
                 requesting_call))
  end.
Proof.
  apply (requestCall_done_outcomes sample_env sample_waiting_result
           requesting_call).
  vm_compute. reflexivity.
Defined.

(** X23. [answer] on an incoming call: when the first exponentiation is
    empty the call fails and nothing is sent; otherwise [_gb] is stored,
    the call moves to [ExchangingKeys] and [phone.acceptCall] is sent
    last, with the call's id and access hash, [_gb] and the protocol
    received with the call. *)
Theorem answer_outcomes (env : Env) (c : Call) (gb : list byte) :
  _type c = Incoming ->
  ComputeModExpFirst env (_dhConfig c) (_randomPower c) = Ok gb ->
  match gb with
  | [] => answer env c = Ok (setState env Failed (with_gb [] c))
  | _ :: _ =>
      exists c' before,
        answer env c = Ok c'
        /\ _state c' = ExchangingKeys
        /\ _gb c' = gb
        /\ effects c'
           = before
               ++ [request_send
                     (MTPphone_AcceptCall (_id c) (_accessHash c) gb
                        (_protocol c))]
  end.
Proof.
  intros Hty Hgb. unfold answer. rewrite Hty.
  cbn [CallType_eqb Expects bind]. rewrite Hgb. cbn [bind].
  destruct gb as [|b gb]; [reflexivity|].
  cbn [_gb with_gb].
  eexists.
  exists (effects (setState env ExchangingKeys (with_gb (b :: gb) c))).
  split; [reflexivity|].
  cbn [emit _state _gb effects].
  rewrite setState_state, setState_gb, setState_id, setState_accessHash,
    setState_protocol.
  repeat split.
Qed.

Lemma answer_outcomes_witness :
  match _gb exchanging_call with
  | [] =>
      answer sample_env ringing_call
      = Ok (setState sample_env Failed (with_gb [] ringing_call))
  | _ :: _ =>
      exists c' before,
        answer sample_env ringing_call = Ok c'
        /\ _state c' = ExchangingKeys
        /\ _gb c' = _gb exchanging_call
        /\ effects c'
           = before
               ++ [request_send
                     (MTPphone_AcceptCall (_id ringing_call)
                        (_accessHash ringing_call)
                        (_gb exchanging_call)
                        (_protocol ringing_call))]
  end.
Proof.
  apply (answer_outcomes sample_env ringing_call
           (_gb exchanging_call)).
  - vm_compute. reflexivity.
  - vm_compute. reflexivity.
Defined.

(** ** What [handleUpdate] never does *)

(** X24. Apart from the "call requested" variant, [handleUpdate] never
    stops the process once the exponentiation itself returns: the
    direction preconditions of the members it calls hold by its own
    guards, and the size assertion on the key cannot fail on a result the
    exponentiation let through. *)
Theorem handleUpdate_does_not_stop_the_process
    (env : Env) (call : MTPPhoneCall) (c : Call) (raw : list byte) :
  update_id call <> None ->
  List.length (_authKey c) = kAuthKeySize ->
  ComputeModExpFinal env (_dhConfig c) (revealed_value call)
    (_randomPower c) = Ok raw ->
  exists consumed c', handleUpdate env call c = Ok (consumed, c').
Proof.
  intros Hvar Hlen Hexp.
  pose proof (ComputeModExp_size _ _ _ _ _ Hexp) as Hsize.
  unfold handleUpdate.
  destruct call as [d|d|d|d|d|d]; cbn [revealed_value] in Hexp.
  - destruct (negb _); eauto.
  - destruct (negb _); eauto.
  - exfalso. apply Hvar. reflexivity.
  - destruct (negb (_ =? _)); [eauto|].
    destruct (_type c) eqn:Hty; cbn [CallType_eqb negb]; [eauto|].
    unfold checkCallFields_accepted. rewrite checkCallCommonFields_spec.
    destruct (_ && _); [|eauto].
    unfold confirmAcceptedCall. rewrite Hty.
    cbn [CallType_eqb Expects bind]. rewrite Hexp. cbn [bind].
    destruct raw as [|b raw]; cbn [bind]; [eauto|].
    rewrite (deriveAuthKey_ok _ _ Hlen Hsize). cbn [bind]. eauto.
  - destruct (negb (_ =? _)); [eauto|].
    destruct (_type c) eqn:Hty; cbn [CallType_eqb andb]; [|eauto].
    destruct (State_eqb _ _); [|eauto].
    unfold startConfirmedCall. rewrite Hty.
    cbn [CallType_eqb Expects bind]. cbv zeta.
    destruct (negb _); cbn [bind]; [eauto|].
    rewrite Hexp. cbn [bind].
    destruct raw as [|b raw]; cbn [bind]; [eauto|].
    rewrite (deriveAuthKey_ok _ _ Hlen Hsize). cbn [bind]. eauto.
  - destruct (negb (_ =? _)); [eauto|].
    cbv zeta. destruct (phoneCallDiscarded.vreason d) as [[]|]; eauto.
Qed.

Lemma handleUpdate_does_not_stop_the_process_witness :
  exists consumed c',
    handleUpdate sample_env (mtpc_phoneCall confirmed_record)
      exchanging_call = Ok (consumed, c').
Proof.
  apply (handleUpdate_does_not_stop_the_process sample_env
           (mtpc_phoneCall confirmed_record)
           exchanging_call shared_secret).
  - discriminate.
  - vm_compute. reflexivity.
  - vm_compute. reflexivity.
Defined.

(** X25. Whenever an update changes the controller of a call, the update
    is a confirmed call for this call's id, the call is incoming and was
    exchanging keys, the revealed value hashes to the stored commitment,
    the access hash matches, the fingerprint of the record is that of the
    key now held, and the call is [Established] with a controller that
    holds this key.  No other update, and no confirmed call failing one
    of these checks, touches the controller. *)
Theorem controller_created_only_after_checks
    (env : Env) (call : MTPPhoneCall) (c c' : Call) (consumed : bool) :
  handleUpdate env call c = Ok (consumed, c') ->
  _controller c' <> _controller c ->
  exists data,
    call = mtpc_phoneCall data
    /\ _type c = Incoming
    /\ _state c = ExchangingKeys
    /\ phoneCall.vid data = _id c
    /\ _gaHash c = openssl.Sha256 (phoneCall.vg_a_or_b data)
    /\ phoneCall.vaccess_hash data = _accessHash c
    /\ phoneCall.vkey_fingerprint data = ComputeFingerprint (_authKey c')
    /\ _state c' = Established
    /\ exists ctl,
         _controller c' = Some ctl
         /\ tgvoip.encryptionKey ctl = _authKey c'.
Proof.
  intros H Hctl. unfold handleUpdate in H.
  destruct call as [d|d|d|d|d|d].
  - exfalso. apply Hctl.
    destruct (negb _); apply Ok_inj in H; inversion H; subst;
      rewrite ?setState_controller; reflexivity.
  - exfalso. apply Hctl.
    destruct (negb _); apply Ok_inj in H; inversion H; subst; reflexivity.
  - exfalso. apply Hctl.
    destruct (_ || _); [discriminate|].
    destruct (negb (CurrentUserId env =? _)).
    { apply Ok_inj in H; inversion H; subst. apply setState_controller. }
    cbv zeta in H.
    destruct (negb (List.length _ =? _)%nat);
      apply Ok_inj in H; inversion H; subst;
      rewrite ?setState_controller; reflexivity.
  - exfalso. apply Hctl.
    destruct (negb (_ =? _));
      [apply Ok_inj in H; inversion H; subst; reflexivity|].
    destruct (negb (CallType_eqb _ _)).
    { apply Ok_inj in H; inversion H; subst. apply setState_controller. }
    unfold checkCallFields_accepted in H.
    rewrite checkCallCommonFields_spec in H.
    destruct (_ && _).
    + unfold confirmAcceptedCall in H.
      destruct (Expects _ _) as [[]|m]; cbn [bind] in H; [|discriminate].
      destruct (ComputeModExpFinal _ _ _ _) as [raw|m]; cbn [bind] in H;
        [|discriminate].
      destruct raw as [|b raw].
      * cbn [bind] in H. apply Ok_inj in H; inversion H; subst.
        apply setState_controller.
      * destruct (deriveAuthKey _ _) as [key|m]; cbn [bind] in H;
          [|discriminate].
        apply Ok_inj in H; inversion H; subst.
        cbn [emit _controller]. rewrite setState_controller. reflexivity.
    + apply Ok_inj in H; inversion H; subst. apply setState_controller.
  - destruct (phoneCall.vid d =? _id c) eqn:Eid; cbn [negb] in H.
    2:{ exfalso. apply Hctl. apply Ok_inj in H; inversion H; subst.
        reflexivity. }
    apply Z.eqb_eq in Eid.
    destruct (CallType_eqb (_type c) Incoming) eqn:Ety; cbn [andb] in H.
    2:{ exfalso. apply Hctl. apply Ok_inj in H; inversion H; subst.
        reflexivity. }
    apply CallType_eqb_eq in Ety.
    destruct (State_eqb (_state c) ExchangingKeys) eqn:Est.
    2:{ exfalso. apply Hctl. apply Ok_inj in H; inversion H; subst.
        reflexivity. }
    apply State_eqb_eq in Est.
    unfold startConfirmedCall in H. rewrite Ety in H.
    cbn [CallType_eqb Expects bind] in H. cbv zeta in H.
    destruct (bytes_eqb (_gaHash c) (openssl.Sha256 (phoneCall.vg_a_or_b d)))
      eqn:Eh; cbn [negb] in H.
    2:{ exfalso. apply Hctl. cbn [bind] in H.
        apply Ok_inj in H; inversion H; subst. apply setState_controller. }
    apply bytes_eqb_eq in Eh.
    destruct (ComputeModExpFinal _ _ _ _) as [raw|m]; cbn [bind] in H;
      [|discriminate].
    destruct raw as [|b raw].
    { exfalso. apply Hctl. cbn [bind] in H.
      apply Ok_inj in H; inversion H; subst. apply setState_controller. }
    destruct (deriveAuthKey _ _) as [key|m]; cbn [bind] in H;
      [|discriminate].
    rewrite createAndStartController_spec in H.
    destruct (call_fields_match env d _) eqn:M.
    2:{ exfalso. apply Hctl. cbn [bind] in H.
        apply Ok_inj in H; inversion H; subst.
        rewrite setState_controller. reflexivity. }
    cbn [bind] in H. apply Ok_inj in H. cbv iota in H.
    assert (Hc : c' = with_controller
                   (Some (controller_for env d
                            (setState env Established
                               (with_keyFingerprint (ComputeFingerprint key)
                                  (with_authKey key c)))))
                   (setState env Established
                      (with_keyFingerprint (ComputeFingerprint key)
                         (with_authKey key c)))).
    { cbn [_authKey with_authKey] in H. congruence. }
    clear H. subst c'. cbn [_authKey with_authKey] in M.
    unfold call_fields_match in M.
    cbn [_accessHash _keyFingerprint with_keyFingerprint with_authKey] in M.
    apply andb_prop in M. destruct M as [M Mfp].
    apply andb_prop in M. destruct M as [M _].
    apply andb_prop in M. destruct M as [Mah _].
    apply Z.eqb_eq in Mah, Mfp.
    exists d. split; [reflexivity|].
    cbn [_state _authKey _controller with_controller].
    rewrite setState_state, setState_authKey.
    cbn [_authKey with_keyFingerprint with_authKey].
    repeat split; try assumption.
    eexists. split; [reflexivity|].
    unfold controller_for. cbn [tgvoip.encryptionKey].
    rewrite setState_authKey. reflexivity.
  - exfalso. apply Hctl.
    destruct (negb (_ =? _));
      [apply Ok_inj in H; inversion H; subst; reflexivity|].
    cbv zeta in H.
    match type of H with
    | context [setState env _ ?x] =>
        assert (B : _controller x = _controller c)
    end.
    { destruct (phoneCallDiscarded.is_need_debug d); [|reflexivity].
      destruct (negb _); reflexivity. }
    destruct (phoneCallDiscarded.vreason d) as [[]|];
      apply Ok_inj in H; inversion H; subst;
      rewrite setState_controller; exact B.
Qed.

Lemma controller_created_only_after_checks_witness :
  exists data,
    mtpc_phoneCall confirmed_record = mtpc_phoneCall data
    /\ _type exchanging_call = Incoming
    /\ _state exchanging_call = ExchangingKeys
    /\ phoneCall.vid data = _id exchanging_call
    /\ _gaHash exchanging_call
       = openssl.Sha256 (phoneCall.vg_a_or_b data)
    /\ phoneCall.vaccess_hash data = _accessHash exchanging_call
    /\ phoneCall.vkey_fingerprint data
       = ComputeFingerprint (_authKey established_call)
    /\ _state established_call = Established
    /\ exists ctl,
         _controller established_call = Some ctl
         /\ tgvoip.encryptionKey ctl = _authKey established_call.
Proof.
  apply (controller_created_only_after_checks sample_env
           (mtpc_phoneCall confirmed_record)
           exchanging_call established_call true).
  - vm_compute. reflexivity.
  - vm_compute. discriminate.
Defined.

(** ** Invariants of the call object *)

Lemma well_sized_buffers k c c' :
  buffers c' = buffers c -> well_sized k c -> well_sized k c'.
Proof.
  unfold buffers, well_sized. intros H. inversion H as [[H1 H2 H3]].
  now rewrite H1, H2, H3.
Qed.

Lemma setState_buffers env s c : buffers (setState env s c) = buffers c.
Proof.
  unfold buffers, setState. destruct (negb _); [|reflexivity].
  simpl. destruct s; reflexivity.
Qed.

Lemma emit_buffers e c : buffers (emit e c) = buffers c.
Proof. reflexivity. Qed.

Lemma arm_buffers c : buffers (arm_hangupByTimeoutTimer c) = buffers c.
Proof. reflexivity. Qed.

Lemma finish_buffers env reason c : buffers (finish env reason c) = buffers c.
Proof.
  unfold finish.
  destruct (State_eqb (_state c) Requesting); [reflexivity|].
  destruct (_ || _); [reflexivity|].
  destruct (_id c =? 0); [apply setState_buffers|].
  cbv zeta. rewrite emit_buffers, arm_buffers. apply setState_buffers.
Qed.

Lemma setMute_buffers mute c : buffers (setMute mute c) = buffers c.
Proof.
  unfold setMute. cbv zeta.
  assert (E : _controller (with_mute mute c) = _controller c) by reflexivity.
  rewrite E. destruct (_controller c); reflexivity.
Qed.

Lemma createAndStartController_buffers env call c :
  buffers (createAndStartController env call c) = buffers c.
Proof.
  rewrite createAndStartController_spec.
  destruct (call_fields_match env call c).
  - change (buffers (with_controller ?x ?y)) with (buffers y).
    apply setState_buffers.
  - apply setState_buffers.
Qed.

Lemma hangupByTimeout_buffers env c :
  buffers (hangupByTimeout env c) = buffers c.
Proof.
  unfold hangupByTimeout. destruct (_hangupByTimeoutTimer c); [|reflexivity].
  rewrite setState_buffers. reflexivity.
Qed.

Lemma deriveAuthKey_length raw authKey key :
  List.length authKey = kAuthKeySize ->
  deriveAuthKey raw authKey = Ok key ->
  List.length key = kAuthKeySize.
Proof.
  intros Hlen H.
  destruct (Nat.le_gt_cases (List.length raw) kAuthKeySize) as [Hle|Hgt].
  - destruct (Nat.eq_dec (List.length raw) kAuthKeySize) as [Heq|Hne].
    + rewrite (deriveAuthKey_full raw authKey Hlen Heq) in H.
      apply Ok_inj in H. subst key. exact Heq.
    + rewrite (deriveAuthKey_short raw authKey Hlen) in H by lia.
      apply Ok_inj in H. subst key. rewrite length_app, repeat_length. lia.
  - unfold deriveAuthKey, t_assert, bind in H. cbv zeta in H.
    apply Nat.leb_gt in Hgt. rewrite Hgt in H. discriminate.
Qed.

Lemma well_sized_authKey k key c :
  List.length key = kAuthKeySize -> well_sized k c ->
  well_sized k (with_authKey key c).
Proof. unfold well_sized. cbn. tauto. Qed.

Lemma confirmAcceptedCall_sized k env data c c' :
  well_sized k c -> confirmAcceptedCall env data c = Ok c' -> well_sized k c'.
Proof.
  intros W. unfold confirmAcceptedCall.
  destruct (Expects _ _) as [[]|m]; cbn [bind]; [|discriminate].
  destruct (ComputeModExpFinal _ _ _ _) as [raw|m]; cbn [bind];
    [|discriminate].
  destruct raw as [|b raw].
  - intros H. inversion H; subst.
    eapply well_sized_buffers; [apply setState_buffers|exact W].
  - destruct (deriveAuthKey _ _) as [key|m] eqn:D; cbn [bind];
      [|discriminate].
    intros H. inversion H; subst. clear H.
    apply deriveAuthKey_length in D; [|apply W].
    eapply well_sized_buffers.
    { rewrite emit_buffers. apply setState_buffers. }
    unfold well_sized in *. cbn. tauto.
Qed.

Lemma startConfirmedCall_sized k env data c c' :
  well_sized k c -> startConfirmedCall env data c = Ok c' -> well_sized k c'.
Proof.
  intros W. unfold startConfirmedCall.
  destruct (Expects _ _) as [[]|m]; cbn [bind]; [|discriminate].
  destruct (negb _).
  { intros H. inversion H; subst.
    eapply well_sized_buffers; [apply setState_buffers|exact W]. }
  destruct (ComputeModExpFinal _ _ _ _) as [raw|m]; cbn [bind];
    [|discriminate].
  destruct raw as [|b raw].
  - intros H. inversion H; subst.
    eapply well_sized_buffers; [apply setState_buffers|exact W].
  - destruct (deriveAuthKey _ _) as [key|m] eqn:D; cbn [bind];
      [|discriminate].
    intros H. inversion H; subst. clear H.
    apply deriveAuthKey_length in D; [|apply W].
    eapply well_sized_buffers; [apply createAndStartController_buffers|].
    unfold well_sized in *. cbn. tauto.
Qed.

Lemma handleUpdate_sized k env call c r c' :
  well_sized k c -> handleUpdate env call c = Ok (r, c') -> well_sized k c'.
Proof.
  intros W. unfold handleUpdate.
  destruct call as [d|d|d|d|d|d].
  - destruct (negb _); intros H; inversion H; subst; [exact W|].
    eapply well_sized_buffers; [apply setState_buffers|exact W].
  - destruct (negb _); intros H; inversion H; subst; exact W.
  - destruct (_ || _); [discriminate|].
    destruct (negb (CurrentUserId env =? _)).
    { intros H; inversion H; subst.
      eapply well_sized_buffers; [apply setState_buffers|exact W]. }
    cbv zeta.
    destruct (negb (List.length _ =? _)%nat) eqn:E.
    + intros H; inversion H; subst.
      eapply well_sized_buffers; [apply setState_buffers|].
      eapply well_sized_buffers; [|exact W]. reflexivity.
    + intros H; inversion H; subst. clear H.
      apply negb_false_iff, Nat.eqb_eq in E.
      destruct W as (W1 & W2 & W3).
      unfold well_sized. cbn. repeat split; try assumption.
      unfold copy_bytes. cbn [firstn app Nat.add].
      rewrite skipn_all2 by lia. rewrite app_nil_r. exact E.
  - destruct (negb (_ =? _)); [intros H; inversion H; subst; exact W|].
    destruct (negb (CallType_eqb _ _)).
    { intros H; inversion H; subst.
      eapply well_sized_buffers; [apply setState_buffers|exact W]. }
    unfold checkCallFields_accepted. rewrite checkCallCommonFields_spec.
    destruct (_ && _).
    + destruct (confirmAcceptedCall env d c) as [c1|m] eqn:C; cbn [bind];
        [|discriminate].
      intros H; inversion H; subst.
      eapply confirmAcceptedCall_sized; eassumption.
    + intros H; inversion H; subst.
      eapply well_sized_buffers; [apply setState_buffers|exact W].
  - destruct (negb (_ =? _)); [intros H; inversion H; subst; exact W|].
    destruct (_ && _).
    + destruct (startConfirmedCall env d c) as [c1|m] eqn:C; cbn [bind];
        [|discriminate].
      intros H; inversion H; subst.
      eapply startConfirmedCall_sized; eassumption.
    + intros H; inversion H; subst; exact W.
  - destruct (negb (_ =? _)); [intros H; inversion H; subst; exact W|].
    cbv zeta.
    match goal with
    | |- context [setState env _ ?x] =>
        assert (B : buffers x = buffers c)
    end.
    { destruct (phoneCallDiscarded.is_need_debug d); [|reflexivity].
      destruct (negb _); reflexivity. }
    destruct (phoneCallDiscarded.vreason d) as [[]|];
      intros H; inversion H; subst;
      (eapply well_sized_buffers;
       [rewrite setState_buffers; exact B|exact W]).
Qed.

Lemma generateRandomPower_sized k env random c c' :
  well_sized k c -> generateRandomPower k env random c = Ok c' ->
  well_sized k c'.
Proof.
  intros (W1 & W2 & W3). unfold generateRandomPower, Expects.
  destruct (List.length random =? k)%nat eqn:E; cbn [bind]; [|discriminate].
  intros H. apply Ok_inj in H. subst c'. apply Nat.eqb_eq in E.
  unfold well_sized. cbn [_randomPower _gaHash _authKey with_randomPower].
  repeat split; try assumption.
  rewrite length_map, length_combine, length_map, length_seq. lia.
Qed.

Lemma startOutgoing_sized k env c c' :
  well_sized k c -> startOutgoing env c = Ok c' -> well_sized k c'.
Proof.
  intros W. unfold startOutgoing.
  destruct (ComputeModExpFirst _ _ _) as [ga|m]; cbn [bind]; [|discriminate].
  destruct ga as [|b ga]; cbn [_ga with_ga]; intros H; apply Ok_inj in H;
    subst c'.
  - eapply well_sized_buffers; [apply setState_buffers|].
    eapply well_sized_buffers; [|exact W]. reflexivity.
  - eapply well_sized_buffers.
    { rewrite emit_buffers. apply setState_buffers. }
    destruct W as (W1 & W2 & W3). unfold well_sized.
    cbn [_randomPower _gaHash _authKey with_gaHash with_ga].
    repeat split; try assumption. apply Sha256_length.
Qed.

Lemma start_sized k env random c c' :
  well_sized k c -> start k env random c = Ok c' -> well_sized k c'.
Proof.
  intros W. unfold start. cbv zeta.
  destruct (t_assert _ "_dhConfig.g != 0") as [[]|m1]; cbn [bind];
    [|discriminate].
  destruct (t_assert _ "!_dhConfig.p.empty()") as [[]|m2]; cbn [bind];
    [|discriminate].
  destruct (generateRandomPower k env random _) as [c1|m] eqn:G; cbn [bind];
    [|discriminate].
  apply generateRandomPower_sized in G;
    [|eapply well_sized_buffers; [|exact W]; reflexivity].
  destruct (CallType_eqb (_type c1) Outgoing).
  - apply startOutgoing_sized. exact G.
  - intros H. apply Ok_inj in H. subst c'.
    eapply well_sized_buffers; [apply setState_buffers|exact G].
Qed.

Lemma answer_sized k env c c' :
  well_sized k c -> answer env c = Ok c' -> well_sized k c'.
Proof.
  intros W. unfold answer.
  destruct (Expects _ _) as [[]|m]; cbn [bind]; [|discriminate].
  destruct (ComputeModExpFirst _ _ _) as [gb|m]; cbn [bind]; [|discriminate].
  destruct gb as [|b gb]; cbn [_gb with_gb]; intros H; apply Ok_inj in H;
    subst c'.
  - eapply well_sized_buffers; [apply setState_buffers|].
    eapply well_sized_buffers; [|exact W]. reflexivity.
  - eapply well_sized_buffers.
    { rewrite emit_buffers. apply setState_buffers. }
    eapply well_sized_buffers; [|exact W]. reflexivity.
Qed.

Lemma requestCall_done_sized k env result c c' :
  well_sized k c -> requestCall_done env result c = Ok c' -> well_sized k c'.
Proof.
  intros W. unfold requestCall_done. cbv zeta.
  assert (W1 : well_sized k
                 (setState env Waiting
                    (emit (App_feedUsers (vusers result)) c))).
  { eapply well_sized_buffers; [apply setState_buffers|exact W]. }
  assert (W2 : well_sized k
                 (setState env Failed
                    (emit (App_feedUsers (vusers result)) c))).
  { eapply well_sized_buffers; [apply setState_buffers|exact W]. }
  destruct (vphone_call result) as [d|d|d|d|d|d] eqn:Hv;
    try (intros H; apply Ok_inj in H; subst c'; exact W2).
  destruct (_finishAfterRequestingCall _).
  - intros H. apply Ok_inj in H. subst c'.
    eapply well_sized_buffers; [apply finish_buffers|exact W1].
  - destruct (handleUpdate env _ _) as [[r c1]|m] eqn:U; cbn [bind];
      [|discriminate].
    intros H. apply Ok_inj in H. cbn [snd] in H. subst c'.
    eapply handleUpdate_sized; [|exact U].
    eapply well_sized_buffers; [|exact W1]. reflexivity.
Qed.

Lemma acceptCall_done_sized k env result c c' :
  well_sized k c -> acceptCall_done env result c = Ok c' -> well_sized k c'.
Proof.
  intros W. unfold acceptCall_done. cbv zeta.
  assert (W2 : well_sized k
                 (setState env Failed
                    (emit (App_feedUsers (vusers result)) c))).
  { eapply well_sized_buffers; [apply setState_buffers|exact W]. }
  destruct (vphone_call result) as [d|d|d|d|d|d] eqn:Hv;
    try (intros H; apply Ok_inj in H; subst c'; exact W2).
  destruct (handleUpdate env _ _) as [[r c1]|m] eqn:U; cbn [bind];
    [|discriminate].
  intros H. apply Ok_inj in H. cbn [snd] in H. subst c'.
  eapply handleUpdate_sized; [|exact U].
  eapply well_sized_buffers; [|exact W]. reflexivity.
Qed.

Lemma confirmCall_done_buffers env result c :
  buffers (confirmCall_done env result c) = buffers c.
Proof.
  unfold confirmCall_done. cbv zeta.
  destruct (vphone_call result);
    rewrite ?createAndStartController_buffers, ?setState_buffers;
    reflexivity.
Qed.

Lemma Call_ctor_sized k init env user type :
  well_sized k (Call_ctor k init env user type).
Proof.
  unfold Call_ctor. cbv zeta. cbn [_type].
  destruct (CallType_eqb type Outgoing).
  - eapply well_sized_buffers; [apply setState_buffers|].
    unfold well_sized. cbn. rewrite !repeat_length. repeat split.
  - unfold well_sized. cbn. rewrite !repeat_length. repeat split.
Qed.

Lemma step_sized
    (kRandomPowerSize : nat) (env : Env) (ev : Event) (c c' : Call) :
  well_sized kRandomPowerSize c ->
  step kRandomPowerSize env ev c = Ok c' ->
  well_sized kRandomPowerSize c'.
Proof.
  intros W. destruct ev; cbn [step].
  - apply start_sized; exact W.
  - apply answer_sized; exact W.
  - intros H; apply Ok_inj in H; subst c'.
    eapply well_sized_buffers; [apply setMute_buffers|exact W].
  - intros H; apply Ok_inj in H; subst c'.
    eapply well_sized_buffers; [apply finish_buffers|exact W].
  - intros H; apply Ok_inj in H; subst c'.
    eapply well_sized_buffers; [apply finish_buffers|exact W].
  - intros H; apply Ok_inj in H; subst c'.
    eapply well_sized_buffers; [apply finish_buffers|exact W].
  - destruct (handleUpdate env call c) as [[r c1]|m] eqn:U; cbn [bind];
      [|discriminate].
    intros H; apply Ok_inj in H; cbn [snd] in H; subst c'.
    eapply handleUpdate_sized; eassumption.
  - apply requestCall_done_sized; exact W.
  - apply acceptCall_done_sized; exact W.
  - intros H; apply Ok_inj in H; subst c'.
    eapply well_sized_buffers; [apply confirmCall_done_buffers|exact W].
  - intros H; apply Ok_inj in H; subst c'.
    eapply well_sized_buffers; [apply setState_buffers|exact W].
  - intros H; apply Ok_inj in H; subst c'.
    eapply well_sized_buffers; [|exact W]. reflexivity.
  - intros H; apply Ok_inj in H; subst c'.
    eapply well_sized_buffers; [apply setState_buffers|exact W].
  - intros H; apply Ok_inj in H; subst c'.
    eapply well_sized_buffers; [apply hangupByTimeout_buffers|exact W].
  - intros H; apply Ok_inj in H; subst c'.
    eapply well_sized_buffers; [apply setState_buffers|exact W].
  - intros H; apply Ok_inj in H; subst c'.
    eapply well_sized_buffers; [|exact W]. destruct state; reflexivity.
Qed.

Lemma run_sized k evs c c' :
  well_sized k c -> run k evs c = Ok c' -> well_sized k c'.
Proof.
  revert c. induction evs as [|[env ev] evs IH]; intros c W; cbn [run].
  - intros H. apply Ok_inj in H. now subst.
  - destruct (step k env ev c) as [c1|m] eqn:S; cbn [bind]; [|discriminate].
    apply IH. eapply step_sized; eassumption.
Qed.

(** X26. The three fixed-size buffers keep their sizes: in every call
    reached from the constructor by any sequence of events (member calls,
    updates, responses, timer and queue callbacks), [_randomPower] has
    the size of the secret exponent, [_gaHash] 32 bytes and [_authKey]
    256 bytes. *)
Theorem buffers_keep_their_sizes
    (kRandomPowerSize : nat) (initialState : State) (env0 : Env)
    (user : UserData) (type : CallType) (evs : list (Env * Event))
    (c : Call) :
  run kRandomPowerSize evs
    (Call_ctor kRandomPowerSize initialState env0 user type) = Ok c ->
  well_sized kRandomPowerSize c.
Proof.
  intros H. eapply run_sized; [|exact H]. apply Call_ctor_sized.
Qed.

Lemma buffers_keep_their_sizes_witness :
  well_sized 256 finished_call.
Proof.
  apply (buffers_keep_their_sizes 256 OtherState sample_env sample_user
           Incoming sample_incoming_events
           finished_call).
  vm_compute. reflexivity.
Defined.

Lemma announces_refl c : announces c c.
Proof. exists []. split; [now rewrite app_nil_r|reflexivity]. Qed.

Lemma announces_trans c1 c2 c3 :
  announces c1 c2 -> announces c2 c3 -> announces c1 c3.
Proof.
  intros (a1 & E1 & S1) (a2 & E2 & S2). exists (a1 ++ a2). split.
  - rewrite E2, E1, app_assoc. reflexivity.
  - unfold observed_state in *. rewrite fold_left_app, S1. exact S2.
Qed.

Lemma announces_same c c' :
  _state c' = _state c -> effects c' = effects c -> announces c c'.
Proof.
  intros S E. exists []. split; [now rewrite app_nil_r|]. now rewrite S.
Qed.

Lemma announces_emit e c :
  is_state_notification e = false -> announces c (emit e c).
Proof.
  intros H. exists [e]. split; [reflexivity|].
  destruct e; try reflexivity. discriminate.
Qed.

Lemma announces_setState env s c : announces c (setState env s c).
Proof.
  destruct (State_eq_dec (_state c) s) as [E|E].
  - subst s. unfold setState. rewrite State_eqb_refl. apply announces_refl.
  - exists (entry_effects s). split; [now apply setState_effects|].
    rewrite setState_state. destruct s; reflexivity.
Qed.

Ltac announce :=
  lazymatch goal with
  | |- announces ?c (setState _ _ ?y) =>
      apply (announces_trans c y); [announce|apply announces_setState]
  | |- announces ?c (emit _ ?y) =>
      apply (announces_trans c y);
      [announce|apply announces_emit; reflexivity]
  | |- announces ?c (arm_hangupByTimeoutTimer ?y) =>
      apply (announces_trans c y);
      [announce|apply (announces_trans y
                         (emit (hangupByTimeoutTimer_call kHangupTimeoutMs) y));
                [apply announces_emit; reflexivity
                |apply announces_same; reflexivity]]
  | |- announces ?c (?f _ ?y) =>
      first
        [ apply announces_refl
        | apply (announces_trans c y);
          [announce|apply announces_same; reflexivity] ]
  | |- announces ?c _ => apply announces_refl
  end.

Lemma finish_announces env reason c : announces c (finish env reason c).
Proof.
  unfold finish.
  destruct (State_eqb (_state c) Requesting); [announce|].
  destruct (_ || _); [announce|].
  destruct (_id c =? 0); [announce|].
  cbv zeta. announce.
Qed.

Lemma setMute_announces mute c : announces c (setMute mute c).
Proof.
  apply announces_same; unfold setMute; cbv zeta;
    assert (E : _controller (with_mute mute c) = _controller c)
      by reflexivity; rewrite E; destruct (_controller c); reflexivity.
Qed.

Lemma createAndStartController_announces env call c :
  announces c (createAndStartController env call c).
Proof.
  rewrite createAndStartController_spec.
  destruct (call_fields_match env call c); announce.
Qed.

Lemma confirmAcceptedCall_announces env data c c' :
  confirmAcceptedCall env data c = Ok c' -> announces c c'.
Proof.
  unfold confirmAcceptedCall.
  destruct (Expects _ _) as [[]|m]; cbn [bind]; [|discriminate].
  destruct (ComputeModExpFinal _ _ _ _) as [raw|m]; cbn [bind];
    [|discriminate].
  destruct raw as [|b raw].
  - intros H. apply Ok_inj in H. subst c'. announce.
  - destruct (deriveAuthKey _ _) as [key|m]; cbn [bind]; [|discriminate].
    intros H. apply Ok_inj in H. subst c'. cbv zeta. announce.
Qed.

Lemma startConfirmedCall_announces env data c c' :
  startConfirmedCall env data c = Ok c' -> announces c c'.
Proof.
  unfold startConfirmedCall.
  destruct (Expects _ _) as [[]|m]; cbn [bind]; [|discriminate].
  cbv zeta. destruct (negb _).
  { intros H. apply Ok_inj in H. subst c'. announce. }
  destruct (ComputeModExpFinal _ _ _ _) as [raw|m]; cbn [bind];
    [|discriminate].
  destruct raw as [|b raw].
  - intros H. apply Ok_inj in H. subst c'. announce.
  - destruct (deriveAuthKey _ _) as [key|m]; cbn [bind]; [|discriminate].
    intros H. apply Ok_inj in H. subst c'.
    eapply announces_trans; [|apply createAndStartController_announces].
    announce.
Qed.

Lemma handleUpdate_announces env call c r c' :
  handleUpdate env call c = Ok (r, c') -> announces c c'.
Proof.
  unfold handleUpdate.
  destruct call as [d|d|d|d|d|d].
  - destruct (negb _); intros H; apply Ok_inj in H; inversion H; subst;
      announce.
  - destruct (negb _); intros H; apply Ok_inj in H; inversion H; subst;
      announce.
  - destruct (_ || _); [discriminate|].
    destruct (negb (CurrentUserId env =? _)).
    { intros H; apply Ok_inj in H; inversion H; subst. announce. }
    cbv zeta.
    destruct (negb (List.length _ =? _)%nat);
      intros H; apply Ok_inj in H; inversion H; subst; announce.
  - destruct (negb (_ =? _));
      [intros H; apply Ok_inj in H; inversion H; subst; announce|].
    destruct (negb (CallType_eqb _ _)).
    { intros H; apply Ok_inj in H; inversion H; subst. announce. }
    unfold checkCallFields_accepted. rewrite checkCallCommonFields_spec.
    destruct (_ && _).
    + destruct (confirmAcceptedCall env d c) as [c1|m] eqn:C; cbn [bind];
        [|discriminate].
      intros H; apply Ok_inj in H; inversion H; subst.
      eapply confirmAcceptedCall_announces; eassumption.
    + intros H; apply Ok_inj in H; inversion H; subst. announce.
  - destruct (negb (_ =? _));
      [intros H; apply Ok_inj in H; inversion H; subst; announce|].
    destruct (_ && _).
    + destruct (startConfirmedCall env d c) as [c1|m] eqn:C; cbn [bind];
        [|discriminate].
      intros H; apply Ok_inj in H; inversion H; subst.
      eapply startConfirmedCall_announces; eassumption.
    + intros H; apply Ok_inj in H; inversion H; subst; announce.
  - destruct (negb (_ =? _));
      [intros H; apply Ok_inj in H; inversion H; subst; announce|].
    cbv zeta.
    match goal with
    | |- context [setState env _ ?x] => assert (B : announces c x)
    end.
    { destruct (phoneCallDiscarded.is_need_debug d); [|announce].
      destruct (negb _); announce. }
    destruct (phoneCallDiscarded.vreason d) as [[]|];
      intros H; apply Ok_inj in H; inversion H; subst;
      (eapply announces_trans; [exact B|apply announces_setState]).
Qed.

Lemma start_announces k env random c c' :
  start k env random c = Ok c' -> announces c c'.
Proof.
  unfold start. cbv zeta.
  destruct (t_assert _ "_dhConfig.g != 0") as [[]|m1]; cbn [bind];
    [|discriminate].
  destruct (t_assert _ "!_dhConfig.p.empty()") as [[]|m2]; cbn [bind];
    [|discriminate].
  unfold generateRandomPower.
  destruct (Expects _ _) as [[]|m3]; cbn [bind]; [|discriminate].
  set (c1 := with_randomPower _ _).
  assert (A1 : announces c c1) by (subst c1; announce).
  destruct (CallType_eqb (_type c1) Outgoing).
  - unfold startOutgoing.
    destruct (ComputeModExpFirst _ _ _) as [ga|m4]; cbn [bind];
      [|discriminate].
    destruct ga as [|b ga]; cbn [_ga with_ga]; intros H; apply Ok_inj in H;
      subst c'; (eapply announces_trans; [exact A1|]); cbv zeta; announce.
  - intros H. apply Ok_inj in H. subst c'. unfold startIncoming.
    eapply announces_trans; [exact A1|apply announces_setState].
Qed.

Lemma answer_announces env c c' : answer env c = Ok c' -> announces c c'.
Proof.
  unfold answer.
  destruct (Expects _ _) as [[]|m]; cbn [bind]; [|discriminate].
  destruct (ComputeModExpFirst _ _ _) as [gb|m]; cbn [bind]; [|discriminate].
  destruct gb as [|b gb]; cbn [_gb with_gb]; intros H; apply Ok_inj in H;
    subst c'; cbv zeta; announce.
Qed.

Lemma requestCall_done_announces env result c c' :
  requestCall_done env result c = Ok c' -> announces c c'.
Proof.
  unfold requestCall_done. cbv zeta.
  destruct (vphone_call result) as [d|d|d|d|d|d] eqn:Hv;
    try (intros H; apply Ok_inj in H; subst c'; announce).
  destruct (_finishAfterRequestingCall _).
  - intros H. apply Ok_inj in H. subst c'.
    eapply announces_trans; [|apply finish_announces]. announce.
  - destruct (handleUpdate env _ _) as [[r c1]|m] eqn:U; cbn [bind];
      [|discriminate].
    intros H. apply Ok_inj in H. cbn [snd] in H. subst c'.
    eapply announces_trans; [|eapply handleUpdate_announces; exact U].
    announce.
Qed.

Lemma acceptCall_done_announces env result c c' :
  acceptCall_done env result c = Ok c' -> announces c c'.
Proof.
  unfold acceptCall_done. cbv zeta.
  destruct (vphone_call result) as [d|d|d|d|d|d] eqn:Hv;
    try (intros H; apply Ok_inj in H; subst c'; announce).
  destruct (handleUpdate env _ _) as [[r c1]|m] eqn:U; cbn [bind];
    [|discriminate].
  intros H. apply Ok_inj in H. cbn [snd] in H. subst c'.
  eapply announces_trans; [|eapply handleUpdate_announces; exact U].
  announce.
Qed.

Lemma confirmCall_done_announces env result c :
  announces c (confirmCall_done env result c).
Proof.
  unfold confirmCall_done. cbv zeta.
  destruct (vphone_call result);
    try (eapply announces_trans;
         [|apply createAndStartController_announces]);
    announce.
Qed.

Lemma hangupByTimeout_announces env c : announces c (hangupByTimeout env c).
Proof.
  unfold hangupByTimeout. destruct (_hangupByTimeoutTimer c); announce.
Qed.

Lemma step_announces k env ev c c' :
  step k env ev c = Ok c' -> announces c c'.
Proof.
  destruct ev; cbn [step].
  - apply start_announces.
  - apply answer_announces.
  - intros H; apply Ok_inj in H; subst c'. apply setMute_announces.
  - intros H; apply Ok_inj in H; subst c'. apply finish_announces.
  - intros H; apply Ok_inj in H; subst c'. apply finish_announces.
  - intros H; apply Ok_inj in H; subst c'. apply finish_announces.
  - destruct (handleUpdate env call c) as [[r c1]|m] eqn:U; cbn [bind];
      [|discriminate].
    intros H; apply Ok_inj in H; cbn [snd] in H; subst c'.
    eapply handleUpdate_announces; eassumption.
  - apply requestCall_done_announces.
  - apply acceptCall_done_announces.
  - intros H; apply Ok_inj in H; subst c'. apply confirmCall_done_announces.
  - intros H; apply Ok_inj in H; subst c'. apply announces_setState.
  - intros H; apply Ok_inj in H; subst c'. unfold discardCall_done. announce.
  - intros H; apply Ok_inj in H; subst c'. apply announces_setState.
  - intros H; apply Ok_inj in H; subst c'. apply hangupByTimeout_announces.
  - intros H; apply Ok_inj in H; subst c'. apply announces_setState.
  - intros H; apply Ok_inj in H; subst c'.
    destruct state; unfold handleControllerStateChange, setStateQueued;
      announce.
Qed.

Lemma run_announces k evs c c' : run k evs c = Ok c' -> announces c c'.
Proof.
  revert c. induction evs as [|[env ev] evs IH]; intros c; cbn [run].
  - intros H. apply Ok_inj in H. subst. apply announces_refl.
  - destruct (step k env ev c) as [c1|m] eqn:S; cbn [bind]; [|discriminate].
    intros H. eapply announces_trans; [eapply step_announces; exact S|].
    apply IH. exact H.
Qed.

(** X27. Every state change is announced: in every call reached from
    the constructor by any sequence of events, replaying the
    [stateChanged] notifications of the log from the initial state gives
    the current state, so an observer of the notifications always holds
    the state of the call. *)
Theorem state_changes_are_announced
    (kRandomPowerSize : nat) (initialState : State) (env0 : Env)
    (user : UserData) (type : CallType) (evs : list (Env * Event))
    (c : Call) :
  run kRandomPowerSize evs
    (Call_ctor kRandomPowerSize initialState env0 user type) = Ok c ->
  observed_state initialState (effects c) = _state c.
Proof.
  intros H. apply run_announces in H.
  assert (A0 : observed_state initialState
                 (effects (Call_ctor kRandomPowerSize initialState env0
                             user type))
               = _state (Call_ctor kRandomPowerSize initialState env0
                           user type)).
  { unfold Call_ctor. cbv zeta. cbn [_type].
    destruct (CallType_eqb type Outgoing); [|reflexivity].
    match goal with
    | |- context [setState env0 Requesting ?x] =>
        destruct (announces_setState env0 Requesting x) as (a & E & S)
    end.
    rewrite E. cbn [effects app]. exact S. }
  destruct H as (added & E & S).
  rewrite E. unfold observed_state in *. rewrite fold_left_app, A0. exact S.
Qed.

Lemma state_changes_are_announced_witness :
  observed_state OtherState (effects finished_call)
  = _state finished_call.
Proof.
  apply (state_changes_are_announced 256 OtherState sample_env sample_user
           Incoming sample_incoming_events
           finished_call).
  vm_compute. reflexivity.
Defined.

Example finished_call_shape :
  run 256 sample_incoming_events sample_incoming = Ok finished_call
  /\ _state finished_call = Ended
  /\ _mute finished_call = true
  /\ notifications_of WaitingInit (effects finished_call) = 1%nat.
Proof. vm_compute. repeat split. Qed.
